(** * AnomCAT: the simulated portfolio growth engine and its persistence

    A shallow embedding of the two application scripts of the repository:

    - [Simulator]: the single-page script, [class AnomCAT]
      ([handleDeposit], [startBot], [simulateTrade], [saveToStorage],
      [loadFromStorage]);
    - [Dashboard]: the v1.01 script, the [AnomCAT] object
      ([deposit], [addTransaction], [updatePortfolio], [saveToStorage],
      [loadFromStorage]).

    Modelling conventions.

    - In the engine modules [Simulator] and [Dashboard] a JavaScript number
      is finite and is a real number; [NaN] is tracked where the code itself
      can produce it from text ([parseFloat], [parseInt]).
    - Numbers that are not finite ([Infinity], [-Infinity], and [NaN] kept in
      memory) are embedded in [WideSimulator] and [WideDashboard], which hold
      the deposit, the storage functions and the displayed profit of the two
      scripts, and agree with the engine modules on finite numbers.
    - The rounding of binary64 arithmetic is embedded where a statement turns
      on it, in the chart on the canvas and in the generated texts; what is
      assumed of it is gathered in [rounding].
    - [Date.now()] returns an integer number of milliseconds, a [Z].
    - [Date.now()] and [Math.random()] are read from an environment [env]
      handed to each operation: [clock e k] is what the operation's k-th
      [Date.now()] call site returns, [random e k] what its k-th
      [Math.random()] call site returns.
    - [localStorage] is a record of the three keys a script uses together with
      a flag telling whether the store can be accessed at all.  The text kept
      under a key that the scripts read with [JSON.parse] is classified as
      empty, malformed, or the serialisation of a document ([text]); the text
      of the other keys is a [string].
    - Of the page, what the statements are about is modelled: the path, the
      interval, the points of the chart, the children of the feed element
      and the caches of the service worker. *)

From Stdlib Require Import Reals Lra Lia ZArith List String Ascii Bool.
From Stdlib Require Import Decimal DecimalString DecimalZ Sorted.
Import ListNotations.

Open Scope R_scope.

(** ** JavaScript numbers *)

(** A number of the engine modules: [NaN], or a finite number. *)
Inductive jsnum : Type :=
| NaN
| Num (r : R).

Definition isNaN (x : jsnum) : bool :=
  match x with NaN => true | Num _ => false end.

Definition lift2 (f : R -> R -> R) (x y : jsnum) : jsnum :=
  match x, y with
  | Num a, Num b => Num (f a b)
  | _, _ => NaN
  end.

Definition jssub : jsnum -> jsnum -> jsnum := lift2 Rminus.
Definition jsmul : jsnum -> jsnum -> jsnum := lift2 Rmult.
Definition jsdiv : jsnum -> jsnum -> jsnum := lift2 Rdiv.

(** [Math.pow] on a positive base, which is the use the scripts make of it:
    the base is [1 + monthlyReturn], 1.013 in every state the scripts
    themselves produce.  No statement below depends on its value at a base
    that is not positive. *)
Definition Math_pow (b e : R) : R := Rpower b e.

(** [Math.pow] of a base that is a number and an exponent that may be
    [NaN]. *)
Definition jspow (b e : jsnum) : jsnum := lift2 Math_pow b e.

(** [x > y]: false as soon as one side is [NaN]. *)
Definition jsgt (x : jsnum) (y : R) : bool :=
  match x with
  | NaN => false
  | Num a => if Rgt_dec a y then true else false
  end.

(** ** Time and chance *)

Record env : Type := {
  clock : nat -> Z;
  random : nat -> R
}.

(** A chart point [{time, value}]. *)
Record point : Type := {
  time : Z;
  value : R
}.

(** ** Array operations *)

Section Arrays.
Context {A : Type}.

Definition push (l : list A) (x : A) : list A := l ++ [x].
Definition shift (l : list A) : list A := tl l.
Definition unshift (l : list A) (x : A) : list A := x :: l.
Definition slice0 (n : nat) (l : list A) : list A := firstn n l.
End Arrays.

(** ** Stored text *)

(** What a key read back with [JSON.parse] may hold: the empty string, a
    non-empty text that [JSON.parse] rejects, or the text [JSON.stringify]
    produces for a document of the shape the script saves.  A text that
    parses to a value of another shape is outside the model. *)
Inductive text (A : Type) : Type :=
| Blank
| Malformed
| Doc (a : A).

Arguments Blank {A}.
Arguments Malformed {A}.
Arguments Doc {A} a.

(** Truthiness of a string read from the store: only the empty one is falsy. *)
Definition truthy_text {A : Type} (t : text A) : bool :=
  match t with Blank => false | _ => true end.

Definition truthy (s : string) : bool :=
  match s with EmptyString => false | _ => true end.

(** ** Statements that may throw *)

Inductive completion (A : Type) : Type :=
| Normal (a : A)
| Thrown (what : string).

Arguments Normal {A} a.
Arguments Thrown {A} what.

(** A statement over a world [W]: the world it leaves, and how it completed.
    What a statement did before it threw stays done. *)
Definition JS (W A : Type) : Type := W -> W * completion A.

Section Statements.
Context {W : Type}.

Definition ret {A : Type} (a : A) : JS W A := fun w => (w, Normal a).

Definition bind {A B : Type} (m : JS W A) (k : A -> JS W B) : JS W B :=
  fun w =>
    match m w with
    | (w', Normal a) => k a w'
    | (w', Thrown what) => (w', Thrown what)
    end.

Definition throw {A : Type} (what : string) : JS W A :=
  fun w => (w, Thrown what).

Definition modify (f : W -> W) : JS W unit := fun w => (f w, Normal tt).

Definition when (c : bool) (m : JS W unit) : JS W unit :=
  if c then m else ret tt.

(** [try { body } catch (e) { handler }], run to its end. *)
Definition try_catch (body : JS W unit) (handler : W -> W) : W -> W :=
  fun w =>
    match body w with
    | (w', Normal _) => w'
    | (w', Thrown _) => handler w'
    end.

(** [JSON.parse] of a stored text. *)
Definition JSON_parse {A : Type} (t : text A) : JS W A :=
  match t with
  | Doc a => ret a
  | _ => throw "SyntaxError"
  end.
End Statements.

Declare Scope js_scope.
Delimit Scope js_scope with js.
Notation "x <- m ;; k" := (bind m (fun x => k))
  (at level 61, m at next level, right associativity) : js_scope.
Notation "m ;; k" := (bind m (fun _ => k))
  (at level 61, right associativity) : js_scope.

(** * The v1.01 script: the [AnomCAT] object *)

Module Dashboard.

Definition DAYS_PER_MONTH : R := 30.436875.
Definition SATOSHI_THRESHOLD : R := 0.00000001.
Definition DEFAULT_BTC_EUR_RATE : R := 45000.

Record Transaction : Type := {
  tx_id : Z;
  tx_time : Z;
  tx_type : string;
  tx_amount : R;
  tx_profit : option bool
}.

Record Portfolio : Type := {
  btcBalance : R;
  eurBalance : R;
  initialBtc : R;
  history : list point;
  trades : list Transaction
}.

Record Bot : Type := {
  active : bool;
  monthlyReturn : R;
  lastUpdate : Z
}.

(** The [AnomCAT] object.  [btcToEurRate] is never assigned after its
    initialisation and is the constant [DEFAULT_BTC_EUR_RATE]. *)
Record AnomCAT : Type := {
  currency : string;
  portfolio : Portfolio;
  bot : Bot
}.

Record Storage : Type := {
  available : bool;
  anomcat_portfolio : option (text Portfolio);
  anomcat_bot : option (text Bot);
  anomcat_currency : option string
}.

Record World : Type := {
  this : AnomCAT;
  localStorage : Storage;
  console : list string
}.

(** Assignments. *)

Definition set_this (f : AnomCAT -> AnomCAT) (w : World) : World :=
  {| this := f (this w); localStorage := localStorage w; console := console w |}.

Definition set_storage (f : Storage -> Storage) (w : World) : World :=
  {| this := this w; localStorage := f (localStorage w); console := console w |}.

Definition console_error (msg : string) (w : World) : World :=
  {| this := this w; localStorage := localStorage w; console := console w ++ [msg] |}.

Definition set_portfolio (p : Portfolio) (a : AnomCAT) : AnomCAT :=
  {| currency := currency a; portfolio := p; bot := bot a |}.

Definition set_bot (b : Bot) (a : AnomCAT) : AnomCAT :=
  {| currency := currency a; portfolio := portfolio a; bot := b |}.

Definition set_currency (c : string) (a : AnomCAT) : AnomCAT :=
  {| currency := c; portfolio := portfolio a; bot := bot a |}.

Definition set_btcBalance (x : R) (p : Portfolio) : Portfolio :=
  {| btcBalance := x; eurBalance := eurBalance p; initialBtc := initialBtc p;
     history := history p; trades := trades p |}.

Definition set_eurBalance (x : R) (p : Portfolio) : Portfolio :=
  {| btcBalance := btcBalance p; eurBalance := x; initialBtc := initialBtc p;
     history := history p; trades := trades p |}.

Definition set_initialBtc (x : R) (p : Portfolio) : Portfolio :=
  {| btcBalance := btcBalance p; eurBalance := eurBalance p; initialBtc := x;
     history := history p; trades := trades p |}.

Definition set_history (h : list point) (p : Portfolio) : Portfolio :=
  {| btcBalance := btcBalance p; eurBalance := eurBalance p;
     initialBtc := initialBtc p; history := h; trades := trades p |}.

Definition set_trades (t : list Transaction) (p : Portfolio) : Portfolio :=
  {| btcBalance := btcBalance p; eurBalance := eurBalance p;
     initialBtc := initialBtc p; history := history p; trades := t |}.

Definition set_active (x : bool) (b : Bot) : Bot :=
  {| active := x; monthlyReturn := monthlyReturn b; lastUpdate := lastUpdate b |}.

Definition set_lastUpdate (t : Z) (b : Bot) : Bot :=
  {| active := active b; monthlyReturn := monthlyReturn b; lastUpdate := t |}.

(** The object literal the script starts from; [t0] is the [Date.now()] of
    its evaluation. *)
Definition initial (t0 : Z) : AnomCAT :=
  {| currency := "BTC";
     portfolio := {| btcBalance := 0; eurBalance := 0; initialBtc := 0;
                     history := []; trades := [] |};
     bot := {| active := false; monthlyReturn := 0.013; lastUpdate := t0 |} |}.

Definition btcToEur (btcValue : R) : R := btcValue * DEFAULT_BTC_EUR_RATE.

(** *** Storage *)

Definition getItem {A : Type} (key : Storage -> option A) : JS World (option A) :=
  fun w =>
    if available (localStorage w)
    then (w, Normal (key (localStorage w)))
    else (w, Thrown "SecurityError").

Definition setItem (write : Storage -> Storage) : JS World unit :=
  fun w =>
    if available (localStorage w)
    then (set_storage write w, Normal tt)
    else (w, Thrown "SecurityError").

Definition write_portfolio (t : text Portfolio) (s : Storage) : Storage :=
  {| available := available s; anomcat_portfolio := Some t;
     anomcat_bot := anomcat_bot s; anomcat_currency := anomcat_currency s |}.

Definition write_bot (t : text Bot) (s : Storage) : Storage :=
  {| available := available s; anomcat_portfolio := anomcat_portfolio s;
     anomcat_bot := Some t; anomcat_currency := anomcat_currency s |}.

Definition write_currency (c : string) (s : Storage) : Storage :=
  {| available := available s; anomcat_portfolio := anomcat_portfolio s;
     anomcat_bot := anomcat_bot s; anomcat_currency := Some c |}.

(** [JSON.stringify] of an object all of whose numbers are finite, as the
    numbers of this module are: [JSON.parse] reads the object back.
    [WideDashboard] has the numbers that are not finite. *)
Definition JSON_stringify {A : Type} (a : A) : text A := Doc a.

Definition saveToStorage : World -> World :=
  try_catch
    (fun w =>
       (setItem (write_portfolio (JSON_stringify (portfolio (this w)))) ;;
        setItem (write_bot (JSON_stringify (bot (this w)))) ;;
        setItem (write_currency (currency (this w))))%js w)
    (console_error "Failed to save to localStorage:").

Definition loadFromStorage : World -> World :=
  try_catch
    (stored <- getItem anomcat_portfolio ;;
     match stored with
     | Some t =>
         when (truthy_text t)
           (p <- JSON_parse t ;; modify (set_this (set_portfolio p)))
     | None => ret tt
     end ;;
     stored <- getItem anomcat_bot ;;
     match stored with
     | Some t =>
         when (truthy_text t)
           (b <- JSON_parse t ;; modify (set_this (set_bot b)))
     | None => ret tt
     end ;;
     stored <- getItem anomcat_currency ;;
     match stored with
     | Some c => when (truthy c) (modify (set_this (set_currency c)))
     | None => ret tt
     end)%js
    (console_error "Failed to load from localStorage:").

(** *** Portfolio management *)

(** [addTransaction(type, amount)]; [t_id] and [t_time] are its two
    [Date.now()] readings, [r] its [Math.random()] reading (consulted for a
    'trade' only). *)
Definition addTransaction (type : string) (amount : R)
           (t_id t_time : Z) (r : R) (w : World) : World :=
  let transaction :=
    {| tx_id := t_id; tx_time := t_time; tx_type := type; tx_amount := amount;
       tx_profit := if String.eqb type "trade"
                    then Some (if Rgt_dec r 0.4 then true else false)
                    else None |} in
  let p := portfolio (this w) in
  let ts := unshift (trades p) transaction in
  let ts := if (100 <? List.length ts)%nat then slice0 100 ts else ts in
  saveToStorage (set_this (set_portfolio (set_trades ts p)) w).

(** [deposit(btcAmount)] with its return value. *)
Definition deposit (btcAmount : jsnum) (e : env) (w : World) : World * bool :=
  match btcAmount with
  | NaN => (w, false)
  | Num amount =>
      if Rle_dec amount 0 then (w, false)
      else
        let p := portfolio (this w) in
        let p :=
          if Req_dec_T (initialBtc p) 0
          then set_history [{| time := clock e 0; value := amount |}]
                 (set_btcBalance amount (set_initialBtc amount p))
          else set_btcBalance (btcBalance p + amount) p in
        let p := set_eurBalance (btcToEur (btcBalance p)) p in
        let b := set_lastUpdate (clock e 1) (set_active true (bot (this w))) in
        let w := set_this (fun a => set_bot b (set_portfolio p a)) w in
        let w := addTransaction "deposit" amount (clock e 2) (clock e 3) (random e 0) w in
        (saveToStorage w, true)
  end.

Definition monthsElapsed (b : Bot) (now : Z) : R :=
  IZR (now - lastUpdate b) / (1000 * 60 * 60 * 24 * DAYS_PER_MONTH).

Definition growth (a : AnomCAT) (now : Z) : R :=
  btcBalance (portfolio a)
  * (Math_pow (1 + monthlyReturn (bot a)) (monthsElapsed (bot a) now) - 1).

(** [updatePortfolio()], the body of the 5 second interval. *)
Definition updatePortfolio (e : env) (w : World) : World :=
  let a := this w in
  if negb (active (bot a)) || (if Rle_dec (btcBalance (portfolio a)) 0 then true else false)
  then w
  else
    let now := clock e 0 in
    let growth := growth a now in
    if Rgt_dec growth SATOSHI_THRESHOLD then
      let p := set_btcBalance (btcBalance (portfolio a) + growth) (portfolio a) in
      let p := set_eurBalance (btcToEur (btcBalance p)) p in
      let b := set_lastUpdate now (bot a) in
      let h := push (history p) {| time := now; value := btcBalance p |} in
      let h := if (100 <? List.length h)%nat then shift h else h in
      let p := set_history h p in
      let w := set_this (fun a => set_bot b (set_portfolio p a)) w in
      let w :=
        if Rgt_dec (random e 0) 0.7 then
          let tradeAmount := btcBalance p * (random e 1 * 0.05 + 0.01) in
          addTransaction "trade" tradeAmount (clock e 1) (clock e 2) (random e 2) w
        else w in
      saveToStorage w
    else w.

(** When [updatePortfolio] applies growth. *)
Definition applies (e : env) (w : World) : Prop :=
  active (bot (this w)) = true /\
  0 < btcBalance (portfolio (this w)) /\
  growth (this w) (clock e 0) > SATOSHI_THRESHOLD.

(** *** Runs of the engine *)

Inductive op : Type :=
| Deposit (btcAmount : jsnum) (e : env)
| Tick (e : env).

Definition step (w : World) (o : op) : World :=
  match o with
  | Deposit btcAmount e => fst (deposit btcAmount e w)
  | Tick e => updatePortfolio e w
  end.

Definition run (ops : list op) (w : World) : World := fold_left step ops w.

Definition balance (w : World) : R := btcBalance (portfolio (this w)).

(** An empty, usable store, and the world of a first visit. *)
Definition empty_storage : Storage :=
  {| available := true; anomcat_portfolio := None; anomcat_bot := None;
     anomcat_currency := None |}.

Definition fresh (t0 : Z) : World :=
  {| this := initial t0; localStorage := empty_storage; console := [] |}.

(** A world with an active bot holding [b], last updated at [t]. *)
Definition funded (b : R) (t : Z) : World :=
  {| this := {| currency := "BTC";
                portfolio := {| btcBalance := b; eurBalance := btcToEur b;
                                initialBtc := b;
                                history := [{| time := t; value := b |}];
                                trades := [] |};
                bot := {| active := true; monthlyReturn := 0.013;
                          lastUpdate := t |} |};
     localStorage := empty_storage;
     console := [] |}.

(** The bounds the script keeps on its two logs. *)
Definition bounded (w : World) : Prop :=
  (List.length (history (portfolio (this w))) <= 100)%nat /\
  (List.length (trades (portfolio (this w))) <= 100)%nat.

(** No balance without a first deposit. *)
Definition opened (w : World) : Prop :=
  initialBtc (portfolio (this w)) = 0 -> btcBalance (portfolio (this w)) <= 0.

(** The page after a reload: the object literal again, over the same store. *)
Definition reload (t0 : Z) (w : World) : World :=
  loadFromStorage
    {| this := initial t0; localStorage := localStorage w; console := [] |}.

(** A load that treats each key on its own, as the specification words it:
    a key that is missing, empty or malformed keeps the in-memory value of
    that key and of that key alone. *)
Definition load_per_key (w : World) : World :=
  let s := localStorage w in
  if available s then
    let p := match anomcat_portfolio s with
             | Some (Doc p) => p
             | _ => portfolio (this w)
             end in
    let b := match anomcat_bot s with
             | Some (Doc b) => b
             | _ => bot (this w)
             end in
    let c := match anomcat_currency s with
             | Some c => if truthy c then c else currency (this w)
             | None => currency (this w)
             end in
    set_this (fun _ => {| currency := c; portfolio := p; bot := b |}) w
  else w.

(** [localStorage.removeItem] on the chosen keys. *)
Definition removeItems (no_portfolio no_bot no_currency : bool) (s : Storage)
  : Storage :=
  {| available := available s;
     anomcat_portfolio := if no_portfolio then None else anomcat_portfolio s;
     anomcat_bot := if no_bot then None else anomcat_bot s;
     anomcat_currency := if no_currency then None else anomcat_currency s |}.

(** A store none of whose JSON texts is malformed. *)
Definition parseable (s : Storage) : Prop :=
  anomcat_portfolio s <> Some Malformed /\ anomcat_bot s <> Some Malformed.

(** A first visit's memory over a store whose portfolio text is malformed
    while its bot and currency texts are sound. *)
Definition stored_bot : Bot :=
  {| active := true; monthlyReturn := 0.013; lastUpdate := 5 |}.

Definition damaged : World :=
  {| this := initial 0;
     localStorage := {| available := true;
                        anomcat_portfolio := Some Malformed;
                        anomcat_bot := Some (Doc stored_bot);
                        anomcat_currency := Some "EUR"%string |};
     console := [] |}.

End Dashboard.

(** * Numbers as text: [String(n)] and [parseInt] *)

Module NumberText.
Local Open Scope Z_scope.

(** [String(t)] for an integer [t] (below 10^21 in magnitude, as every
    [Date.now()] is): the decimal digits, after a minus sign when [t] is
    negative. *)
Definition Number_toString (t : Z) : string :=
  NilZero.string_of_int (Z.to_int t).

(** [String(x)] for a timestamp that may be [NaN] ([None]). *)
Definition String_of_time (t : option Z) : string :=
  match t with
  | Some z => Number_toString z
  | None => "NaN"
  end.

Definition String_of_bool (b : bool) : string :=
  if b then "true" else "false".

(** White space that [parseInt] skips (the ASCII part of it). *)
Definition is_space (c : ascii) : bool :=
  match nat_of_ascii c with
  | 9%nat | 10%nat | 11%nat | 12%nat | 13%nat | 32%nat => true
  | _ => false
  end.

Fixpoint skip_spaces (s : string) : string :=
  match s with
  | String c rest => if is_space c then skip_spaces rest else s
  | EmptyString => s
  end.

(** Value of a character as a digit in the given radix. *)
Definition digit_of (radix : Z) (c : ascii) : option Z :=
  let n := Z.of_nat (nat_of_ascii c) in
  let v :=
    if (48 <=? n) && (n <=? 57) then Some (n - 48)
    else if (97 <=? n) && (n <=? 122) then Some (n - 87)
    else if (65 <=? n) && (n <=? 90) then Some (n - 55)
    else None in
  match v with
  | Some d => if d <? radix then Some d else None
  | None => None
  end.

(** The longest prefix of digits, read most significant first; [acc] is
    [None] as long as no digit was read. *)
Fixpoint read_digits (radix : Z) (s : string) (acc : option Z) : option Z :=
  match s with
  | String c rest =>
      match digit_of radix c with
      | Some d =>
          read_digits radix rest
            (Some (radix * match acc with Some a => a | None => 0 end + d))
      | None => acc
      end
  | EmptyString => acc
  end.

(** The digits [parseInt] reads once white space and sign are gone: after
    a [0x] or [0X] prefix in base 16, otherwise in base 10. *)
Definition read_magnitude (s : string) : option Z :=
  match s with
  | String "0" (String "x" rest) => read_digits 16 rest None
  | String "0" (String "X" rest) => read_digits 16 rest None
  | _ => read_digits 10 s None
  end.

(** [parseInt(s)] without a radix argument; [None] is [NaN]. *)
Definition parseInt (s : string) : option Z :=
  match skip_spaces s with
  | String "-" rest => option_map Z.opp (read_magnitude rest)
  | String "+" rest => read_magnitude rest
  | rest => read_magnitude rest
  end.

(** The number a sequence of decimal digits adds to an accumulator. *)
Fixpoint digits_value (d : uint) (a : Z) : Z :=
  match d with
  | Nil => a
  | D0 l => digits_value l (10 * a + 0)
  | D1 l => digits_value l (10 * a + 1)
  | D2 l => digits_value l (10 * a + 2)
  | D3 l => digits_value l (10 * a + 3)
  | D4 l => digits_value l (10 * a + 4)
  | D5 l => digits_value l (10 * a + 5)
  | D6 l => digits_value l (10 * a + 6)
  | D7 l => digits_value l (10 * a + 7)
  | D8 l => digits_value l (10 * a + 8)
  | D9 l => digits_value l (10 * a + 9)
  end.

(** The timestamps whose text is plain decimal digits. *)
Definition plain_decimal (t : option Z) : Prop :=
  match t with
  | Some z => Z.abs z < 10 ^ 21
  | None => True
  end.

End NumberText.

(** * The single-page script: [class AnomCAT] *)

Module Simulator.
Import NumberText.

(** [this.monthlyReturn], assigned once in the constructor. *)
Definition monthlyReturn : R := 0.013.

Record Trade : Type := {
  t_time : Z;
  t_type : string;
  t_amount : R;
  t_profit : bool
}.

Record Portfolio : Type := {
  initial : R;
  current : R;
  history : list point;
  trades : list Trade
}.

(** The instance.  [lastUpdate] is [None] when it is [NaN], which
    [parseInt] can make it. *)
Record AnomCAT : Type := {
  portfolio : Portfolio;
  botActive : bool;
  lastUpdate : option Z
}.

Record Storage : Type := {
  available : bool;
  anomcat_portfolio : option (text Portfolio);
  anomcat_bot_active : option string;
  anomcat_last_update : option string
}.

Record World : Type := {
  this : AnomCAT;
  localStorage : Storage;
  console : list string
}.

Definition set_this (f : AnomCAT -> AnomCAT) (w : World) : World :=
  {| this := f (this w); localStorage := localStorage w; console := console w |}.

Definition set_storage (f : Storage -> Storage) (w : World) : World :=
  {| this := this w; localStorage := f (localStorage w); console := console w |}.

Definition console_error (msg : string) (w : World) : World :=
  {| this := this w; localStorage := localStorage w; console := console w ++ [msg] |}.

Definition set_portfolio (p : Portfolio) (a : AnomCAT) : AnomCAT :=
  {| portfolio := p; botActive := botActive a; lastUpdate := lastUpdate a |}.

Definition set_botActive (b : bool) (a : AnomCAT) : AnomCAT :=
  {| portfolio := portfolio a; botActive := b; lastUpdate := lastUpdate a |}.

Definition set_lastUpdate (t : option Z) (a : AnomCAT) : AnomCAT :=
  {| portfolio := portfolio a; botActive := botActive a; lastUpdate := t |}.

Definition set_initial (x : R) (p : Portfolio) : Portfolio :=
  {| initial := x; current := current p; history := history p; trades := trades p |}.

Definition set_current (x : R) (p : Portfolio) : Portfolio :=
  {| initial := initial p; current := x; history := history p; trades := trades p |}.

Definition set_history (h : list point) (p : Portfolio) : Portfolio :=
  {| initial := initial p; current := current p; history := h; trades := trades p |}.

Definition set_trades (t : list Trade) (p : Portfolio) : Portfolio :=
  {| initial := initial p; current := current p; history := history p; trades := t |}.

(** The fields the constructor sets; [t0] is its [Date.now()]. *)
Definition initial_app (t0 : Z) : AnomCAT :=
  {| portfolio := {| initial := 0; current := 0; history := []; trades := [] |};
     botActive := false;
     lastUpdate := Some t0 |}.

(** *** Storage *)

Definition getItem {A : Type} (key : Storage -> option A) : JS World (option A) :=
  fun w =>
    if available (localStorage w)
    then (w, Normal (key (localStorage w)))
    else (w, Thrown "SecurityError").

Definition setItem (write : Storage -> Storage) : JS World unit :=
  fun w =>
    if available (localStorage w)
    then (set_storage write w, Normal tt)
    else (w, Thrown "SecurityError").

Definition write_portfolio (t : text Portfolio) (s : Storage) : Storage :=
  {| available := available s; anomcat_portfolio := Some t;
     anomcat_bot_active := anomcat_bot_active s;
     anomcat_last_update := anomcat_last_update s |}.

Definition write_bot_active (v : string) (s : Storage) : Storage :=
  {| available := available s; anomcat_portfolio := anomcat_portfolio s;
     anomcat_bot_active := Some v;
     anomcat_last_update := anomcat_last_update s |}.

Definition write_last_update (v : string) (s : Storage) : Storage :=
  {| available := available s; anomcat_portfolio := anomcat_portfolio s;
     anomcat_bot_active := anomcat_bot_active s;
     anomcat_last_update := Some v |}.

(** [JSON.stringify] of an object all of whose numbers are finite, as the
    numbers of this module are: [JSON.parse] reads the object back.
    [WideSimulator] has the numbers that are not finite. *)
Definition JSON_stringify {A : Type} (a : A) : text A := Doc a.

Definition saveToStorage : World -> World :=
  try_catch
    (fun w =>
       (setItem (write_portfolio (JSON_stringify (portfolio (this w)))) ;;
        setItem (write_bot_active (String_of_bool (botActive (this w)))) ;;
        setItem (write_last_update (String_of_time (lastUpdate (this w)))))%js w)
    (console_error "Failed to save to localStorage:").

Definition loadFromStorage : World -> World :=
  try_catch
    (stored <- getItem anomcat_portfolio ;;
     match stored with
     | Some t =>
         when (truthy_text t)
           (p <- JSON_parse t ;; modify (set_this (set_portfolio p)))
     | None => ret tt
     end ;;
     stored <- getItem anomcat_bot_active ;;
     match stored with
     | Some v => modify (set_this (set_botActive (String.eqb v "true")))
     | None => ret tt
     end ;;
     stored <- getItem anomcat_last_update ;;
     match stored with
     | Some v => when (truthy v) (modify (set_this (set_lastUpdate (parseInt v))))
     | None => ret tt
     end)%js
    (console_error "Failed to load from localStorage:").

(** *** The bot *)

(** [simulateTrade(type, amount)]; [now] is its [Date.now()] reading and
    [r] its [Math.random()] reading. *)
Definition simulateTrade (type : string) (amount : R) (now : Z) (r : R)
           (w : World) : World :=
  let trade :=
    {| t_time := now; t_type := type; t_amount := amount;
       t_profit := if Rgt_dec r 0.4 then true else false |} in
  let p := portfolio (this w) in
  let ts := push (trades p) trade in
  let ts := if (50 <? List.length ts)%nat then shift ts else ts in
  saveToStorage (set_this (set_portfolio (set_trades ts p)) w).

(** [handleDeposit()]; [amount] is the [parseFloat] of the input field.
    The second component is the [alert] shown, if any. *)
Definition handleDeposit (amount : jsnum) (e : env) (w : World)
  : World * option string :=
  match amount with
  | NaN => (w, Some "Please enter a valid BTC amount"%string)
  | Num amount =>
      if Rle_dec amount 0
      then (w, Some "Please enter a valid BTC amount"%string)
      else
        let p := portfolio (this w) in
        let p :=
          if Req_dec_T (initial p) 0
          then set_history [{| time := clock e 0; value := amount |}]
                 (set_current amount (set_initial amount p))
          else set_current (current p + amount) p in
        let w := set_this (fun a =>
                   set_lastUpdate (Some (clock e 1))
                     (set_botActive true (set_portfolio p a))) w in
        let w := saveToStorage w in
        (simulateTrade "BUY" (amount * 0.1) (clock e 2) (random e 0) w, None)
  end.

Definition of_time (t : option Z) : jsnum :=
  match t with
  | Some z => Num (IZR z)
  | None => NaN
  end.

Definition monthsElapsed (a : AnomCAT) (now : Z) : jsnum :=
  jsdiv (jssub (Num (IZR now)) (of_time (lastUpdate a)))
        (Num (1000 * 60 * 60 * 24 * 30)).

Definition growth (a : AnomCAT) (now : Z) : jsnum :=
  jssub (jsmul (Num (current (portfolio a)))
               (jspow (Num (1 + monthlyReturn)) (monthsElapsed a now)))
        (Num (current (portfolio a))).

(** The body of the 5 second interval set up by [startBot()]. *)
Definition tick (e : env) (w : World) : World :=
  let a := this w in
  if botActive a && (if Rgt_dec (current (portfolio a)) 0 then true else false)
  then
    let now := clock e 0 in
    match growth a now with
    | Num growth =>
        if Rgt_dec growth 0.00000001 then
          let p := set_current (current (portfolio a) + growth) (portfolio a) in
          let h := push (history p) {| time := now; value := current p |} in
          let h := if (100 <? List.length h)%nat then shift h else h in
          let p := set_history h p in
          let w := set_this (fun a => set_lastUpdate (Some now) (set_portfolio p a)) w in
          let w := saveToStorage w in
          if Rgt_dec (random e 0) 0.7 then
            let tradeAmount := current p * (random e 1 * 0.05 + 0.01) in
            let type := if Rgt_dec (random e 2) 0.5 then "BUY"%string else "SELL"%string in
            simulateTrade type tradeAmount (clock e 1) (random e 3) w
          else w
        else w
    | NaN => w
    end
  else w.

(** When the interval body applies growth. *)
Definition applies (e : env) (w : World) : Prop :=
  botActive (this w) = true /\
  0 < current (portfolio (this w)) /\
  jsgt (growth (this w) (clock e 0)) 0.00000001 = true.

(** The number a growth known to exceed the threshold stands for. *)
Definition growth_value (a : AnomCAT) (now : Z) : R :=
  match growth a now with
  | Num g => g
  | NaN => 0
  end.

(** *** Runs of the engine *)

Inductive op : Type :=
| Deposit (amount : jsnum) (e : env)
| Tick (e : env).

Definition step (w : World) (o : op) : World :=
  match o with
  | Deposit amount e => fst (handleDeposit amount e w)
  | Tick e => tick e w
  end.

Definition run (ops : list op) (w : World) : World := fold_left step ops w.

Definition balance (w : World) : R := current (portfolio (this w)).

(** An empty, usable store, and the world of a first visit. *)
Definition empty_storage : Storage :=
  {| available := true; anomcat_portfolio := None; anomcat_bot_active := None;
     anomcat_last_update := None |}.

Definition fresh (t0 : Z) : World :=
  {| this := initial_app t0; localStorage := empty_storage; console := [] |}.

(** A world with an active bot holding [b], last updated at [t]. *)
Definition funded (b : R) (t : Z) : World :=
  {| this := {| portfolio := {| initial := b; current := b;
                                history := [{| time := t; value := b |}];
                                trades := [] |};
                botActive := true;
                lastUpdate := Some t |};
     localStorage := empty_storage;
     console := [] |}.

(** The bounds the script keeps on its two logs. *)
Definition bounded (w : World) : Prop :=
  (List.length (history (portfolio (this w))) <= 100)%nat /\
  (List.length (trades (portfolio (this w))) <= 50)%nat.

(** No balance without a first deposit. *)
Definition opened (w : World) : Prop :=
  initial (portfolio (this w)) = 0 -> current (portfolio (this w)) <= 0.

(** The page after a reload: a new instance over the same store. *)
Definition reload (t0 : Z) (w : World) : World :=
  loadFromStorage
    {| this := initial_app t0; localStorage := localStorage w; console := [] |}.

(** A load that treats each key on its own, as the specification words it:
    a key that is missing, or whose text is empty or corrupt (a portfolio
    text that does not parse, a flag that is neither ['true'] nor ['false'],
    a time that is not a number), keeps the in-memory value of that key and
    of that key alone. *)
Definition load_per_key (w : World) : World :=
  let s := localStorage w in
  if available s then
    let p := match anomcat_portfolio s with
             | Some (Doc p) => p
             | _ => portfolio (this w)
             end in
    let b := match anomcat_bot_active s with
             | Some v => if String.eqb v "true" then true
                         else if String.eqb v "false" then false
                         else botActive (this w)
             | None => botActive (this w)
             end in
    let t := match anomcat_last_update s with
             | Some v => match parseInt v with
                         | Some z => Some z
                         | None => lastUpdate (this w)
                         end
             | None => lastUpdate (this w)
             end in
    set_this (fun _ => {| portfolio := p; botActive := b; lastUpdate := t |}) w
  else w.

(** The texts under the two plain keys that are missing, empty where the
    script tolerates it, or such as the script writes them: a flag that is
    ['true'] or ['false'], a time that is empty or reads as a number. *)
Definition plain_texts_sound (s : Storage) : Prop :=
  match anomcat_bot_active s with
  | Some v => v = "true"%string \/ v = "false"%string
  | None => True
  end /\
  match anomcat_last_update s with
  | Some v => v = ""%string \/ parseInt v <> None
  | None => True
  end.

(** [localStorage.removeItem] on the chosen keys. *)
Definition removeItems (no_portfolio no_bot_active no_last_update : bool)
           (s : Storage) : Storage :=
  {| available := available s;
     anomcat_portfolio := if no_portfolio then None else anomcat_portfolio s;
     anomcat_bot_active := if no_bot_active then None else anomcat_bot_active s;
     anomcat_last_update := if no_last_update then None else anomcat_last_update s |}.

(** A store whose JSON text is not malformed. *)
Definition parseable (s : Storage) : Prop :=
  anomcat_portfolio s <> Some Malformed.

(** A first visit's memory over a store whose portfolio text is malformed
    while its two other texts are sound. *)
Definition damaged : World :=
  {| this := initial_app 0;
     localStorage := {| available := true;
                        anomcat_portfolio := Some Malformed;
                        anomcat_bot_active := Some "true"%string;
                        anomcat_last_update := Some "5"%string |};
     console := [] |}.

(** A memory with an active bot last updated at 7, over a store without a
    portfolio, whose flag is empty and whose time is not a number. *)
Definition garbled : World :=
  {| this := {| portfolio := {| initial := 0; current := 0; history := [];
                                trades := [] |};
                botActive := true;
                lastUpdate := Some 7%Z |};
     localStorage := {| available := true;
                        anomcat_portfolio := None;
                        anomcat_bot_active := Some ""%string;
                        anomcat_last_update := Some "soon"%string |};
     console := [] |}.

End Simulator.

(** * The specification's formulas *)

(** Elapsed months with the average month of 365.2425/12 days. *)
Definition spec_elapsed_months (now lastUpdate : Z) : R :=
  IZR (now - lastUpdate) / (86400000 * (365.2425 / 12)).

(** [balance * ((1 + rate) ^ elapsedMonths - 1)]. *)
Definition spec_growth (balance rate : R) (now lastUpdate : Z) : R :=
  balance * (Rpower (1 + rate) (spec_elapsed_months now lastUpdate) - 1).

(** A log of at most [bound] entries that grows at its end and gives up its
    first, oldest entry when full. *)
Definition fifo_end {A : Type} (bound : nat) (old : list A) (x : A) : list A :=
  if (List.length old <? bound)%nat then old ++ [x] else tl old ++ [x].

(** A log of at most [bound] entries that grows at its front and gives up
    its last, oldest entry when full. *)
Definition fifo_front {A : Type} (bound : nat) (old : list A) (x : A) : list A :=
  if (List.length old <? bound)%nat then x :: old else x :: removelast old.

(** A deposit amount that is not a number, or not positive. *)
Definition invalid_amount (amount : jsnum) : Prop :=
  match amount with
  | NaN => True
  | Num r => r <= 0
  end.

(** * Environments *)

(** An environment all of whose clock readings print as plain decimals, and
    an operation of the single-page script run in such an environment. *)
Definition plain_clock (e : env) : Prop :=
  forall k, NumberText.plain_decimal (Some (clock e k)).

Definition plain_op (o : Simulator.op) : Prop :=
  match o with
  | Simulator.Deposit _ e => plain_clock e
  | Simulator.Tick e => plain_clock e
  end.

(** An environment whose clock stands at [t] and whose random source
    always returns [r]. *)
Definition steady (t : Z) (r : R) : env :=
  {| clock := fun _ => t; random := fun _ => r |}.

(** * What the pages derive from the state *)

(** The win rate and the status [updateStatDisplays] computes; the profit
    and the ROI it shows are in [WideDashboard]. *)
Module DashboardStats.
Import Dashboard.

(** Truthiness of a [profit] field: [null] and [false] are falsy. *)
Definition truthy_profit (p : option bool) : bool :=
  match p with
  | Some true => true
  | _ => false
  end.

Definition wins (ts : list Transaction) : nat :=
  List.length (filter (fun t => truthy_profit (tx_profit t)) ts).

(** The win rate before [toFixed(1)]; [None] when the element is left as
    it is, the trade log being empty. *)
Definition winRate (a : AnomCAT) : option R :=
  let ts := trades (portfolio a) in
  if (0 <? List.length ts)%nat
  then Some (INR (wins ts) / INR (List.length ts) * 100)
  else None.

Definition isActive (a : AnomCAT) : bool :=
  active (bot a) && (if Rgt_dec (btcBalance (portfolio a)) 0 then true else false).

End DashboardStats.

(** The win rate and the status [updateUI] computes; the profit and the
    ROI it shows are in [WideSimulator]. *)
Module SimulatorStats.
Import Simulator.

Definition wins (ts : list Trade) : nat :=
  List.length (filter t_profit ts).

Definition winRate (a : AnomCAT) : option R :=
  let ts := trades (portfolio a) in
  if (0 <? List.length ts)%nat
  then Some (INR (wins ts) / INR (List.length ts) * 100)
  else None.

(** ['ACTIVE'] rather than ['IDLE']. *)
Definition isActive (a : AnomCAT) : bool :=
  botActive a && (if Rgt_dec (current (portfolio a)) 0 then true else false).

End SimulatorStats.

(** * Properties of states *)

(** A state of the v1.01 script as deposits and ticks make it: a
    non-negative first deposit that the balance does not fall below, a bot
    that is active exactly when a deposit was made, and a history whose
    values do not decrease and do not exceed the balance. *)
Definition dashboard_sound (a : Dashboard.AnomCAT) : Prop :=
  let p := Dashboard.portfolio a in
  0 <= Dashboard.initialBtc p /\
  Dashboard.initialBtc p <= Dashboard.btcBalance p /\
  (Dashboard.initialBtc p = 0 -> Dashboard.btcBalance p = 0) /\
  (Dashboard.active (Dashboard.bot a) = true <-> 0 < Dashboard.initialBtc p) /\
  StronglySorted Rle (map value (Dashboard.history p)) /\
  Forall (fun pt => value pt <= Dashboard.btcBalance p) (Dashboard.history p).

Definition simulator_sound (a : Simulator.AnomCAT) : Prop :=
  let p := Simulator.portfolio a in
  0 <= Simulator.initial p /\
  Simulator.initial p <= Simulator.current p /\
  (Simulator.initial p = 0 -> Simulator.current p = 0) /\
  (Simulator.botActive a = true <-> 0 < Simulator.initial p) /\
  StronglySorted Rle (map value (Simulator.history p)) /\
  Forall (fun pt => value pt <= Simulator.current p) (Simulator.history p).

(** What a successful [saveToStorage] leaves in the store. *)
Definition dashboard_written (a : Dashboard.AnomCAT) : Dashboard.Storage :=
  {| Dashboard.available := true;
     Dashboard.anomcat_portfolio := Some (Doc (Dashboard.portfolio a));
     Dashboard.anomcat_bot := Some (Doc (Dashboard.bot a));
     Dashboard.anomcat_currency := Some (Dashboard.currency a) |}.

Definition simulator_written (a : Simulator.AnomCAT) : Simulator.Storage :=
  {| Simulator.available := true;
     Simulator.anomcat_portfolio := Some (Doc (Simulator.portfolio a));
     Simulator.anomcat_bot_active :=
       Some (NumberText.String_of_bool (Simulator.botActive a));
     Simulator.anomcat_last_update :=
       Some (NumberText.String_of_time (Simulator.lastUpdate a)) |}.

(** The same memory over a store that cannot be accessed. *)
Definition dashboard_offline (w : Dashboard.World) : Dashboard.World :=
  Dashboard.set_storage
    (fun s => {| Dashboard.available := false;
                 Dashboard.anomcat_portfolio := Dashboard.anomcat_portfolio s;
                 Dashboard.anomcat_bot := Dashboard.anomcat_bot s;
                 Dashboard.anomcat_currency := Dashboard.anomcat_currency s |}) w.

(** The first clock reading of an operation: the instant a tick works
    with, and the instant of the snapshot a first deposit takes. *)
Definition dashboard_op_time (o : Dashboard.op) : Z :=
  match o with
  | Dashboard.Deposit _ e => clock e 0
  | Dashboard.Tick e => clock e 0
  end.

Definition simulator_op_time (o : Simulator.op) : Z :=
  match o with
  | Simulator.Deposit _ e => clock e 0
  | Simulator.Tick e => clock e 0
  end.

(** * The rest of the v1.01 script *)

Module DashboardApp.
Import Dashboard.

(** *** Clearing the store *)

Definition removeItem (erase : Storage -> Storage) : JS World unit :=
  fun w =>
    if available (localStorage w)
    then (set_storage erase w, Normal tt)
    else (w, Thrown "SecurityError").

Definition erase_portfolio (s : Storage) : Storage :=
  {| available := available s; anomcat_portfolio := None;
     anomcat_bot := anomcat_bot s; anomcat_currency := anomcat_currency s |}.

Definition erase_bot (s : Storage) : Storage :=
  {| available := available s; anomcat_portfolio := anomcat_portfolio s;
     anomcat_bot := None; anomcat_currency := anomcat_currency s |}.

Definition erase_currency (s : Storage) : Storage :=
  {| available := available s; anomcat_portfolio := anomcat_portfolio s;
     anomcat_bot := anomcat_bot s; anomcat_currency := None |}.

(** [clearStorage()]; the reset of the three fields gives the initial
    object again, dated by this call's [Date.now()]. *)
Definition clearStorage (e : env) : World -> World :=
  try_catch
    (removeItem erase_portfolio ;;
     removeItem erase_bot ;;
     removeItem erase_currency ;;
     modify (set_this (fun _ => initial (clock e 0))))%js
    (console_error "Failed to clear localStorage:").

(** *** The currency toggle *)

(** [setCurrency(currency)], as far as the state goes. *)
Definition setCurrency (c : string) (w : World) : World :=
  if String.eqb c (currency (this w)) then w
  else saveToStorage (set_this (set_currency c) w).

(** *** Formatting *)

(** The text [formatBTC] or [formatEUR] makes of a number: the digits
    themselves ([toFixed], [Intl.NumberFormat]) are not modelled. *)
Inductive rendered : Type :=
| BTC_text (value : R)
| EUR_text (value : R).

(** Both formatters show 0 for what is not a number. *)
Definition or_zero (value : jsnum) : R :=
  match value with
  | NaN => 0
  | Num v => v
  end.

Definition formatBTC (value : jsnum) : rendered := BTC_text (or_zero value).
Definition formatEUR (value : jsnum) : rendered := EUR_text (or_zero value).

Definition formatCurrency (a : AnomCAT) (btcValue : jsnum) : rendered :=
  if String.eqb (currency a) "EUR"
  then formatEUR (jsmul btcValue (Num DEFAULT_BTC_EUR_RATE))
  else formatBTC btcValue.

Definition formatSecondaryCurrency (a : AnomCAT) (btcValue : jsnum) : rendered :=
  if String.eqb (currency a) "BTC"
  then formatEUR (jsmul btcValue (Num DEFAULT_BTC_EUR_RATE))
  else formatBTC btcValue.

(** *** Pages *)

(** [s.split('/')]. *)
Fixpoint split_slash (s : string) : list string :=
  match s with
  | EmptyString => [EmptyString]
  | String c rest =>
      if Ascii.eqb c "/" then EmptyString :: split_slash rest
      else match split_slash rest with
           | seg :: segs => String c seg :: segs
           | [] => [String c EmptyString]
           end
  end.

(** [pathname.split('/').pop() || 'index.html']. *)
Definition currentPage (pathname : string) : string :=
  match last (split_slash pathname) EmptyString with
  | EmptyString => "index.html"
  | page => page
  end.

Definition authPages : list string := ["login.html"; "register.html"; "index.html"]%string.

Definition includes (l : list string) (s : string) : bool :=
  existsb (String.eqb s) l.

(** [isAuthenticatedPage()] at the given [window.location.pathname]. *)
Definition isAuthenticatedPage (pathname : string) : bool :=
  negb (includes authPages (currentPage pathname)).

(** *** The interval *)

(** The page: the world, [this.intervals.portfolio], and the browser's
    intervals that were set and not cleared, with the id the next one gets. *)
Record Page : Type := {
  world : World;
  intervals_portfolio : option positive;
  timers : list positive;
  next_timer : positive
}.

Definition setInterval (pg : Page) : positive * Page :=
  (next_timer pg,
   {| world := world pg; intervals_portfolio := intervals_portfolio pg;
      timers := timers pg ++ [next_timer pg];
      next_timer := Pos.succ (next_timer pg) |}).

Definition clearInterval (id : positive) (pg : Page) : Page :=
  {| world := world pg; intervals_portfolio := intervals_portfolio pg;
     timers := filter (fun t => negb (Pos.eqb t id)) (timers pg);
     next_timer := next_timer pg |}.

Definition startPortfolioUpdates (pg : Page) : Page :=
  let pg :=
    match intervals_portfolio pg with
    | Some id => clearInterval id pg
    | None => pg
    end in
  let '(id, pg) := setInterval pg in
  {| world := world pg; intervals_portfolio := Some id;
     timers := timers pg; next_timer := next_timer pg |}.

(** [init()] at the given pathname, as far as the state and the intervals
    go: the load, then the interval on authenticated pages. *)
Definition init (pathname : string) (pg : Page) : Page :=
  let pg := {| world := loadFromStorage (world pg);
               intervals_portfolio := intervals_portfolio pg;
               timers := timers pg; next_timer := next_timer pg |} in
  if isAuthenticatedPage pathname then startPortfolioUpdates pg else pg.

(** A page just opened: no interval yet. *)
Definition opened_page (w : World) : Page :=
  {| world := w; intervals_portfolio := None; timers := []; next_timer := 1 |}.

(** *** Relative time *)

(** What [formatRelativeTime] returns: a text of its own, or the date that
    [formatDate] writes for the timestamp. *)
Inductive relative : Type :=
| Text (s : string)
| Date (timestamp : Z).

(** [formatRelativeTime(timestamp)], called at instant [now]. *)
Definition formatRelativeTime (now timestamp : Z) : relative :=
  let diff := (now - timestamp)%Z in
  let minutes := (diff / 60000)%Z in
  let hours := (diff / 3600000)%Z in
  let days := (diff / 86400000)%Z in
  if (minutes <? 1)%Z then Text "Just now"
  else if (minutes <? 60)%Z then Text (NumberText.Number_toString minutes ++ "m ago")
  else if (hours <? 24)%Z then Text (NumberText.Number_toString hours ++ "h ago")
  else if (days <? 7)%Z then Text (NumberText.Number_toString days ++ "d ago")
  else Date timestamp.

(** *** Chart data *)

(** The points the fallback loop of [generateChartData] pushes: [n]
    iterations left, [i] the loop variable, [k] the index of the
    iteration's [Math.random()], [currentValue] the running value. *)
Fixpoint fallback_points (a : AnomCAT) (e : env) (now : Z)
         (n : nat) (i : Z) (k : nat) (currentValue : R) : list point :=
  match n with
  | O => []
  | S n' =>
      let time := (now - i * 24 * 60 * 60 * 1000)%Z in
      let dailyReturn := monthlyReturn (bot a) / 30 in
      let variance := (random e k - 0.5) * dailyReturn * 0.5 in
      let currentValue := currentValue * (1 + dailyReturn + variance) in
      {| time := time;
         value := if String.eqb (currency a) "EUR"
                  then currentValue * DEFAULT_BTC_EUR_RATE
                  else currentValue |}
      :: fallback_points a e now n' (i - 1) (S k) currentValue
  end.

(** [generateChartData(days)] for a whole number of days; [defaultData] is
    what [getDefaultChartData()] returns, [None] for [null]. *)
Definition generateChartData (defaultData : option (list point)) (days : Z)
           (e : env) (a : AnomCAT) : list point :=
  match defaultData with
  | Some (pt :: pts) => pt :: pts
  | _ =>
      if (1 <? List.length (history (portfolio a)))%nat
      then map (fun pt =>
                  {| time := time pt;
                     value := if String.eqb (currency a) "EUR"
                              then value pt * DEFAULT_BTC_EUR_RATE
                              else value pt |})
               (history (portfolio a))
      else
        let now := clock e 0 in
        let startValue :=
          if Req_dec_T (initialBtc (portfolio a)) 0 then 1
          else initialBtc (portfolio a) in
        fallback_points a e now (Z.to_nat (days + 1)) days 0 startValue
  end.

(** *** Users *)

Record User : Type := {
  email : string;
  name : string
}.

(** What [validateUser] returns. *)
Record Validation : Type := {
  valid : bool;
  user : User
}.

(** [validateUser(email)].  [usersData] is [None] while the document is not
    loaded and [Some None] when it has no [users]; [toLowerCase] is
    [String.prototype.toLowerCase], taken as given. *)
Definition validateUser (toLowerCase : string -> string)
           (usersData : option (option (list User))) (email_in : string)
  : Validation :=
  match usersData with
  | Some (Some users) =>
      match find (fun u => String.eqb (toLowerCase (email u)) (toLowerCase email_in))
                 users with
      | Some u => {| valid := true; user := u |}
      | None => {| valid := true;
                   user := {| email := email_in; name := "Guest User" |} |}
      end
  | _ => {| valid := true; user := {| email := email_in; name := "Demo User" |} |}
  end.

End DashboardApp.

(** * Properties of pages *)

(** A file name is a path segment: it holds no slash. *)
Fixpoint has_slash (s : string) : bool :=
  match s with
  | EmptyString => false
  | String c rest => Ascii.eqb c "/" || has_slash rest
  end.

(** The page's record of its interval agrees with the browser's. *)
Definition tracked (pg : DashboardApp.Page) : Prop :=
  DashboardApp.timers pg
  = match DashboardApp.intervals_portfolio pg with
    | Some id => [id]
    | None => []
    end.

(** * The rest of the single-page script *)

(** * Rounding

    The chart and the generated texts turn on the last bit of a result; there
    the arithmetic of the script is embedded with its rounding. *)

(** What is assumed of [round], the rounding of binary64 arithmetic to the
    nearest number, for results far from overflow: it is monotone, it leaves
    a rounded number and the integers up to 2^53 as they are, and from 1 on
    it adds at most the 2^-53th part. *)
Record rounding (round : R -> R) : Prop := {
  round_monotone : forall x y, x <= y -> round x <= round y;
  round_round : forall x, round (round x) = round x;
  round_integer : forall n : Z, (Z.abs n <= 2 ^ 53)%Z -> round (IZR n) = IZR n;
  round_above : forall x, 1 <= x -> round x <= x * (1 + / 2 ^ 53)
}.

(** Exact arithmetic is one such rounding. *)
Definition exact (x : R) : R := x.

(** What [Math.random()] returns: a binary64 number from 0 up to 1
    excluded, so 1 - 2^-53 at most. *)
Definition random_draw (r : R) : Prop := 0 <= r <= 1 - / 2 ^ 53.

Module SimulatorPage.
Import Simulator.

(** *** The chart *)

(** [Math.min] and [Math.max] of a value and more values. *)
Fixpoint Math_min (x : R) (more : list R) : R :=
  match more with
  | [] => x
  | y :: more' => Rmin x (Math_min y more')
  end.

Fixpoint Math_max (x : R) (more : list R) : R :=
  match more with
  | [] => x
  | y :: more' => Rmax x (Math_max y more')
  end.

(** [x || 1]. *)
Definition or_one (x : R) : R := if Req_dec_T x 0 then 1 else x.

(** The height at which [renderChart] puts a value; each operation rounds
    its result, and the literal [0.1] is itself a rounded number.  The width
    and the height are read from the canvas, whose attributes are whole
    numbers. *)
Definition chart_y (round : R -> R) (height : Z) (minValue range : R) (v : R) : R :=
  let padding := round (range * round 0.1) in
  round (IZR height
         - round (round (round (round (v - minValue) + padding)
                         / round (range + round (padding * 2)))
                  * IZR height)).

Definition chart_x (round : R -> R) (width : Z) (index length : nat) : R :=
  round (round (INR index / INR (length - 1)) * IZR width).

(** The points of the line [renderChart] strokes on a canvas of the given
    size, in order; none when the history has fewer than two points and the
    placeholder is shown. *)
Definition chart_line (round : R -> R) (width height : Z) (history : list point)
  : list (R * R) :=
  match history with
  | [] => []
  | [_] => []
  | first :: rest =>
      let minValue := Math_min (value first) (map value rest) in
      let maxValue := Math_max (value first) (map value rest) in
      let range := or_one (round (maxValue - minValue)) in
      map (fun ip : nat * point =>
             (chart_x round width (fst ip) (List.length history),
              chart_y round height minValue range (value (snd ip))))
          (combine (seq 0 (List.length history)) history)
  end.

(** The dot [renderChart] draws for the current value. *)
Definition chart_dot (round : R -> R) (width height : Z) (history : list point)
  : option (R * R) :=
  match history with
  | [] => None
  | [_] => None
  | first :: rest =>
      let minValue := Math_min (value first) (map value rest) in
      let maxValue := Math_max (value first) (map value rest) in
      let range := or_one (round (maxValue - minValue)) in
      Some (IZR width,
            chart_y round height minValue range (value (last history first)))
  end.

(** *** The feed *)

(** A child of the feed element: a feed item, or another element with the
    text of its first [.feed-text], if it has one. *)
Inductive node : Type :=
| FeedItem (icon text time : string)
| Other (feed_text : option string).

Definition is_item (n : node) : bool :=
  match n with FeedItem _ _ _ => true | Other _ => false end.

Definition node_feed_text (n : node) : option string :=
  match n with
  | FeedItem _ text _ => Some text
  | Other t => t
  end.

(** [feedContent.querySelector('.feed-text')], by its text. *)
Fixpoint first_feed_text (nodes : list node) : option string :=
  match nodes with
  | [] => None
  | n :: rest =>
      match node_feed_text n with
      | Some t => Some t
      | None => first_feed_text rest
      end
  end.

(** [addFeedItem(icon, text)]; [time] is what [formatTime(Date.now())]
    gives. *)
Definition addFeedItem (icon text time : string) (nodes : list node) : list node :=
  let nodes :=
    match first_feed_text nodes with
    | Some t => if String.eqb t "Loading network data..." then [] else nodes
    | None => nodes
    end in
  nodes ++ [FeedItem icon text time].

(** [items[0].remove()]. *)
Fixpoint remove_first_item (nodes : list node) : list node :=
  match nodes with
  | [] => []
  | n :: rest => if is_item n then rest else n :: remove_first_item rest
  end.

Record Feed : Type := {
  currentFeed : string;
  feedContent : list node
}.

(** [updateNetworkFeed()]; [tx] and [block] are the icon and text that
    [generateMempoolTx()] and [generateBlock()] would return. *)
Definition updateNetworkFeed (tx block : string * string) (time : string)
           (f : Feed) : Feed :=
  let nodes :=
    if String.eqb (currentFeed f) "mempool"
    then addFeedItem (fst tx) (snd tx) time (feedContent f)
    else addFeedItem (fst block) (snd block) time (feedContent f) in
  let items := filter is_item nodes in
  {| currentFeed := currentFeed f;
     feedContent := if (10 <? List.length items)%nat
                    then remove_first_item nodes else nodes |}.

(** [switchFeed(feed)]. *)
Definition switchFeed (feed : string) (tx block : string * string) (time : string)
           (f : Feed) : Feed :=
  updateNetworkFeed tx block time {| currentFeed := feed; feedContent := [] |}.

(** What happens to the feed. *)
Inductive feed_event : Type :=
| Update (tx block : string * string) (time : string)
| Switch (feed : string) (tx block : string * string) (time : string).

Definition feed_step (f : Feed) (ev : feed_event) : Feed :=
  match ev with
  | Update tx block time => updateNetworkFeed tx block time f
  | Switch feed tx block time => switchFeed feed tx block time f
  end.

(** *** The generated texts *)

Definition Math_floor (x : R) : Z := Int_part x.

(** [s.replace(pattern, replacement)] for a pattern that is a string: the
    first occurrence only. *)
Fixpoint drop (n : nat) (s : string) : string :=
  match n, s with
  | S n', String _ rest => drop n' rest
  | _, _ => s
  end.

Fixpoint replace (pattern replacement s : string) : string :=
  if String.prefix pattern s
  then replacement ++ drop (String.length pattern) s
  else match s with
       | EmptyString => EmptyString
       | String c rest => String c (replace pattern replacement rest)
       end.

Definition txTypes : list string :=
  ["New transaction: {amount} BTC | Fee: {fee} sat/vB";
   "Lightning channel opened: {amount} BTC capacity";
   "Transaction confirmed in mempool: {size} vB";
   "Mempool size: {size} MB | {count} pending transactions"]%string.

(** [generateMempoolTx()]: the index of the entry of [txTypes] whose icon
    is returned, and the text; [None] stands for the [TypeError] of an entry
    that does not exist.  Each product and each sum is rounded.  [toFixed4]
    is [x.toFixed(4)], taken as given. *)
Definition generateMempoolTx (round : R -> R) (toFixed4 : R -> string) (e : env)
  : option (Z * string) :=
  let index := Math_floor (round (random e 0 * INR (List.length txTypes))) in
  let amount := toFixed4 (round (round (random e 1 * 10) + round 0.1)) in
  let fee := Math_floor (round (round (random e 2 * 50) + 10)) in
  let size := Math_floor (round (round (random e 3 * 500) + 100)) in
  let mempoolSize := Math_floor (round (round (random e 4 * 100) + 50)) in
  let count := Math_floor (round (round (random e 5 * 50000) + 10000)) in
  if (index <? 0)%Z then None else
  match nth_error txTypes (Z.to_nat index) with
  | Some text =>
      Some (index,
            replace "{count}" (NumberText.Number_toString count)
              (replace "{size}" (NumberText.Number_toString mempoolSize)
                 (replace "{fee}" (NumberText.Number_toString fee)
                    (replace "{amount}" amount text))))
  | None => None
  end.

(** [generateBlock()]: the index of the entry of [blockTypes] returned and
    its text; [None] stands for [undefined].  Each product and each sum of
    numbers that are not whole is rounded.  [toFixed2] is [x.toFixed(2)]. *)
Definition generateBlock (round : R -> R) (toFixed2 : R -> string) (e : env)
  : option (Z * string) :=
  let blockHeight := (800000 + Math_floor (round (random e 0 * 10000)%R))%Z in
  let txCount := Math_floor (round (round (random e 1 * 2000) + 1000)) in
  let reward := "6.25"%string in
  let blockTypes :=
    [("Block " ++ NumberText.Number_toString blockHeight ++ " mined | "
        ++ NumberText.Number_toString txCount ++ " transactions")%string;
     ("Block confirmed: " ++ NumberText.Number_toString blockHeight
        ++ " | Reward: " ++ reward ++ " BTC")%string;
     ("New block: " ++ NumberText.Number_toString blockHeight ++ " | Size: "
        ++ toFixed2 (round (round (random e 2 * 2) + 1)) ++ " MB")%string] in
  let index := Math_floor (round (random e 3 * INR (List.length blockTypes))) in
  if (index <? 0)%Z then None else
  match nth_error blockTypes (Z.to_nat index) with
  | Some text => Some (index, text)
  | None => None
  end.

End SimulatorPage.

(** * The service worker *)

Module ServiceWorker.

Definition CACHE_NAME : string := "anomcat-v1.01".

Definition urlsToCache : list string :=
  ["/"; "/index.html"; "/login.html"; "/register.html"; "/home.html";
   "/wallet.html"; "/transactions.html"; "/analytics.html"; "/settings.html";
   "/assets/css/style.css"; "/assets/js/app.js"; "/assets/data/chart-data.json";
   "/assets/data/users.json"; "/manifest.json"]%string.

(** A response, with its [ok] flag. *)
Record Response : Type := {
  ok : bool;
  body : string
}.

(** A cache maps request URLs to responses; the cache storage lists the
    caches by name, in the order of their creation. *)
Definition Cache : Type := list (string * Response).
Definition CacheStorage : Type := list (string * Cache).

(** What [fetch(url)] resolves to; [None] when it rejects. *)
Definition Network : Type := string -> option Response.

(** [cache.match(url)]. *)
Fixpoint cache_match (c : Cache) (url : string) : option Response :=
  match c with
  | [] => None
  | (u, r) :: rest => if String.eqb u url then Some r else cache_match rest url
  end.

(** [caches.match(url)]: the first cache that has a match answers. *)
Fixpoint caches_match (cs : CacheStorage) (url : string) : option Response :=
  match cs with
  | [] => None
  | (_, c) :: rest =>
      match cache_match c url with
      | Some r => Some r
      | None => caches_match rest url
      end
  end.

Definition has_cache (cs : CacheStorage) (name : string) : bool :=
  existsb (fun nc => String.eqb (fst nc) name) cs.

(** [caches.open(name)] creates the cache when there is none of that
    name. *)
Definition caches_open (name : string) (cs : CacheStorage) : CacheStorage :=
  if has_cache cs name then cs else cs ++ [(name, [])].

(** [cache.put(url, r)]. *)
Definition cache_put (url : string) (r : Response) (c : Cache) : Cache :=
  filter (fun ur => negb (String.eqb (fst ur) url)) c ++ [(url, r)].

(** The responses [cache.addAll(urls)] fetches: all of them, or [None] when
    one fetch rejects or answers with a response that is not [ok]. *)
Fixpoint fetch_all (net : Network) (urls : list string)
  : option (list (string * Response)) :=
  match urls with
  | [] => Some []
  | url :: rest =>
      match net url with
      | Some r =>
          if ok r
          then option_map (cons (url, r)) (fetch_all net rest)
          else None
      | None => None
      end
  end.

Definition put_all (entries : list (string * Response)) (c : Cache) : Cache :=
  fold_left (fun c ur => cache_put (fst ur) (snd ur) c) entries c.

Definition update_cache (name : string) (f : Cache -> Cache) (cs : CacheStorage)
  : CacheStorage :=
  map (fun nc => if String.eqb (fst nc) name then (fst nc, f (snd nc)) else nc) cs.

(** The [install] handler: the cache storage it leaves, and whether the
    promise it waits for is fulfilled (and [skipWaiting] called). *)
Definition install (net : Network) (cs : CacheStorage) : CacheStorage * bool :=
  let cs := caches_open CACHE_NAME cs in
  match fetch_all net urlsToCache with
  | Some entries => (update_cache CACHE_NAME (put_all entries) cs, true)
  | None => (cs, false)
  end.

(** The [fetch] handler: the response it answers with, [None] when the
    network fetch it falls back on rejects. *)
Definition on_fetch (net : Network) (cs : CacheStorage) (url : string)
  : option Response :=
  match caches_match cs url with
  | Some r => Some r
  | None => net url
  end.

Definition cacheWhitelist : list string := [CACHE_NAME].

(** The [activate] handler: every cache whose name is not on the whitelist
    is deleted. *)
Definition activate (cs : CacheStorage) : CacheStorage :=
  filter (fun nc => existsb (String.eqb (fst nc)) cacheWhitelist) cs.

(** A network that is down. *)
Definition offline : Network := fun _ => None.

End ServiceWorker.

(** * Properties of feeds and texts *)

Definition count_items (nodes : list SimulatorPage.node) : nat :=
  List.length (filter SimulatorPage.is_item nodes).

(** A text without an opening brace. *)
Fixpoint no_brace (s : string) : bool :=
  match s with
  | EmptyString => true
  | String c rest => negb (Ascii.eqb c "{") && no_brace rest
  end.

(** * Numbers that are not finite

    The engine modules above compute on finite numbers.  What the scripts
    hold in memory can also be [Infinity] or [NaN]: [parseFloat] returns
    [Infinity] for the text 'Infinity', both deposit guards let it through,
    and a binary64 sum or product overflows to it.  [JSON.stringify] writes
    such a number as [null].  The modules below embed the deposit, the
    storage functions and the displayed profit of both scripts over numbers
    of all four kinds; on finite numbers they compute as the modules above
    do. *)

(** A JavaScript number: a finite one, [Infinity], [-Infinity] or [NaN].
    Arithmetic on finite numbers is that of the reals, as in the engine
    modules.  Negative zero, which no operation of the scripts makes out of
    positive amounts and which [JSON.stringify] writes as [0], is not told
    apart from zero. *)
Inductive number : Type :=
| Finite (r : R)
| Infinity
| NegInfinity
| NotANumber.

(** A numeric property of a stored object: a number, or [null], which is
    what [JSON.parse] reads where [JSON.stringify] met a number that is not
    finite. *)
Inductive jsvalue : Type :=
| Null
| Number (x : number).

Module JSNumber.

(** [null] counts as 0 in arithmetic and in comparisons. *)
Definition ToNumber (v : jsvalue) : number :=
  match v with
  | Null => Finite 0
  | Number x => x
  end.

Definition isNaN (x : number) : bool :=
  match x with NotANumber => true | _ => false end.

Definition is_zero (x : number) : bool :=
  match x with
  | Finite r => if Req_dec_T r 0 then true else false
  | _ => false
  end.

Definition is_negative (x : number) : bool :=
  match x with
  | Finite r => if Rlt_dec r 0 then true else false
  | NegInfinity => true
  | _ => false
  end.

Definition signed_infinity (negative : bool) : number :=
  if negative then NegInfinity else Infinity.

Definition negate (x : number) : number :=
  match x with
  | Finite r => Finite (- r)
  | Infinity => NegInfinity
  | NegInfinity => Infinity
  | NotANumber => NotANumber
  end.

(** [x + y]: infinities of opposite signs add up to [NaN]. *)
Definition add (x y : number) : number :=
  match x, y with
  | NotANumber, _ | _, NotANumber => NotANumber
  | Finite a, Finite b => Finite (a + b)
  | Finite _, inf => inf
  | inf, Finite _ => inf
  | Infinity, Infinity => Infinity
  | NegInfinity, NegInfinity => NegInfinity
  | _, _ => NotANumber
  end.

Definition sub (x y : number) : number := add x (negate y).

(** [x * y]: an infinity times zero is [NaN]. *)
Definition mul (x y : number) : number :=
  match x, y with
  | NotANumber, _ | _, NotANumber => NotANumber
  | Finite a, Finite b => Finite (a * b)
  | _, _ => if is_zero x || is_zero y then NotANumber
            else signed_infinity (xorb (is_negative x) (is_negative y))
  end.

(** [x / y]; a zero is the positive one, the only one the model has. *)
Definition div (x y : number) : number :=
  match x, y with
  | NotANumber, _ | _, NotANumber => NotANumber
  | Finite a, Finite b =>
      if Req_dec_T b 0
      then if Req_dec_T a 0 then NotANumber else signed_infinity (is_negative x)
      else Finite (a / b)
  | Finite _, _ => Finite 0
  | _, Finite _ => signed_infinity (xorb (is_negative x) (is_negative y))
  | _, _ => NotANumber
  end.

(** [x <= y] and [x < y]: false as soon as one side is [NaN]. *)
Definition le (x y : number) : bool :=
  match x, y with
  | NotANumber, _ | _, NotANumber => false
  | NegInfinity, _ => true
  | _, Infinity => true
  | Finite a, Finite b => if Rle_dec a b then true else false
  | _, _ => false
  end.

Definition lt (x y : number) : bool :=
  match x, y with
  | NotANumber, _ | _, NotANumber => false
  | Finite a, Finite b => if Rlt_dec a b then true else false
  | NegInfinity, NegInfinity => false
  | Infinity, Infinity => false
  | NegInfinity, _ => true
  | _, Infinity => true
  | _, _ => false
  end.

(** [v === 0]. *)
Definition strictly_zero (v : jsvalue) : bool :=
  match v with
  | Number x => is_zero x
  | Null => false
  end.

(** What [JSON.parse] reads back for a numeric property that
    [JSON.stringify] wrote: the number when it is finite, [null]
    otherwise. *)
Definition JSON_number (v : jsvalue) : jsvalue :=
  match v with
  | Number (Finite r) => Number (Finite r)
  | _ => Null
  end.

(** A property that is neither [Infinity], [-Infinity] nor [NaN]. *)
Definition storable (v : jsvalue) : Prop :=
  match v with
  | Number (Finite _) => True
  | Null => True
  | _ => False
  end.

End JSNumber.

(** ** The single-page script over all numbers *)

Module WideSimulator.
Import NumberText JSNumber.

Record Point : Type := {
  time : Z;
  value : jsvalue
}.

Record Trade : Type := {
  t_time : Z;
  t_type : string;
  t_amount : jsvalue;
  t_profit : bool
}.

Record Portfolio : Type := {
  initial : jsvalue;
  current : jsvalue;
  history : list Point;
  trades : list Trade
}.

Record AnomCAT : Type := {
  portfolio : Portfolio;
  botActive : bool;
  lastUpdate : option Z
}.

Record Storage : Type := {
  available : bool;
  anomcat_portfolio : option (text Portfolio);
  anomcat_bot_active : option string;
  anomcat_last_update : option string
}.

Record World : Type := {
  this : AnomCAT;
  localStorage : Storage;
  console : list string
}.

Definition set_this (f : AnomCAT -> AnomCAT) (w : World) : World :=
  {| this := f (this w); localStorage := localStorage w; console := console w |}.

Definition set_storage (f : Storage -> Storage) (w : World) : World :=
  {| this := this w; localStorage := f (localStorage w); console := console w |}.

Definition console_error (msg : string) (w : World) : World :=
  {| this := this w; localStorage := localStorage w; console := console w ++ [msg] |}.

Definition set_portfolio (p : Portfolio) (a : AnomCAT) : AnomCAT :=
  {| portfolio := p; botActive := botActive a; lastUpdate := lastUpdate a |}.

Definition set_botActive (b : bool) (a : AnomCAT) : AnomCAT :=
  {| portfolio := portfolio a; botActive := b; lastUpdate := lastUpdate a |}.

Definition set_lastUpdate (t : option Z) (a : AnomCAT) : AnomCAT :=
  {| portfolio := portfolio a; botActive := botActive a; lastUpdate := t |}.

Definition set_initial (x : jsvalue) (p : Portfolio) : Portfolio :=
  {| initial := x; current := current p; history := history p; trades := trades p |}.

Definition set_current (x : jsvalue) (p : Portfolio) : Portfolio :=
  {| initial := initial p; current := x; history := history p; trades := trades p |}.

Definition set_history (h : list Point) (p : Portfolio) : Portfolio :=
  {| initial := initial p; current := current p; history := h; trades := trades p |}.

Definition set_trades (t : list Trade) (p : Portfolio) : Portfolio :=
  {| initial := initial p; current := current p; history := history p; trades := t |}.

Definition initial_app (t0 : Z) : AnomCAT :=
  {| portfolio := {| initial := Number (Finite 0); current := Number (Finite 0);
                     history := []; trades := [] |};
     botActive := false;
     lastUpdate := Some t0 |}.

(** *** Storage *)

Definition getItem {A : Type} (key : Storage -> option A) : JS World (option A) :=
  fun w =>
    if available (localStorage w)
    then (w, Normal (key (localStorage w)))
    else (w, Thrown "SecurityError").

Definition setItem (write : Storage -> Storage) : JS World unit :=
  fun w =>
    if available (localStorage w)
    then (set_storage write w, Normal tt)
    else (w, Thrown "SecurityError").

Definition write_portfolio (t : text Portfolio) (s : Storage) : Storage :=
  {| available := available s; anomcat_portfolio := Some t;
     anomcat_bot_active := anomcat_bot_active s;
     anomcat_last_update := anomcat_last_update s |}.

Definition write_bot_active (v : string) (s : Storage) : Storage :=
  {| available := available s; anomcat_portfolio := anomcat_portfolio s;
     anomcat_bot_active := Some v;
     anomcat_last_update := anomcat_last_update s |}.

Definition write_last_update (v : string) (s : Storage) : Storage :=
  {| available := available s; anomcat_portfolio := anomcat_portfolio s;
     anomcat_bot_active := anomcat_bot_active s;
     anomcat_last_update := Some v |}.

(** The portfolio [JSON.parse] reads back from the text [JSON.stringify]
    writes for [p]: the same object, with [null] for every number that is
    not finite. *)
Definition JSON_point (pt : Point) : Point :=
  {| time := time pt; value := JSON_number (value pt) |}.

Definition JSON_trade (t : Trade) : Trade :=
  {| t_time := t_time t; t_type := t_type t; t_amount := JSON_number (t_amount t);
     t_profit := t_profit t |}.

Definition JSON_portfolio (p : Portfolio) : Portfolio :=
  {| initial := JSON_number (initial p);
     current := JSON_number (current p);
     history := map JSON_point (history p);
     trades := map JSON_trade (trades p) |}.

Definition JSON_stringify (p : Portfolio) : text Portfolio := Doc (JSON_portfolio p).

Definition saveToStorage : World -> World :=
  try_catch
    (fun w =>
       (setItem (write_portfolio (JSON_stringify (portfolio (this w)))) ;;
        setItem (write_bot_active (String_of_bool (botActive (this w)))) ;;
        setItem (write_last_update (String_of_time (lastUpdate (this w)))))%js w)
    (console_error "Failed to save to localStorage:").

Definition loadFromStorage : World -> World :=
  try_catch
    (stored <- getItem anomcat_portfolio ;;
     match stored with
     | Some t =>
         when (truthy_text t)
           (p <- JSON_parse t ;; modify (set_this (set_portfolio p)))
     | None => ret tt
     end ;;
     stored <- getItem anomcat_bot_active ;;
     match stored with
     | Some v => modify (set_this (set_botActive (String.eqb v "true")))
     | None => ret tt
     end ;;
     stored <- getItem anomcat_last_update ;;
     match stored with
     | Some v => when (truthy v) (modify (set_this (set_lastUpdate (parseInt v))))
     | None => ret tt
     end)%js
    (console_error "Failed to load from localStorage:").

(** *** The deposit *)

Definition simulateTrade (type : string) (amount : number) (now : Z) (r : R)
           (w : World) : World :=
  let trade :=
    {| t_time := now; t_type := type; t_amount := Number amount;
       t_profit := if Rgt_dec r 0.4 then true else false |} in
  let p := portfolio (this w) in
  let ts := push (trades p) trade in
  let ts := if (50 <? List.length ts)%nat then shift ts else ts in
  saveToStorage (set_this (set_portfolio (set_trades ts p)) w).

(** [handleDeposit()]; [amount] is the [parseFloat] of the input field. *)
Definition handleDeposit (amount : number) (e : env) (w : World)
  : World * option string :=
  if isNaN amount || le amount (Finite 0)
  then (w, Some "Please enter a valid BTC amount"%string)
  else
    let p := portfolio (this w) in
    let p :=
      if strictly_zero (initial p)
      then set_history [{| time := clock e 0; value := Number amount |}]
             (set_current (Number amount) (set_initial (Number amount) p))
      else set_current (Number (add (ToNumber (current p)) amount)) p in
    let w := set_this (fun a =>
               set_lastUpdate (Some (clock e 1))
                 (set_botActive true (set_portfolio p a))) w in
    let w := saveToStorage w in
    (simulateTrade "BUY" (mul amount (Finite 0.1)) (clock e 2) (random e 0) w, None).

(** *** What [updateUI] shows of the profit *)

Definition profit (a : AnomCAT) : number :=
  sub (ToNumber (current (portfolio a))) (ToNumber (initial (portfolio a))).

Definition roi (a : AnomCAT) : number :=
  if lt (Finite 0) (ToNumber (initial (portfolio a)))
  then mul (div (sub (ToNumber (current (portfolio a)))
                     (ToNumber (initial (portfolio a))))
                (ToNumber (initial (portfolio a))))
           (Finite 100)
  else Finite 0.

(** The sign put before a value, and the class of its element. *)
Definition sign (x : number) : string :=
  if le (Finite 0) x then "+" else "".

Definition stat_class (x : number) : string :=
  if le (Finite 0) x then "portfolio-stat-value gain" else "portfolio-stat-value loss".

(** *** Worlds *)

Definition empty_storage : Storage :=
  {| available := true; anomcat_portfolio := None; anomcat_bot_active := None;
     anomcat_last_update := None |}.

Definition fresh (t0 : Z) : World :=
  {| this := initial_app t0; localStorage := empty_storage; console := [] |}.

Definition reload (t0 : Z) (w : World) : World :=
  loadFromStorage
    {| this := initial_app t0; localStorage := localStorage w; console := [] |}.

Definition removeItems (no_portfolio no_bot_active no_last_update : bool)
           (s : Storage) : Storage :=
  {| available := available s;
     anomcat_portfolio := if no_portfolio then None else anomcat_portfolio s;
     anomcat_bot_active := if no_bot_active then None else anomcat_bot_active s;
     anomcat_last_update := if no_last_update then None else anomcat_last_update s |}.

(** A portfolio none of whose numbers is [Infinity], [-Infinity] or
    [NaN]. *)
Definition storable_portfolio (p : Portfolio) : Prop :=
  storable (initial p) /\ storable (current p) /\
  Forall (fun pt => storable (value pt)) (history p) /\
  Forall (fun t => storable (t_amount t)) (trades p).

End WideSimulator.

(** ** The v1.01 script over all numbers *)

Module WideDashboard.
Import JSNumber.

Record Point : Type := {
  time : Z;
  value : jsvalue
}.

Record Transaction : Type := {
  tx_id : Z;
  tx_time : Z;
  tx_type : string;
  tx_amount : jsvalue;
  tx_profit : option bool
}.

Record Portfolio : Type := {
  btcBalance : jsvalue;
  eurBalance : jsvalue;
  initialBtc : jsvalue;
  history : list Point;
  trades : list Transaction
}.

Record Bot : Type := {
  active : bool;
  monthlyReturn : jsvalue;
  lastUpdate : Z
}.

Record AnomCAT : Type := {
  currency : string;
  portfolio : Portfolio;
  bot : Bot
}.

Record Storage : Type := {
  available : bool;
  anomcat_portfolio : option (text Portfolio);
  anomcat_bot : option (text Bot);
  anomcat_currency : option string
}.

Record World : Type := {
  this : AnomCAT;
  localStorage : Storage;
  console : list string
}.

Definition set_this (f : AnomCAT -> AnomCAT) (w : World) : World :=
  {| this := f (this w); localStorage := localStorage w; console := console w |}.

Definition set_storage (f : Storage -> Storage) (w : World) : World :=
  {| this := this w; localStorage := f (localStorage w); console := console w |}.

Definition console_error (msg : string) (w : World) : World :=
  {| this := this w; localStorage := localStorage w; console := console w ++ [msg] |}.

Definition set_portfolio (p : Portfolio) (a : AnomCAT) : AnomCAT :=
  {| currency := currency a; portfolio := p; bot := bot a |}.

Definition set_bot (b : Bot) (a : AnomCAT) : AnomCAT :=
  {| currency := currency a; portfolio := portfolio a; bot := b |}.

Definition set_currency (c : string) (a : AnomCAT) : AnomCAT :=
  {| currency := c; portfolio := portfolio a; bot := bot a |}.

Definition set_btcBalance (x : jsvalue) (p : Portfolio) : Portfolio :=
  {| btcBalance := x; eurBalance := eurBalance p; initialBtc := initialBtc p;
     history := history p; trades := trades p |}.

Definition set_eurBalance (x : jsvalue) (p : Portfolio) : Portfolio :=
  {| btcBalance := btcBalance p; eurBalance := x; initialBtc := initialBtc p;
     history := history p; trades := trades p |}.

Definition set_initialBtc (x : jsvalue) (p : Portfolio) : Portfolio :=
  {| btcBalance := btcBalance p; eurBalance := eurBalance p; initialBtc := x;
     history := history p; trades := trades p |}.

Definition set_history (h : list Point) (p : Portfolio) : Portfolio :=
  {| btcBalance := btcBalance p; eurBalance := eurBalance p;
     initialBtc := initialBtc p; history := h; trades := trades p |}.

Definition set_trades (t : list Transaction) (p : Portfolio) : Portfolio :=
  {| btcBalance := btcBalance p; eurBalance := eurBalance p;
     initialBtc := initialBtc p; history := history p; trades := t |}.

Definition set_active (x : bool) (b : Bot) : Bot :=
  {| active := x; monthlyReturn := monthlyReturn b; lastUpdate := lastUpdate b |}.

Definition set_lastUpdate (t : Z) (b : Bot) : Bot :=
  {| active := active b; monthlyReturn := monthlyReturn b; lastUpdate := t |}.

Definition initial (t0 : Z) : AnomCAT :=
  {| currency := "BTC";
     portfolio := {| btcBalance := Number (Finite 0); eurBalance := Number (Finite 0);
                     initialBtc := Number (Finite 0); history := []; trades := [] |};
     bot := {| active := false; monthlyReturn := Number (Finite 0.013);
               lastUpdate := t0 |} |}.

Definition btcToEur (btcValue : number) : number :=
  mul btcValue (Finite Dashboard.DEFAULT_BTC_EUR_RATE).

(** *** Storage *)

Definition getItem {A : Type} (key : Storage -> option A) : JS World (option A) :=
  fun w =>
    if available (localStorage w)
    then (w, Normal (key (localStorage w)))
    else (w, Thrown "SecurityError").

Definition setItem (write : Storage -> Storage) : JS World unit :=
  fun w =>
    if available (localStorage w)
    then (set_storage write w, Normal tt)
    else (w, Thrown "SecurityError").

Definition write_portfolio (t : text Portfolio) (s : Storage) : Storage :=
  {| available := available s; anomcat_portfolio := Some t;
     anomcat_bot := anomcat_bot s; anomcat_currency := anomcat_currency s |}.

Definition write_bot (t : text Bot) (s : Storage) : Storage :=
  {| available := available s; anomcat_portfolio := anomcat_portfolio s;
     anomcat_bot := Some t; anomcat_currency := anomcat_currency s |}.

Definition write_currency (c : string) (s : Storage) : Storage :=
  {| available := available s; anomcat_portfolio := anomcat_portfolio s;
     anomcat_bot := anomcat_bot s; anomcat_currency := Some c |}.

(** What [JSON.parse] reads back from the text [JSON.stringify] writes: the
    same object, with [null] for every number that is not finite. *)
Definition JSON_point (pt : Point) : Point :=
  {| time := time pt; value := JSON_number (value pt) |}.

Definition JSON_transaction (t : Transaction) : Transaction :=
  {| tx_id := tx_id t; tx_time := tx_time t; tx_type := tx_type t;
     tx_amount := JSON_number (tx_amount t); tx_profit := tx_profit t |}.

Definition JSON_portfolio (p : Portfolio) : Portfolio :=
  {| btcBalance := JSON_number (btcBalance p);
     eurBalance := JSON_number (eurBalance p);
     initialBtc := JSON_number (initialBtc p);
     history := map JSON_point (history p);
     trades := map JSON_transaction (trades p) |}.

Definition JSON_bot (b : Bot) : Bot :=
  {| active := active b; monthlyReturn := JSON_number (monthlyReturn b);
     lastUpdate := lastUpdate b |}.

Definition saveToStorage : World -> World :=
  try_catch
    (fun w =>
       (setItem (write_portfolio (Doc (JSON_portfolio (portfolio (this w))))) ;;
        setItem (write_bot (Doc (JSON_bot (bot (this w))))) ;;
        setItem (write_currency (currency (this w))))%js w)
    (console_error "Failed to save to localStorage:").

Definition loadFromStorage : World -> World :=
  try_catch
    (stored <- getItem anomcat_portfolio ;;
     match stored with
     | Some t =>
         when (truthy_text t)
           (p <- JSON_parse t ;; modify (set_this (set_portfolio p)))
     | None => ret tt
     end ;;
     stored <- getItem anomcat_bot ;;
     match stored with
     | Some t =>
         when (truthy_text t)
           (b <- JSON_parse t ;; modify (set_this (set_bot b)))
     | None => ret tt
     end ;;
     stored <- getItem anomcat_currency ;;
     match stored with
     | Some c => when (truthy c) (modify (set_this (set_currency c)))
     | None => ret tt
     end)%js
    (console_error "Failed to load from localStorage:").

(** *** The deposit *)

Definition addTransaction (type : string) (amount : number)
           (t_id t_time : Z) (r : R) (w : World) : World :=
  let transaction :=
    {| tx_id := t_id; tx_time := t_time; tx_type := type;
       tx_amount := Number amount;
       tx_profit := if String.eqb type "trade"
                    then Some (if Rgt_dec r 0.4 then true else false)
                    else None |} in
  let p := portfolio (this w) in
  let ts := unshift (trades p) transaction in
  let ts := if (100 <? List.length ts)%nat then slice0 100 ts else ts in
  saveToStorage (set_this (set_portfolio (set_trades ts p)) w).

Definition deposit (btcAmount : number) (e : env) (w : World) : World * bool :=
  if isNaN btcAmount || le btcAmount (Finite 0) then (w, false)
  else
    let p := portfolio (this w) in
    let p :=
      if strictly_zero (initialBtc p)
      then set_history [{| time := clock e 0; value := Number btcAmount |}]
             (set_btcBalance (Number btcAmount)
                (set_initialBtc (Number btcAmount) p))
      else set_btcBalance (Number (add (ToNumber (btcBalance p)) btcAmount)) p in
    let p := set_eurBalance (Number (btcToEur (ToNumber (btcBalance p)))) p in
    let b := set_lastUpdate (clock e 1) (set_active true (bot (this w))) in
    let w := set_this (fun a => set_bot b (set_portfolio p a)) w in
    let w := addTransaction "deposit" btcAmount (clock e 2) (clock e 3) (random e 0) w in
    (saveToStorage w, true).

(** *** What [updateStatDisplays] shows of the profit *)

Definition profit (a : AnomCAT) : number :=
  sub (ToNumber (btcBalance (portfolio a))) (ToNumber (initialBtc (portfolio a))).

Definition roi (a : AnomCAT) : number :=
  if lt (Finite 0) (ToNumber (initialBtc (portfolio a)))
  then mul (div (sub (ToNumber (btcBalance (portfolio a)))
                     (ToNumber (initialBtc (portfolio a))))
                (ToNumber (initialBtc (portfolio a))))
           (Finite 100)
  else Finite 0.

Definition sign (x : number) : string :=
  if le (Finite 0) x then "+" else "".

Definition stat_class (x : number) : string :=
  if le (Finite 0) x then "stat-value text-success" else "stat-value text-danger".

(** *** Worlds *)

Definition empty_storage : Storage :=
  {| available := true; anomcat_portfolio := None; anomcat_bot := None;
     anomcat_currency := None |}.

Definition fresh (t0 : Z) : World :=
  {| this := initial t0; localStorage := empty_storage; console := [] |}.

Definition reload (t0 : Z) (w : World) : World :=
  loadFromStorage
    {| this := initial t0; localStorage := localStorage w; console := [] |}.

Definition removeItems (no_portfolio no_bot no_currency : bool) (s : Storage)
  : Storage :=
  {| available := available s;
     anomcat_portfolio := if no_portfolio then None else anomcat_portfolio s;
     anomcat_bot := if no_bot then None else anomcat_bot s;
     anomcat_currency := if no_currency then None else anomcat_currency s |}.

Definition storable_portfolio (p : Portfolio) : Prop :=
  storable (btcBalance p) /\ storable (eurBalance p) /\ storable (initialBtc p) /\
  Forall (fun pt => storable (value pt)) (history p) /\
  Forall (fun t => storable (tx_amount t)) (trades p).

Definition storable_bot (b : Bot) : Prop := storable (monthlyReturn b).

End WideDashboard.

(** ** From finite numbers to all numbers *)

(** The states and worlds of the engine modules read over all numbers. *)
Definition widen_text {A B : Type} (f : A -> B) (t : text A) : text B :=
  match t with
  | Blank => Blank
  | Malformed => Malformed
  | Doc a => Doc (f a)
  end.

Definition widen_simulator_point (pt : point) : WideSimulator.Point :=
  {| WideSimulator.time := time pt;
     WideSimulator.value := Number (Finite (value pt)) |}.

Definition widen_simulator_trade (t : Simulator.Trade) : WideSimulator.Trade :=
  {| WideSimulator.t_time := Simulator.t_time t;
     WideSimulator.t_type := Simulator.t_type t;
     WideSimulator.t_amount := Number (Finite (Simulator.t_amount t));
     WideSimulator.t_profit := Simulator.t_profit t |}.

Definition widen_simulator_portfolio (p : Simulator.Portfolio)
  : WideSimulator.Portfolio :=
  {| WideSimulator.initial := Number (Finite (Simulator.initial p));
     WideSimulator.current := Number (Finite (Simulator.current p));
     WideSimulator.history := map widen_simulator_point (Simulator.history p);
     WideSimulator.trades := map widen_simulator_trade (Simulator.trades p) |}.

Definition widen_simulator (a : Simulator.AnomCAT) : WideSimulator.AnomCAT :=
  {| WideSimulator.portfolio := widen_simulator_portfolio (Simulator.portfolio a);
     WideSimulator.botActive := Simulator.botActive a;
     WideSimulator.lastUpdate := Simulator.lastUpdate a |}.

Definition widen_simulator_world (w : Simulator.World) : WideSimulator.World :=
  let s := Simulator.localStorage w in
  {| WideSimulator.this := widen_simulator (Simulator.this w);
     WideSimulator.localStorage :=
       {| WideSimulator.available := Simulator.available s;
          WideSimulator.anomcat_portfolio :=
            option_map (widen_text widen_simulator_portfolio)
              (Simulator.anomcat_portfolio s);
          WideSimulator.anomcat_bot_active := Simulator.anomcat_bot_active s;
          WideSimulator.anomcat_last_update := Simulator.anomcat_last_update s |};
     WideSimulator.console := Simulator.console w |}.

Definition widen_dashboard_point (pt : point) : WideDashboard.Point :=
  {| WideDashboard.time := time pt;
     WideDashboard.value := Number (Finite (value pt)) |}.

Definition widen_dashboard_transaction (t : Dashboard.Transaction)
  : WideDashboard.Transaction :=
  {| WideDashboard.tx_id := Dashboard.tx_id t;
     WideDashboard.tx_time := Dashboard.tx_time t;
     WideDashboard.tx_type := Dashboard.tx_type t;
     WideDashboard.tx_amount := Number (Finite (Dashboard.tx_amount t));
     WideDashboard.tx_profit := Dashboard.tx_profit t |}.

Definition widen_dashboard_portfolio (p : Dashboard.Portfolio)
  : WideDashboard.Portfolio :=
  {| WideDashboard.btcBalance := Number (Finite (Dashboard.btcBalance p));
     WideDashboard.eurBalance := Number (Finite (Dashboard.eurBalance p));
     WideDashboard.initialBtc := Number (Finite (Dashboard.initialBtc p));
     WideDashboard.history := map widen_dashboard_point (Dashboard.history p);
     WideDashboard.trades := map widen_dashboard_transaction (Dashboard.trades p) |}.

Definition widen_dashboard_bot (b : Dashboard.Bot) : WideDashboard.Bot :=
  {| WideDashboard.active := Dashboard.active b;
     WideDashboard.monthlyReturn := Number (Finite (Dashboard.monthlyReturn b));
     WideDashboard.lastUpdate := Dashboard.lastUpdate b |}.

Definition widen_dashboard (a : Dashboard.AnomCAT) : WideDashboard.AnomCAT :=
  {| WideDashboard.currency := Dashboard.currency a;
     WideDashboard.portfolio := widen_dashboard_portfolio (Dashboard.portfolio a);
     WideDashboard.bot := widen_dashboard_bot (Dashboard.bot a) |}.

Definition widen_dashboard_world (w : Dashboard.World) : WideDashboard.World :=
  let s := Dashboard.localStorage w in
  {| WideDashboard.this := widen_dashboard (Dashboard.this w);
     WideDashboard.localStorage :=
       {| WideDashboard.available := Dashboard.available s;
          WideDashboard.anomcat_portfolio :=
            option_map (widen_text widen_dashboard_portfolio)
              (Dashboard.anomcat_portfolio s);
          WideDashboard.anomcat_bot :=
            option_map (widen_text widen_dashboard_bot) (Dashboard.anomcat_bot s);
          WideDashboard.anomcat_currency := Dashboard.anomcat_currency s |};
     WideDashboard.console := Dashboard.console w |}.

(** * Facts about the v1.01 script *)

Module DashboardFacts.
Import Dashboard.

(** [saveToStorage] in one piece: the three writes, or the logged failure. *)
Lemma saveToStorage_eq (w : World) :
  saveToStorage w =
  if available (localStorage w)
  then set_storage
         (fun s => write_currency (currency (this w))
                     (write_bot (Doc (bot (this w)))
                        (write_portfolio (Doc (portfolio (this w))) s))) w
  else console_error "Failed to save to localStorage:" w.
Proof.
  unfold saveToStorage, try_catch, bind, setItem, JSON_stringify.
  destruct (available (localStorage w)) eqn:Hav;
    unfold set_storage, write_currency, write_bot, write_portfolio; cbn;
    rewrite ?Hav; cbn; reflexivity.
Qed.

Lemma saveToStorage_this (w : World) : this (saveToStorage w) = this w.
Proof.
  rewrite saveToStorage_eq. now destruct (available (localStorage w)).
Qed.

Lemma saveToStorage_available (w : World) :
  available (localStorage (saveToStorage w)) = available (localStorage w).
Proof.
  rewrite saveToStorage_eq.
  now destruct (available (localStorage w)) eqn:Hav; cbn.
Qed.

Lemma addTransaction_this type amount t_id t_time r (w : World) :
  this (addTransaction type amount t_id t_time r w) =
  set_portfolio
    (set_trades
       (let ts := unshift (trades (portfolio (this w)))
                    {| tx_id := t_id; tx_time := t_time; tx_type := type;
                       tx_amount := amount;
                       tx_profit := if String.eqb type "trade"
                                    then Some (if Rgt_dec r 0.4 then true else false)
                                    else None |} in
        if (100 <? List.length ts)%nat then slice0 100 ts else ts)
       (portfolio (this w)))
    (this w).
Proof. unfold addTransaction. now rewrite saveToStorage_this. Qed.

(** The in-memory object after a valid deposit. *)
Lemma deposit_this (amount : R) (e : env) (w : World) :
  0 < amount ->
  let p := portfolio (this w) in
  let w' := fst (deposit (Num amount) e w) in
  snd (deposit (Num amount) e w) = true /\
  currency (this w') = currency (this w) /\
  bot (this w') = set_lastUpdate (clock e 1) (set_active true (bot (this w))) /\
  initialBtc (portfolio (this w')) =
    (if Req_dec_T (initialBtc p) 0 then amount else initialBtc p) /\
  btcBalance (portfolio (this w')) =
    (if Req_dec_T (initialBtc p) 0 then amount else btcBalance p + amount) /\
  history (portfolio (this w')) =
    (if Req_dec_T (initialBtc p) 0
     then [{| time := clock e 0; value := amount |}] else history p) /\
  trades (portfolio (this w')) =
    (let ts := unshift (trades p)
                 {| tx_id := clock e 2; tx_time := clock e 3; tx_type := "deposit";
                    tx_amount := amount; tx_profit := None |} in
     if (100 <? List.length ts)%nat then slice0 100 ts else ts).
Proof.
  intros Hpos p w'. subst w' p. unfold deposit.
  destruct (Rle_dec amount 0) as [Hle|_]; [lra|].
  cbn [fst snd]. rewrite saveToStorage_this, addTransaction_this.
  destruct (Req_dec_T (initialBtc (portfolio (this w))) 0); cbn; auto 10.
Qed.

Lemma applies_dec (e : env) (w : World) : {applies e w} + {~ applies e w}.
Proof.
  unfold applies.
  destruct (active (bot (this w)));
    [|right; intros [H _]; discriminate].
  destruct (Rlt_dec 0 (btcBalance (portfolio (this w))));
    [|right; tauto].
  destruct (Rgt_dec (growth (this w) (clock e 0)) SATOSHI_THRESHOLD);
    [left; auto | right; tauto].
Qed.

Lemma updatePortfolio_idle (e : env) (w : World) :
  ~ applies e w -> updatePortfolio e w = w.
Proof.
  unfold applies, updatePortfolio. intros H.
  destruct (active (bot (this w))); cbn; auto.
  destruct (Rle_dec (btcBalance (portfolio (this w))) 0); cbn; auto.
  destruct (Rgt_dec (growth (this w) (clock e 0)) SATOSHI_THRESHOLD); auto.
  exfalso; apply H; repeat split; auto; lra.
Qed.

(** The in-memory object after a tick that applies growth. *)
Lemma updatePortfolio_this (e : env) (w : World) :
  applies e w ->
  let p := portfolio (this w) in
  let now := clock e 0 in
  let w' := updatePortfolio e w in
  let grown := btcBalance p + growth (this w) now in
  currency (this w') = currency (this w) /\
  bot (this w') = set_lastUpdate now (bot (this w)) /\
  initialBtc (portfolio (this w')) = initialBtc p /\
  btcBalance (portfolio (this w')) = grown /\
  eurBalance (portfolio (this w')) = btcToEur grown /\
  history (portfolio (this w')) =
    (let h := push (history p) {| time := now; value := grown |} in
     if (100 <? List.length h)%nat then shift h else h) /\
  trades (portfolio (this w')) =
    (if Rgt_dec (random e 0) 0.7 then
       let ts := unshift (trades p)
                   {| tx_id := clock e 1; tx_time := clock e 2; tx_type := "trade";
                      tx_amount := grown * (random e 1 * 0.05 + 0.01);
                      tx_profit := Some (if Rgt_dec (random e 2) 0.4
                                         then true else false) |} in
       if (100 <? List.length ts)%nat then slice0 100 ts else ts
     else trades p).
Proof.
  intros (Hact & Hbal & Hgrow) p now w'. subst w' p now.
  unfold updatePortfolio. rewrite Hact; cbn [negb orb].
  destruct (Rle_dec (btcBalance (portfolio (this w))) 0); [lra|].
  destruct (Rgt_dec (growth (this w) (clock e 0)) SATOSHI_THRESHOLD); [|tauto].
  rewrite saveToStorage_this.
  destruct (Rgt_dec (random e 0) 0.7);
    [rewrite addTransaction_this|]; cbn; auto 10.
Qed.

End DashboardFacts.

(** * Facts about the single-page script *)

Module SimulatorFacts.
Import NumberText Simulator.

Lemma sim_saveToStorage_eq (w : World) :
  saveToStorage w =
  if available (localStorage w)
  then set_storage
         (fun s => write_last_update (String_of_time (lastUpdate (this w)))
                     (write_bot_active (String_of_bool (botActive (this w)))
                        (write_portfolio (Doc (portfolio (this w))) s))) w
  else console_error "Failed to save to localStorage:" w.
Proof.
  unfold saveToStorage, try_catch, bind, setItem, JSON_stringify.
  destruct (available (localStorage w)) eqn:Hav;
    unfold set_storage, write_last_update, write_bot_active, write_portfolio; cbn;
    rewrite ?Hav; cbn; reflexivity.
Qed.

Lemma sim_saveToStorage_this (w : World) : this (saveToStorage w) = this w.
Proof.
  rewrite sim_saveToStorage_eq. now destruct (available (localStorage w)).
Qed.

Lemma simulateTrade_this type amount now r (w : World) :
  this (simulateTrade type amount now r w) =
  set_portfolio
    (set_trades
       (let ts := push (trades (portfolio (this w)))
                    {| t_time := now; t_type := type; t_amount := amount;
                       t_profit := if Rgt_dec r 0.4 then true else false |} in
        if (50 <? List.length ts)%nat then shift ts else ts)
       (portfolio (this w)))
    (this w).
Proof. unfold simulateTrade. now rewrite sim_saveToStorage_this. Qed.

(** The instance after a valid deposit. *)
Lemma handleDeposit_this (amount : R) (e : env) (w : World) :
  0 < amount ->
  let p := portfolio (this w) in
  let w' := fst (handleDeposit (Num amount) e w) in
  snd (handleDeposit (Num amount) e w) = None /\
  botActive (this w') = true /\
  lastUpdate (this w') = Some (clock e 1) /\
  initial (portfolio (this w')) =
    (if Req_dec_T (initial p) 0 then amount else initial p) /\
  current (portfolio (this w')) =
    (if Req_dec_T (initial p) 0 then amount else current p + amount) /\
  history (portfolio (this w')) =
    (if Req_dec_T (initial p) 0
     then [{| time := clock e 0; value := amount |}] else history p) /\
  trades (portfolio (this w')) =
    (let ts := push (trades p)
                 {| t_time := clock e 2; t_type := "BUY"; t_amount := amount * 0.1;
                    t_profit := if Rgt_dec (random e 0) 0.4 then true else false |} in
     if (50 <? List.length ts)%nat then shift ts else ts).
Proof.
  intros Hpos p w'. subst w' p. unfold handleDeposit.
  destruct (Rle_dec amount 0) as [Hle|_]; [lra|].
  cbn [fst snd]. rewrite simulateTrade_this, sim_saveToStorage_this.
  destruct (Req_dec_T (initial (portfolio (this w))) 0); cbn; auto 10.
Qed.

Lemma sim_applies_dec (e : env) (w : World) : {applies e w} + {~ applies e w}.
Proof.
  unfold applies.
  destruct (botActive (this w));
    [|right; intros [H _]; discriminate].
  destruct (Rlt_dec 0 (current (portfolio (this w))));
    [|right; tauto].
  destruct (jsgt (growth (this w) (clock e 0)) 0.00000001);
    [left; auto | right; intros (_ & _ & H); discriminate].
Qed.

Lemma applies_growth (e : env) (w : World) :
  applies e w ->
  growth (this w) (clock e 0) = Num (growth_value (this w) (clock e 0)) /\
  growth_value (this w) (clock e 0) > 0.00000001.
Proof.
  intros (_ & _ & H). unfold growth_value.
  destruct (growth (this w) (clock e 0)) as [|g]; cbn in H; [discriminate|].
  destruct (Rgt_dec g 0.00000001); [auto | discriminate].
Qed.

Lemma tick_idle (e : env) (w : World) : ~ applies e w -> tick e w = w.
Proof.
  unfold applies, tick. intros H.
  destruct (botActive (this w)); cbn; auto.
  destruct (Rgt_dec (current (portfolio (this w))) 0); cbn; auto.
  destruct (growth (this w) (clock e 0)) as [|g]; auto.
  cbn in H. destruct (Rgt_dec g 0.00000001); auto.
  exfalso; apply H; repeat split; auto; lra.
Qed.

(** The instance after a tick that applies growth. *)
Lemma tick_this (e : env) (w : World) :
  applies e w ->
  let p := portfolio (this w) in
  let now := clock e 0 in
  let w' := tick e w in
  let grown := current p + growth_value (this w) now in
  botActive (this w') = botActive (this w) /\
  lastUpdate (this w') = Some now /\
  initial (portfolio (this w')) = initial p /\
  current (portfolio (this w')) = grown /\
  history (portfolio (this w')) =
    (let h := push (history p) {| time := now; value := grown |} in
     if (100 <? List.length h)%nat then shift h else h) /\
  trades (portfolio (this w')) =
    (if Rgt_dec (random e 0) 0.7 then
       let ts := push (trades p)
                   {| t_time := clock e 1;
                      t_type := if Rgt_dec (random e 2) 0.5 then "BUY" else "SELL";
                      t_amount := grown * (random e 1 * 0.05 + 0.01);
                      t_profit := if Rgt_dec (random e 3) 0.4 then true else false |} in
       if (50 <? List.length ts)%nat then shift ts else ts
     else trades p).
Proof.
  intros Happ p now w'. subst w' p now.
  destruct (applies_growth e w Happ) as [Hg Hgt].
  destruct Happ as (Hact & Hbal & _).
  unfold tick. rewrite Hact; cbn [andb].
  destruct (Rgt_dec (current (portfolio (this w))) 0); [|lra].
  rewrite Hg.
  destruct (Rgt_dec (growth_value (this w) (clock e 0)) 0.00000001); [|tauto].
  destruct (Rgt_dec (random e 0) 0.7);
    [rewrite simulateTrade_this|]; rewrite sim_saveToStorage_this; cbn; auto 10.
Qed.

End SimulatorFacts.

(** * Timestamps through text *)

Module NumberTextFacts.
Import NumberText.
Local Open Scope Z_scope.

Ltac eval_digits :=
  repeat match goal with
         | |- context [digit_of 10 ?c] =>
             let v := eval vm_compute in (digit_of 10 c) in
             change (digit_of 10 c) with v
         end;
  cbv iota.

Lemma read_digits_uint (d : uint) (a : Z) :
  read_digits 10 (NilEmpty.string_of_uint d) (Some a) = Some (digits_value d a).
Proof.
  revert a.
  induction d; intros a; cbn [NilEmpty.string_of_uint digits_value];
    [reflexivity | ..]; cbn [read_digits]; eval_digits; apply IHd.
Qed.

Lemma of_uint_acc_value (d : uint) (acc : positive) :
  Z.pos (Pos.of_uint_acc d acc) = digits_value d (Z.pos acc).
Proof.
  revert acc.
  induction d; intros acc; cbn [Pos.of_uint_acc digits_value];
    [reflexivity | ..]; rewrite IHd; f_equal; lia.
Qed.

Lemma of_uint_value (d : uint) : Z.of_uint d = digits_value d 0.
Proof.
  unfold Z.of_uint.
  induction d; cbn [Pos.of_uint digits_value];
    [reflexivity | exact IHd | ..]; cbn [Z.of_N]; apply of_uint_acc_value.
Qed.

Lemma read_magnitude_uint (d : uint) :
  read_magnitude (NilZero.string_of_uint d) = Some (Z.of_uint d).
Proof.
  rewrite of_uint_value.
  destruct d as [|d|d|d|d|d|d|d|d|d|d]; [reflexivity | | ..].
  1: destruct d.
  all: cbn [NilZero.string_of_uint NilEmpty.string_of_uint read_magnitude
            digits_value read_digits];
    eval_digits; try reflexivity; apply read_digits_uint.
Qed.

Example parseInt_hex : parseInt "0x1A" = Some 26.
Proof. reflexivity. Qed.

Example parseInt_prefix : parseInt "  -42px" = Some (-42).
Proof. reflexivity. Qed.

Example parseInt_NaN : parseInt "abc" = None /\ parseInt "" = None.
Proof. split; reflexivity. Qed.

Example toString_negative : Number_toString (-1205) = "-1205"%string.
Proof. reflexivity. Qed.

(** [parseInt(String(z)) = z]. *)
Lemma parseInt_toString (z : Z) : parseInt (Number_toString z) = Some z.
Proof.
  rewrite <- (DecimalZ.of_to z) at 2.
  unfold Number_toString.
  destruct (Z.to_int z) as [d|d]; cbn [NilZero.string_of_int Z.of_int].
  - unfold parseInt.
    assert (H : skip_spaces (NilZero.string_of_uint d) = NilZero.string_of_uint d)
      by (destruct d; reflexivity).
    rewrite H.
    destruct d;
      match goal with
      | |- context [NilZero.string_of_uint ?u] => exact (read_magnitude_uint u)
      end.
  - unfold parseInt. cbn [skip_spaces].
    change (is_space "-") with false. cbv iota.
    now rewrite read_magnitude_uint.
Qed.

Lemma parseInt_String_of_time (t : option Z) : parseInt (String_of_time t) = t.
Proof. destruct t as [z|]; [apply parseInt_toString | reflexivity]. Qed.

Lemma truthy_String_of_time (t : option Z) : truthy (String_of_time t) = true.
Proof.
  destruct t as [z|]; [|reflexivity]. unfold String_of_time, Number_toString.
  destruct (Z.to_int z) as [d|d]; cbn; [destruct d; reflexivity | reflexivity].
Qed.

Lemma eqb_String_of_bool (b : bool) : String.eqb (String_of_bool b) "true" = b.
Proof. now destruct b. Qed.

End NumberTextFacts.

(** * The deposit operation *)

(** C6: a deposit whose amount is not a number or is not positive is refused
    ([deposit] returns [false], [handleDeposit] shows its alert) and the whole
    world, in-memory state and store alike, is left as it was. *)
Theorem deposit_rejects_invalid (amount : jsnum) (e : env) :
  invalid_amount amount ->
  (forall w : Dashboard.World, Dashboard.deposit amount e w = (w, false)) /\
  (forall w : Simulator.World,
      Simulator.handleDeposit amount e w
      = (w, Some "Please enter a valid BTC amount"%string)).
Proof.
  intros Hbad. unfold Dashboard.deposit, Simulator.handleDeposit.
  destruct amount as [|r]; cbn in Hbad; [now split|].
  destruct (Rle_dec r 0); [now split | lra].
Qed.

Lemma deposit_rejects_invalid_witness :
  invalid_amount (Num (-1)) /\
  Dashboard.deposit (Num (-1)) (steady 0 0) (Dashboard.fresh 0)
  = (Dashboard.fresh 0, false).
Proof.
  assert (H : invalid_amount (Num (-1))) by (cbn; lra).
  split; [exact H|].
  exact (proj1 (deposit_rejects_invalid (Num (-1)) (steady 0 0) H) (Dashboard.fresh 0)).
Defined.

(** C2: a valid deposit [d > 0].  When [initialDeposit] is 0 it sets
    [initialDeposit = balance = d] and replaces the history by the single
    snapshot of the current instant; otherwise it adds [d] to the balance and
    keeps [initialDeposit] and the history.  Either way the bot is active
    afterwards and [lastUpdate] is the current instant.  Hence two valid
    deposits [d], [d2] from the empty state leave [initialDeposit = d] and
    [balance = d + d2].  Both scripts. *)
Theorem deposit_effect (d : R) (e : env) :
  0 < d ->
  (forall w : Dashboard.World,
      let p := Dashboard.portfolio (Dashboard.this w) in
      let a' := Dashboard.this (fst (Dashboard.deposit (Num d) e w)) in
      let p' := Dashboard.portfolio a' in
      (Dashboard.initialBtc p = 0 ->
       Dashboard.initialBtc p' = d /\ Dashboard.btcBalance p' = d /\
       Dashboard.history p' = [{| time := clock e 0; value := d |}]) /\
      (Dashboard.initialBtc p <> 0 ->
       Dashboard.btcBalance p' = Dashboard.btcBalance p + d /\
       Dashboard.initialBtc p' = Dashboard.initialBtc p /\
       Dashboard.history p' = Dashboard.history p) /\
      Dashboard.active (Dashboard.bot a') = true /\
      Dashboard.lastUpdate (Dashboard.bot a') = clock e 1) /\
  (forall w : Simulator.World,
      let p := Simulator.portfolio (Simulator.this w) in
      let a' := Simulator.this (fst (Simulator.handleDeposit (Num d) e w)) in
      let p' := Simulator.portfolio a' in
      (Simulator.initial p = 0 ->
       Simulator.initial p' = d /\ Simulator.current p' = d /\
       Simulator.history p' = [{| time := clock e 0; value := d |}]) /\
      (Simulator.initial p <> 0 ->
       Simulator.current p' = Simulator.current p + d /\
       Simulator.initial p' = Simulator.initial p /\
       Simulator.history p' = Simulator.history p) /\
      Simulator.botActive a' = true /\
      Simulator.lastUpdate a' = Some (clock e 1)) /\
  (forall (d2 : R) (e2 : env) (t0 : Z),
      0 < d2 ->
      let p' := Dashboard.portfolio (Dashboard.this
                  (Dashboard.run [Dashboard.Deposit (Num d) e;
                                  Dashboard.Deposit (Num d2) e2]
                                 (Dashboard.fresh t0))) in
      Dashboard.initialBtc p' = d /\ Dashboard.btcBalance p' = d + d2) /\
  (forall (d2 : R) (e2 : env) (t0 : Z),
      0 < d2 ->
      let p' := Simulator.portfolio (Simulator.this
                  (Simulator.run [Simulator.Deposit (Num d) e;
                                  Simulator.Deposit (Num d2) e2]
                                 (Simulator.fresh t0))) in
      Simulator.initial p' = d /\ Simulator.current p' = d + d2).
Proof.
  intros Hd. repeat apply conj.
  - intros w p a' p'. subst p' a' p.
    destruct (DashboardFacts.deposit_this d e w Hd)
      as (_ & _ & Hbot & Hini & Hbal & Hhis & _).
    rewrite Hbot, Hini, Hbal, Hhis.
    destruct (Req_dec_T (Dashboard.initialBtc (Dashboard.portfolio (Dashboard.this w))) 0);
      repeat split; auto; intros; tauto.
  - intros w p a' p'. subst p' a' p.
    destruct (SimulatorFacts.handleDeposit_this d e w Hd)
      as (_ & Hact & Hlast & Hini & Hbal & Hhis & _).
    rewrite Hact, Hlast, Hini, Hbal, Hhis.
    destruct (Req_dec_T (Simulator.initial (Simulator.portfolio (Simulator.this w))) 0);
      repeat split; auto; intros; tauto.
  - intros d2 e2 t0 Hd2 p'. subst p'. unfold Dashboard.run; cbn [fold_left Dashboard.step].
    set (w1 := fst (Dashboard.deposit (Num d) e (Dashboard.fresh t0))).
    destruct (DashboardFacts.deposit_this d e (Dashboard.fresh t0) Hd)
      as (_ & _ & _ & Hini & Hbal & _).
    fold w1 in Hini, Hbal. cbn in Hini, Hbal.
    destruct (Req_dec_T 0 0) as [_|Hne]; [|now elim Hne].
    destruct (DashboardFacts.deposit_this d2 e2 w1 Hd2)
      as (_ & _ & _ & Hini2 & Hbal2 & _).
    rewrite Hini2, Hbal2, Hini, Hbal.
    destruct (Req_dec_T d 0); [lra|auto].
  - intros d2 e2 t0 Hd2 p'. subst p'. unfold Simulator.run; cbn [fold_left Simulator.step].
    set (w1 := fst (Simulator.handleDeposit (Num d) e (Simulator.fresh t0))).
    destruct (SimulatorFacts.handleDeposit_this d e (Simulator.fresh t0) Hd)
      as (_ & _ & _ & Hini & Hbal & _).
    fold w1 in Hini, Hbal. cbn in Hini, Hbal.
    destruct (Req_dec_T 0 0) as [_|Hne]; [|now elim Hne].
    destruct (SimulatorFacts.handleDeposit_this d2 e2 w1 Hd2)
      as (_ & _ & _ & Hini2 & Hbal2 & _).
    rewrite Hini2, Hbal2, Hini, Hbal.
    destruct (Req_dec_T d 0); [lra|auto].
Qed.

Lemma deposit_effect_witness :
  0 < 1 /\
  Dashboard.btcBalance (Dashboard.portfolio (Dashboard.this
     (Dashboard.run [Dashboard.Deposit (Num 1) (steady 10 0);
                     Dashboard.Deposit (Num 2) (steady 20 0)]
                    (Dashboard.fresh 0)))) = 1 + 2.
Proof.
  assert (H1 : 0 < 1) by lra.
  assert (H2 : 0 < 2) by lra.
  split; [exact H1|].
  exact (proj2 (proj1 (proj2 (proj2 (deposit_effect 1 (steady 10 0) H1)))
                  2 (steady 20 0) 0%Z H2)).
Defined.

(** * The periodic tick *)

(** C3: a tick changes nothing at all (in-memory state, store and console
    alike: no balance change, no history entry, [lastUpdate] kept) when the
    bot is not active, or the balance is 0, or the computed growth does not
    exceed the threshold of 1e-8; a second tick with the same readings then
    gives the same world again.  Both scripts. *)
Theorem tick_noop :
  (forall (e : env) (w : Dashboard.World),
      Dashboard.active (Dashboard.bot (Dashboard.this w)) = false \/
      Dashboard.btcBalance (Dashboard.portfolio (Dashboard.this w)) = 0 \/
      Dashboard.growth (Dashboard.this w) (clock e 0) <= Dashboard.SATOSHI_THRESHOLD ->
      Dashboard.updatePortfolio e w = w /\
      Dashboard.updatePortfolio e (Dashboard.updatePortfolio e w)
      = Dashboard.updatePortfolio e w) /\
  (forall (e : env) (w : Simulator.World),
      Simulator.botActive (Simulator.this w) = false \/
      Simulator.current (Simulator.portfolio (Simulator.this w)) = 0 \/
      jsgt (Simulator.growth (Simulator.this w) (clock e 0)) 0.00000001 = false ->
      Simulator.tick e w = w /\
      Simulator.tick e (Simulator.tick e w) = Simulator.tick e w).
Proof.
  split; intros e w H.
  - assert (Hidle : Dashboard.updatePortfolio e w = w).
    { apply DashboardFacts.updatePortfolio_idle. intros (Hact & Hbal & Hgrow).
      destruct H as [H | [H | H]]; [congruence | lra | lra]. }
    now rewrite !Hidle.
  - assert (Hidle : Simulator.tick e w = w).
    { apply SimulatorFacts.tick_idle. intros (Hact & Hbal & Hgrow).
      destruct H as [H | [H | H]]; [congruence | lra | congruence]. }
    now rewrite !Hidle.
Qed.

Lemma funded_growth_zero :
  Dashboard.growth (Dashboard.this (Dashboard.funded 1 0)) 0 = 0.
Proof.
  unfold Dashboard.growth, Dashboard.monthsElapsed, Math_pow. cbn.
  replace (0 / (1000 * 60 * 60 * 24 * Dashboard.DAYS_PER_MONTH)) with 0
    by (unfold Rdiv; lra).
  rewrite Rpower_O by lra. lra.
Qed.

Lemma tick_noop_witness :
  Dashboard.growth (Dashboard.this (Dashboard.funded 1 0)) (clock (steady 0 0) 0)
  <= Dashboard.SATOSHI_THRESHOLD /\
  Dashboard.updatePortfolio (steady 0 0) (Dashboard.funded 1 0) = Dashboard.funded 1 0.
Proof.
  assert (H : Dashboard.growth (Dashboard.this (Dashboard.funded 1 0))
                (clock (steady 0 0) 0) <= Dashboard.SATOSHI_THRESHOLD).
  { cbn [clock steady]. rewrite funded_growth_zero.
    unfold Dashboard.SATOSHI_THRESHOLD. lra. }
  split; [exact H|].
  exact (proj1 (proj1 tick_noop (steady 0 0) (Dashboard.funded 1 0)
                  (or_intror (or_intror H)))).
Defined.

(** A negative elapsed time, at a return rate that is not negative, makes
    the growth of a positive balance non-positive. *)
Lemma backwards_growth_nonpos (a : Dashboard.AnomCAT) (now : Z) :
  0 <= Dashboard.monthlyReturn (Dashboard.bot a) ->
  (now < Dashboard.lastUpdate (Dashboard.bot a))%Z ->
  0 < Dashboard.btcBalance (Dashboard.portfolio a) ->
  Dashboard.growth a now <= 0.
Proof.
  intros Hr Hnow Hbal. unfold Dashboard.growth, Math_pow.
  assert (Hm : Dashboard.monthsElapsed (Dashboard.bot a) now <= 0).
  { unfold Dashboard.monthsElapsed, Dashboard.DAYS_PER_MONTH.
    apply IZR_lt in Hnow. rewrite minus_IZR.
    apply Rmult_le_reg_r with (1000 * 60 * 60 * 24 * 30.436875); [lra|].
    unfold Rdiv. rewrite Rmult_assoc, Rinv_l by lra. lra. }
  assert (Hp : Rpower (1 + Dashboard.monthlyReturn (Dashboard.bot a))
                      (Dashboard.monthsElapsed (Dashboard.bot a) now) <= 1).
  { rewrite <- (Rpower_O (1 + Dashboard.monthlyReturn (Dashboard.bot a))) at 2 by lra.
    apply Rle_Rpower; lra. }
  nra.
Qed.

Lemma sim_backwards_growth_nonpos (a : Simulator.AnomCAT) (now last : Z) :
  Simulator.lastUpdate a = Some last ->
  (now < last)%Z ->
  0 < Simulator.current (Simulator.portfolio a) ->
  exists g, Simulator.growth a now = Num g /\ g <= 0.
Proof.
  intros Hlast Hnow Hbal.
  unfold Simulator.growth, Simulator.monthsElapsed. rewrite Hlast. cbn.
  eexists; split; [reflexivity|]. unfold Math_pow, Simulator.monthlyReturn.
  assert (Hm : (IZR now - IZR last) / (1000 * 60 * 60 * 24 * 30) <= 0).
  { apply IZR_lt in Hnow.
    apply Rmult_le_reg_r with (1000 * 60 * 60 * 24 * 30); [lra|].
    unfold Rdiv. rewrite Rmult_assoc, Rinv_l by lra. lra. }
  assert (Hp : Rpower (1 + 0.013) ((IZR now - IZR last) / (1000 * 60 * 60 * 24 * 30)) <= 1).
  { rewrite <- (Rpower_O (1 + 0.013)) at 2 by lra.
    apply Rle_Rpower; lra. }
  nra.
Qed.

(** One tick never lowers the balance. *)
Lemma updatePortfolio_balance (e : env) (w : Dashboard.World) :
  Dashboard.balance w <= Dashboard.balance (Dashboard.updatePortfolio e w).
Proof.
  destruct (DashboardFacts.applies_dec e w) as [Happ|Hidle].
  - destruct (DashboardFacts.updatePortfolio_this e w Happ) as (_ & _ & _ & Hbal & _).
    unfold Dashboard.balance. rewrite Hbal.
    destruct Happ as (_ & _ & Hg). unfold Dashboard.SATOSHI_THRESHOLD in Hg. lra.
  - rewrite DashboardFacts.updatePortfolio_idle by assumption. lra.
Qed.

Lemma tick_balance (e : env) (w : Simulator.World) :
  Simulator.balance w <= Simulator.balance (Simulator.tick e w).
Proof.
  destruct (SimulatorFacts.sim_applies_dec e w) as [Happ|Hidle].
  - destruct (SimulatorFacts.tick_this e w Happ) as (_ & _ & _ & Hbal & _).
    unfold Simulator.balance. rewrite Hbal.
    destruct (SimulatorFacts.applies_growth e w Happ) as [_ Hg]. lra.
  - rewrite SimulatorFacts.tick_idle by assumption. lra.
Qed.

(** C10: one tick never lowers the balance, whatever the state and whatever
    the clock reads, a clock that stepped back included: an elapsed time
    below zero makes the growth of a positive balance at most 0, which is not
    above the threshold, and the tick changes nothing.  Both scripts; the
    return rate is the scripts' non-negative one. *)
Theorem tick_never_lowers_balance :
  (forall (e : env) (w : Dashboard.World),
      Dashboard.balance w <= Dashboard.balance (Dashboard.updatePortfolio e w)) /\
  (forall (e : env) (w : Simulator.World),
      Simulator.balance w <= Simulator.balance (Simulator.tick e w)) /\
  (forall (e : env) (w : Dashboard.World),
      0 <= Dashboard.monthlyReturn (Dashboard.bot (Dashboard.this w)) ->
      (clock e 0 < Dashboard.lastUpdate (Dashboard.bot (Dashboard.this w)))%Z ->
      (0 < Dashboard.balance w ->
       Dashboard.growth (Dashboard.this w) (clock e 0) <= 0) /\
      Dashboard.updatePortfolio e w = w) /\
  (forall (e : env) (w : Simulator.World) (last : Z),
      Simulator.lastUpdate (Simulator.this w) = Some last ->
      (clock e 0 < last)%Z ->
      (0 < Simulator.balance w ->
       exists g, Simulator.growth (Simulator.this w) (clock e 0) = Num g /\ g <= 0) /\
      Simulator.tick e w = w).
Proof.
  split; [exact updatePortfolio_balance|].
  split; [exact tick_balance|].
  split.
  - intros e w Hr Hnow. split.
    + intros Hbal. now apply backwards_growth_nonpos.
    + apply DashboardFacts.updatePortfolio_idle. intros (_ & Hbal & Hg).
      pose proof (backwards_growth_nonpos _ _ Hr Hnow Hbal) as Hle.
      unfold Dashboard.SATOSHI_THRESHOLD in Hg. lra.
  - intros e w last Hlast Hnow. split.
    + intros Hbal. now apply sim_backwards_growth_nonpos with last.
    + apply SimulatorFacts.tick_idle. intros Happ.
      destruct (SimulatorFacts.applies_growth e w Happ) as [Hg Hgt].
      destruct Happ as (_ & Hbal & _).
      destruct (sim_backwards_growth_nonpos _ _ _ Hlast Hnow Hbal) as (g & Hg' & Hle).
      rewrite Hg in Hg'. inversion Hg'. lra.
Qed.

Lemma tick_never_lowers_balance_witness :
  0 <= Dashboard.monthlyReturn (Dashboard.bot (Dashboard.this (Dashboard.funded 1 1000))) /\
  (clock (steady 0 0) 0 < 1000)%Z /\
  Dashboard.updatePortfolio (steady 0 0) (Dashboard.funded 1 1000)
  = Dashboard.funded 1 1000.
Proof.
  assert (Hr : 0 <= Dashboard.monthlyReturn
                      (Dashboard.bot (Dashboard.this (Dashboard.funded 1 1000))))
    by (cbn; lra).
  assert (Hc : (clock (steady 0 0) 0 < 1000)%Z) by (cbn; lia).
  split; [exact Hr|]. split; [exact Hc|].
  exact (proj2 (proj1 (proj2 (proj2 tick_never_lowers_balance))
                  (steady 0 0) (Dashboard.funded 1 1000) Hr Hc)).
Defined.

(** * Runs of operations *)

Lemma run_app (ops1 ops2 : list Dashboard.op) (w : Dashboard.World) :
  Dashboard.run (ops1 ++ ops2) w = Dashboard.run ops2 (Dashboard.run ops1 w).
Proof. apply fold_left_app. Qed.

Lemma sim_run_app (ops1 ops2 : list Simulator.op) (w : Simulator.World) :
  Simulator.run (ops1 ++ ops2) w = Simulator.run ops2 (Simulator.run ops1 w).
Proof. apply fold_left_app. Qed.

(** A step from a state with no balance before a first deposit keeps that
    property and does not lower the balance. *)
Lemma step_opened (w : Dashboard.World) (o : Dashboard.op) :
  Dashboard.opened w ->
  Dashboard.opened (Dashboard.step w o) /\
  Dashboard.balance w <= Dashboard.balance (Dashboard.step w o).
Proof.
  intros Hop. unfold Dashboard.opened, Dashboard.balance in *.
  destruct o as [[|d] e | e]; cbn [Dashboard.step].
  - cbn. split; [assumption | lra].
  - destruct (Rle_dec d 0) as [Hle|Hgt].
    + unfold Dashboard.deposit.
      destruct (Rle_dec d 0); [|lra]. cbn. split; [assumption | lra].
    + assert (Hd : 0 < d) by lra.
      destruct (DashboardFacts.deposit_this d e w Hd) as (_ & _ & _ & Hini & Hbal & _).
      rewrite Hini, Hbal.
      destruct (Req_dec_T (Dashboard.initialBtc (Dashboard.portfolio (Dashboard.this w))) 0)
        as [Hz|Hnz]; split; intros; try tauto; try specialize (Hop Hz); lra.
  - destruct (DashboardFacts.applies_dec e w) as [Happ|Hidle].
    + destruct (DashboardFacts.updatePortfolio_this e w Happ)
        as (_ & _ & Hini & Hbal & _).
      rewrite Hini, Hbal. destruct Happ as (_ & Hpos & Hg).
      unfold Dashboard.SATOSHI_THRESHOLD in Hg. split; intros; [|lra].
      specialize (Hop H). lra.
    + rewrite DashboardFacts.updatePortfolio_idle by assumption.
      split; [assumption | lra].
Qed.

Lemma sim_step_opened (w : Simulator.World) (o : Simulator.op) :
  Simulator.opened w ->
  Simulator.opened (Simulator.step w o) /\
  Simulator.balance w <= Simulator.balance (Simulator.step w o).
Proof.
  intros Hop. unfold Simulator.opened, Simulator.balance in *.
  destruct o as [[|d] e | e]; cbn [Simulator.step].
  - cbn. split; [assumption | lra].
  - destruct (Rle_dec d 0) as [Hle|Hgt].
    + unfold Simulator.handleDeposit.
      destruct (Rle_dec d 0); [|lra]. cbn. split; [assumption | lra].
    + assert (Hd : 0 < d) by lra.
      destruct (SimulatorFacts.handleDeposit_this d e w Hd)
        as (_ & _ & _ & Hini & Hbal & _).
      rewrite Hini, Hbal.
      destruct (Req_dec_T (Simulator.initial (Simulator.portfolio (Simulator.this w))) 0)
        as [Hz|Hnz]; split; intros; try tauto; try specialize (Hop Hz); lra.
  - destruct (SimulatorFacts.sim_applies_dec e w) as [Happ|Hidle].
    + destruct (SimulatorFacts.tick_this e w Happ) as (_ & _ & Hini & Hbal & _).
      rewrite Hini, Hbal.
      destruct (SimulatorFacts.applies_growth e w Happ) as [_ Hg].
      destruct Happ as (_ & Hpos & _). split; intros; [|lra].
      specialize (Hop H). lra.
    + rewrite SimulatorFacts.tick_idle by assumption.
      split; [assumption | lra].
Qed.

Lemma run_opened (ops : list Dashboard.op) (w : Dashboard.World) :
  Dashboard.opened w ->
  Dashboard.opened (Dashboard.run ops w) /\
  Dashboard.balance w <= Dashboard.balance (Dashboard.run ops w).
Proof.
  revert w. induction ops as [|o ops IH]; intros w Hop; cbn.
  - split; [assumption | lra].
  - destruct (step_opened w o Hop) as [Hop' Hle].
    destruct (IH _ Hop') as [Hop'' Hle']. fold (Dashboard.run ops (Dashboard.step w o)).
    split; [assumption | lra].
Qed.

Lemma sim_run_opened (ops : list Simulator.op) (w : Simulator.World) :
  Simulator.opened w ->
  Simulator.opened (Simulator.run ops w) /\
  Simulator.balance w <= Simulator.balance (Simulator.run ops w).
Proof.
  revert w. induction ops as [|o ops IH]; intros w Hop; cbn.
  - split; [assumption | lra].
  - destruct (sim_step_opened w o Hop) as [Hop' Hle].
    destruct (IH _ Hop') as [Hop'' Hle']. fold (Simulator.run ops (Simulator.step w o)).
    split; [assumption | lra].
Qed.

Lemma ticks_balance (es : list env) (w : Dashboard.World) :
  Dashboard.balance w
  <= Dashboard.balance (Dashboard.run (map Dashboard.Tick es) w).
Proof.
  revert w. induction es as [|e es IH]; intros w; cbn; [lra|].
  pose proof (updatePortfolio_balance e w) as H1.
  pose proof (IH (Dashboard.updatePortfolio e w)) as H2.
  unfold Dashboard.run in H2. lra.
Qed.

Lemma sim_ticks_balance (es : list env) (w : Simulator.World) :
  Simulator.balance w
  <= Simulator.balance (Simulator.run (map Simulator.Tick es) w).
Proof.
  revert w. induction es as [|e es IH]; intros w; cbn; [lra|].
  pose proof (tick_balance e w) as H1.
  pose proof (IH (Simulator.tick e w)) as H2.
  unfold Simulator.run in H2. lra.
Qed.

(** C4: along any sequence of ticks whose clock readings do not decrease,
    the balance does not decrease from one tick to a later one; and along any
    sequence of engine operations (deposits and ticks, with the trades they
    record) from a state with no balance before a first deposit, the empty
    state for one, it does not decrease either.  Recording a trade, whatever
    its label, leaves the balance alone.  Both scripts. *)
Theorem balance_monotone :
  (forall (es1 es2 : list env) (w : Dashboard.World),
      Sorted Z.le (map (fun e => clock e 0) (es1 ++ es2)) ->
      Dashboard.balance (Dashboard.run (map Dashboard.Tick es1) w)
      <= Dashboard.balance (Dashboard.run (map Dashboard.Tick (es1 ++ es2)) w)) /\
  (forall (es1 es2 : list env) (w : Simulator.World),
      Sorted Z.le (map (fun e => clock e 0) (es1 ++ es2)) ->
      Simulator.balance (Simulator.run (map Simulator.Tick es1) w)
      <= Simulator.balance (Simulator.run (map Simulator.Tick (es1 ++ es2)) w)) /\
  (forall (ops1 ops2 : list Dashboard.op) (w : Dashboard.World),
      Dashboard.opened w ->
      Dashboard.balance (Dashboard.run ops1 w)
      <= Dashboard.balance (Dashboard.run (ops1 ++ ops2) w)) /\
  (forall (ops1 ops2 : list Simulator.op) (w : Simulator.World),
      Simulator.opened w ->
      Simulator.balance (Simulator.run ops1 w)
      <= Simulator.balance (Simulator.run (ops1 ++ ops2) w)) /\
  (forall t0, Dashboard.opened (Dashboard.fresh t0)) /\
  (forall t0, Simulator.opened (Simulator.fresh t0)) /\
  (forall type amount t_id t_time r (w : Dashboard.World),
      Dashboard.balance (Dashboard.addTransaction type amount t_id t_time r w)
      = Dashboard.balance w) /\
  (forall type amount now r (w : Simulator.World),
      Simulator.balance (Simulator.simulateTrade type amount now r w)
      = Simulator.balance w).
Proof.
  repeat apply conj.
  - intros es1 es2 w _. rewrite map_app, run_app. apply ticks_balance.
  - intros es1 es2 w _. rewrite map_app, sim_run_app. apply sim_ticks_balance.
  - intros ops1 ops2 w Hop. rewrite run_app.
    apply run_opened. now apply run_opened.
  - intros ops1 ops2 w Hop. rewrite sim_run_app.
    apply sim_run_opened. now apply sim_run_opened.
  - intros t0 _. cbn. lra.
  - intros t0 _. cbn. lra.
  - intros. unfold Dashboard.balance.
    now rewrite DashboardFacts.addTransaction_this.
  - intros. unfold Simulator.balance.
    now rewrite SimulatorFacts.simulateTrade_this.
Qed.

Lemma balance_monotone_witness :
  Sorted Z.le (map (fun e => clock e 0) ([steady 1 0] ++ [steady 2 0])) /\
  Dashboard.balance
    (Dashboard.run (map Dashboard.Tick [steady 1 0]) (Dashboard.funded 1 0))
  <= Dashboard.balance
       (Dashboard.run (map Dashboard.Tick ([steady 1 0] ++ [steady 2 0]))
                      (Dashboard.funded 1 0)).
Proof.
  assert (Hs : Sorted Z.le (map (fun e => clock e 0) ([steady 1 0] ++ [steady 2 0]))).
  { cbn. repeat constructor. lia. }
  split; [exact Hs|].
  exact (proj1 balance_monotone [steady 1 0] [steady 2 0] (Dashboard.funded 1 0) Hs).
Defined.

(** * The bounded logs *)

Section Logs.
Context {A : Type}.
Variable bound : nat.
Hypothesis bound_pos : (0 < bound)%nat.

(** [push] then one [shift] when over the bound. *)
Lemma push_shift_fifo (old : list A) (x : A) :
  (List.length old <= bound)%nat ->
  (let l := push old x in if (bound <? List.length l)%nat then shift l else l)
  = fifo_end bound old x.
Proof.
  intros Hlen. unfold push, shift, fifo_end. cbv zeta.
  rewrite length_app. cbn [List.length].
  destruct (List.length old <? bound)%nat eqn:Hlt.
  - apply Nat.ltb_lt in Hlt.
    destruct (bound <? List.length old + 1)%nat eqn:Hb; [|reflexivity].
    apply Nat.ltb_lt in Hb. lia.
  - apply Nat.ltb_ge in Hlt.
    destruct (bound <? List.length old + 1)%nat eqn:Hb.
    + destruct old as [|a old]; [cbn in Hlt; lia | reflexivity].
    + apply Nat.ltb_ge in Hb. lia.
Qed.

(** [unshift] then [slice(0, bound)] when over the bound. *)
Lemma unshift_slice_fifo (old : list A) (x : A) :
  (List.length old <= bound)%nat ->
  (let l := unshift old x in if (bound <? List.length l)%nat then slice0 bound l else l)
  = fifo_front bound old x.
Proof.
  intros Hlen. unfold unshift, slice0, fifo_front. cbv zeta.
  cbn [List.length].
  destruct (List.length old <? bound)%nat eqn:Hlt.
  - apply Nat.ltb_lt in Hlt.
    destruct (bound <? S (List.length old))%nat eqn:Hb; [|reflexivity].
    apply Nat.ltb_lt in Hb. lia.
  - apply Nat.ltb_ge in Hlt.
    destruct (bound <? S (List.length old))%nat eqn:Hb.
    + destruct bound as [|n]; [lia|]. cbn [firstn]. f_equal.
      rewrite removelast_firstn_len. f_equal. lia.
    + apply Nat.ltb_ge in Hb. lia.
Qed.

Lemma fifo_end_length (old : list A) (x : A) :
  (List.length old <= bound)%nat ->
  (List.length (fifo_end bound old x) <= bound)%nat.
Proof.
  intros Hlen. unfold fifo_end.
  destruct (List.length old <? bound)%nat eqn:Hlt; rewrite length_app; cbn.
  - apply Nat.ltb_lt in Hlt. lia.
  - destruct old; cbn in *; lia.
Qed.

Lemma fifo_front_length (old : list A) (x : A) :
  (List.length old <= bound)%nat ->
  (List.length (fifo_front bound old x) <= bound)%nat.
Proof.
  intros Hlen. unfold fifo_front.
  destruct (List.length old <? bound)%nat eqn:Hlt; cbn [List.length].
  - apply Nat.ltb_lt in Hlt. lia.
  - apply Nat.ltb_ge in Hlt. rewrite removelast_firstn_len, length_firstn. lia.
Qed.

End Logs.

Lemma step_bounded (w : Dashboard.World) (o : Dashboard.op) :
  Dashboard.bounded w -> Dashboard.bounded (Dashboard.step w o).
Proof.
  intros [Hh Ht]. unfold Dashboard.bounded.
  destruct o as [[|d] e | e]; cbn [Dashboard.step].
  - cbn. auto.
  - destruct (Rle_dec d 0) as [Hle|Hgt].
    + unfold Dashboard.deposit. destruct (Rle_dec d 0); [|lra]. cbn. auto.
    + assert (Hd : 0 < d) by lra.
      destruct (DashboardFacts.deposit_this d e w Hd)
        as (_ & _ & _ & _ & _ & Hhis & Htr).
      rewrite Hhis, Htr, unshift_slice_fifo by (lia || assumption).
      split; [|apply fifo_front_length; lia || assumption].
      destruct (Req_dec_T _ 0); cbn; lia.
  - destruct (DashboardFacts.applies_dec e w) as [Happ|Hidle].
    + destruct (DashboardFacts.updatePortfolio_this e w Happ)
        as (_ & _ & _ & _ & _ & Hhis & Htr).
      rewrite Hhis, Htr, push_shift_fifo by (lia || assumption).
      split; [apply fifo_end_length; lia || assumption|].
      destruct (Rgt_dec (random e 0) 0.7); [|assumption].
      rewrite unshift_slice_fifo by (lia || assumption).
      apply fifo_front_length; lia || assumption.
    + rewrite DashboardFacts.updatePortfolio_idle by assumption. auto.
Qed.

Lemma sim_step_bounded (w : Simulator.World) (o : Simulator.op) :
  Simulator.bounded w -> Simulator.bounded (Simulator.step w o).
Proof.
  intros [Hh Ht]. unfold Simulator.bounded.
  destruct o as [[|d] e | e]; cbn [Simulator.step].
  - cbn. auto.
  - destruct (Rle_dec d 0) as [Hle|Hgt].
    + unfold Simulator.handleDeposit. destruct (Rle_dec d 0); [|lra]. cbn. auto.
    + assert (Hd : 0 < d) by lra.
      destruct (SimulatorFacts.handleDeposit_this d e w Hd)
        as (_ & _ & _ & _ & _ & Hhis & Htr).
      rewrite Hhis, Htr, push_shift_fifo by (lia || assumption).
      split; [|apply fifo_end_length; lia || assumption].
      destruct (Req_dec_T _ 0); cbn; lia.
  - destruct (SimulatorFacts.sim_applies_dec e w) as [Happ|Hidle].
    + destruct (SimulatorFacts.tick_this e w Happ)
        as (_ & _ & _ & _ & Hhis & Htr).
      rewrite Hhis, Htr, push_shift_fifo by (lia || assumption).
      split; [apply fifo_end_length; lia || assumption|].
      destruct (Rgt_dec (random e 0) 0.7); [|assumption].
      rewrite push_shift_fifo by (lia || assumption).
      apply fifo_end_length; lia || assumption.
    + rewrite SimulatorFacts.tick_idle by assumption. auto.
Qed.

Lemma run_bounded (ops : list Dashboard.op) (w : Dashboard.World) :
  Dashboard.bounded w -> Dashboard.bounded (Dashboard.run ops w).
Proof.
  revert w. induction ops as [|o ops IH]; intros w Hb; cbn; [assumption|].
  apply IH. now apply step_bounded.
Qed.

Lemma sim_run_bounded (ops : list Simulator.op) (w : Simulator.World) :
  Simulator.bounded w -> Simulator.bounded (Simulator.run ops w).
Proof.
  revert w. induction ops as [|o ops IH]; intros w Hb; cbn; [assumption|].
  apply IH. now apply sim_step_bounded.
Qed.

(** C5: after any sequence of deposits and ticks from the empty state (from
    any state within the bounds, in fact) the history holds at most 100
    entries and the trade log at most 100 (v1.01 script) or 50 (single-page
    script) entries; and each addition to a log within its bound evicts
    nothing while there is room and exactly the oldest entry when the log is
    full: the first entry of a log that grows at its end (history, and the
    trades of the single-page script), the last entry of the v1.01 trade log,
    which grows at its front. *)
Theorem logs_bounded_fifo :
  (forall t0, Dashboard.bounded (Dashboard.fresh t0)) /\
  (forall t0, Simulator.bounded (Simulator.fresh t0)) /\
  (forall (ops : list Dashboard.op) (w : Dashboard.World),
      Dashboard.bounded w -> Dashboard.bounded (Dashboard.run ops w)) /\
  (forall (ops : list Simulator.op) (w : Simulator.World),
      Simulator.bounded w -> Simulator.bounded (Simulator.run ops w)) /\
  (forall (e : env) (w : Dashboard.World),
      Dashboard.bounded w -> Dashboard.applies e w ->
      let p := Dashboard.portfolio (Dashboard.this w) in
      let p' := Dashboard.portfolio (Dashboard.this (Dashboard.updatePortfolio e w)) in
      Dashboard.history p'
      = fifo_end 100 (Dashboard.history p)
          {| time := clock e 0; value := Dashboard.btcBalance p' |} /\
      (random e 0 > 0.7 ->
       exists t, Dashboard.tx_type t = "trade"%string /\
                 Dashboard.trades p' = fifo_front 100 (Dashboard.trades p) t)) /\
  (forall (d : R) (e : env) (w : Dashboard.World),
      Dashboard.bounded w -> 0 < d ->
      let p := Dashboard.portfolio (Dashboard.this w) in
      let p' := Dashboard.portfolio (Dashboard.this (fst (Dashboard.deposit (Num d) e w))) in
      exists t, Dashboard.tx_type t = "deposit"%string /\
                Dashboard.trades p' = fifo_front 100 (Dashboard.trades p) t) /\
  (forall (e : env) (w : Simulator.World),
      Simulator.bounded w -> Simulator.applies e w ->
      let p := Simulator.portfolio (Simulator.this w) in
      let p' := Simulator.portfolio (Simulator.this (Simulator.tick e w)) in
      Simulator.history p'
      = fifo_end 100 (Simulator.history p)
          {| time := clock e 0; value := Simulator.current p' |} /\
      (random e 0 > 0.7 ->
       exists t, Simulator.trades p' = fifo_end 50 (Simulator.trades p) t)) /\
  (forall (d : R) (e : env) (w : Simulator.World),
      Simulator.bounded w -> 0 < d ->
      let p := Simulator.portfolio (Simulator.this w) in
      let p' := Simulator.portfolio (Simulator.this (fst (Simulator.handleDeposit (Num d) e w))) in
      exists t, Simulator.trades p' = fifo_end 50 (Simulator.trades p) t).
Proof.
  repeat apply conj.
  - intros t0. split; cbn; lia.
  - intros t0. split; cbn; lia.
  - exact run_bounded.
  - exact sim_run_bounded.
  - intros e w [Hh Ht] Happ p p'. subst p p'.
    destruct (DashboardFacts.updatePortfolio_this e w Happ)
      as (_ & _ & _ & Hbal & _ & Hhis & Htr).
    rewrite Hhis, Htr, Hbal, push_shift_fifo by (lia || assumption).
    split; [reflexivity|]. intros Hgate.
    destruct (Rgt_dec (random e 0) 0.7); [|lra].
    rewrite unshift_slice_fifo by (lia || assumption).
    eexists; split; [|reflexivity]. reflexivity.
  - intros d e w [Hh Ht] Hd p p'. subst p p'.
    destruct (DashboardFacts.deposit_this d e w Hd)
      as (_ & _ & _ & _ & _ & _ & Htr).
    rewrite Htr, unshift_slice_fifo by (lia || assumption).
    eexists; split; [|reflexivity]. reflexivity.
  - intros e w [Hh Ht] Happ p p'. subst p p'.
    destruct (SimulatorFacts.tick_this e w Happ)
      as (_ & _ & _ & Hbal & Hhis & Htr).
    rewrite Hhis, Htr, Hbal, push_shift_fifo by (lia || assumption).
    split; [reflexivity|]. intros Hgate.
    destruct (Rgt_dec (random e 0) 0.7); [|lra].
    rewrite push_shift_fifo by (lia || assumption).
    eexists; reflexivity.
  - intros d e w [Hh Ht] Hd p p'. subst p p'.
    destruct (SimulatorFacts.handleDeposit_this d e w Hd)
      as (_ & _ & _ & _ & _ & _ & Htr).
    rewrite Htr, push_shift_fifo by (lia || assumption).
    eexists; reflexivity.
Qed.

Lemma logs_bounded_fifo_witness :
  Dashboard.bounded (Dashboard.fresh 0) /\
  Dashboard.bounded
    (Dashboard.run [Dashboard.Deposit (Num 1) (steady 0 0);
                    Dashboard.Tick (steady 2592000000 1)]
                   (Dashboard.fresh 0)).
Proof.
  assert (H : Dashboard.bounded (Dashboard.fresh 0)) by (split; cbn; lia).
  split; [exact H|].
  exact (proj1 (proj2 (proj2 logs_bounded_fifo))
           [Dashboard.Deposit (Num 1) (steady 0 0);
            Dashboard.Tick (steady 2592000000 1)]
           (Dashboard.fresh 0) H).
Defined.

(** * Loading and saving *)

Module StorageFacts.

Lemma load_store (w : Dashboard.World) :
  Dashboard.localStorage (Dashboard.loadFromStorage w) = Dashboard.localStorage w.
Proof.
  destruct w as [[c p b] [av sp sb sc] con].
  destruct av, sp as [[| |p']|], sb as [[| |b']|], sc as [[|ch cs]|]; reflexivity.
Qed.

Lemma load_unavailable (w : Dashboard.World) :
  Dashboard.available (Dashboard.localStorage w) = false ->
  Dashboard.loadFromStorage w
  = Dashboard.console_error "Failed to load from localStorage:" w.
Proof.
  destruct w as [[c p b] [av sp sb sc] con]. cbn. intros ->. reflexivity.
Qed.

Lemma load_parseable (w : Dashboard.World) :
  Dashboard.available (Dashboard.localStorage w) = true ->
  Dashboard.parseable (Dashboard.localStorage w) ->
  Dashboard.loadFromStorage w = Dashboard.load_per_key w.
Proof.
  destruct w as [[c p b] [av sp sb sc] con]. cbn. intros -> [Hp Hb].
  destruct sp as [[| |p']|], sb as [[| |b']|], sc as [[|ch cs]|];
    try reflexivity; cbn in Hp, Hb; congruence.
Qed.

Lemma load_portfolio_malformed (w : Dashboard.World) :
  Dashboard.available (Dashboard.localStorage w) = true ->
  Dashboard.anomcat_portfolio (Dashboard.localStorage w) = Some Malformed ->
  Dashboard.loadFromStorage w
  = Dashboard.console_error "Failed to load from localStorage:" w.
Proof.
  destruct w as [[c p b] [av sp sb sc] con]. cbn. intros -> ->. reflexivity.
Qed.

Lemma load_bot_malformed (w : Dashboard.World) :
  Dashboard.available (Dashboard.localStorage w) = true ->
  Dashboard.anomcat_portfolio (Dashboard.localStorage w) <> Some Malformed ->
  Dashboard.anomcat_bot (Dashboard.localStorage w) = Some Malformed ->
  Dashboard.this (Dashboard.loadFromStorage w)
  = Dashboard.set_portfolio
      (Dashboard.portfolio (Dashboard.this (Dashboard.load_per_key w)))
      (Dashboard.this w).
Proof.
  destruct w as [[c p b] [av sp sb sc] con]. cbn. intros -> Hp ->.
  destruct sp as [[| |p']|]; try reflexivity; congruence.
Qed.

Lemma sim_load_store (w : Simulator.World) :
  Simulator.localStorage (Simulator.loadFromStorage w) = Simulator.localStorage w.
Proof.
  destruct w as [[p b t] [av sp sb st] con].
  destruct av, sp as [[| |p']|], sb as [v|], st as [[|ch cs]|]; reflexivity.
Qed.

Lemma sim_load_unavailable (w : Simulator.World) :
  Simulator.available (Simulator.localStorage w) = false ->
  Simulator.loadFromStorage w
  = Simulator.console_error "Failed to load from localStorage:" w.
Proof.
  destruct w as [[p b t] [av sp sb st] con]. cbn. intros ->. reflexivity.
Qed.

Lemma sim_load_parseable (w : Simulator.World) :
  Simulator.available (Simulator.localStorage w) = true ->
  Simulator.parseable (Simulator.localStorage w) ->
  Simulator.loadFromStorage w
  = Simulator.set_this
      (fun a =>
         {| Simulator.portfolio :=
              match Simulator.anomcat_portfolio (Simulator.localStorage w) with
              | Some (Doc p) => p
              | _ => Simulator.portfolio a
              end;
            Simulator.botActive :=
              match Simulator.anomcat_bot_active (Simulator.localStorage w) with
              | Some v => String.eqb v "true"
              | None => Simulator.botActive a
              end;
            Simulator.lastUpdate :=
              match Simulator.anomcat_last_update (Simulator.localStorage w) with
              | Some v => if truthy v then NumberText.parseInt v
                          else Simulator.lastUpdate a
              | None => Simulator.lastUpdate a
              end |}) w.
Proof.
  destruct w as [[p b t] [av sp sb st] con]. cbn. intros -> Hp.
  destruct sp as [[| |p']|], sb as [v|], st as [[|ch cs]|];
    try reflexivity; unfold Simulator.parseable in Hp; cbn in Hp; congruence.
Qed.

Lemma sim_load_sound (w : Simulator.World) :
  Simulator.available (Simulator.localStorage w) = true ->
  Simulator.parseable (Simulator.localStorage w) ->
  Simulator.plain_texts_sound (Simulator.localStorage w) ->
  Simulator.loadFromStorage w = Simulator.load_per_key w.
Proof.
  intros Hav Hp [Hb Ht]. rewrite (sim_load_parseable w Hav Hp).
  unfold Simulator.load_per_key, Simulator.set_this. rewrite Hav.
  destruct w as [[p b t] [av sp sb st] con]. cbn in *.
  f_equal. f_equal.
  - destruct sb as [v|]; [|reflexivity].
    destruct Hb as [-> | ->]; reflexivity.
  - destruct st as [v|]; [|reflexivity].
    destruct Ht as [-> | Ht]; [reflexivity|].
    destruct v as [|ch cs]; [now cbn in Ht|]. cbn [truthy].
    destruct (NumberText.parseInt (String ch cs)); [reflexivity | congruence].
Qed.

Lemma sim_load_portfolio_malformed (w : Simulator.World) :
  Simulator.available (Simulator.localStorage w) = true ->
  Simulator.anomcat_portfolio (Simulator.localStorage w) = Some Malformed ->
  Simulator.loadFromStorage w
  = Simulator.console_error "Failed to load from localStorage:" w.
Proof.
  destruct w as [[p b t] [av sp sb st] con]. cbn. intros -> ->. reflexivity.
Qed.

(** The engine's operations leave the store usable and the currency alone. *)
Lemma addTransaction_store type amount t_id t_time r (w : Dashboard.World) :
  Dashboard.available (Dashboard.localStorage
    (Dashboard.addTransaction type amount t_id t_time r w))
  = Dashboard.available (Dashboard.localStorage w).
Proof.
  unfold Dashboard.addTransaction.
  now rewrite DashboardFacts.saveToStorage_available.
Qed.

Lemma step_store (w : Dashboard.World) (o : Dashboard.op) :
  Dashboard.available (Dashboard.localStorage (Dashboard.step w o))
  = Dashboard.available (Dashboard.localStorage w) /\
  Dashboard.currency (Dashboard.this (Dashboard.step w o))
  = Dashboard.currency (Dashboard.this w).
Proof.
  destruct o as [[|d] e | e]; cbn [Dashboard.step].
  - now split.
  - unfold Dashboard.deposit.
    destruct (Rle_dec d 0); [now split|]. cbn [fst].
    rewrite DashboardFacts.saveToStorage_available, addTransaction_store,
      DashboardFacts.saveToStorage_this, DashboardFacts.addTransaction_this.
    now split.
  - unfold Dashboard.updatePortfolio.
    destruct (negb _ || _); [now split|].
    destruct (Rgt_dec _ Dashboard.SATOSHI_THRESHOLD); [|now split].
    rewrite DashboardFacts.saveToStorage_available, DashboardFacts.saveToStorage_this.
    destruct (Rgt_dec (random e 0) 0.7);
      [rewrite addTransaction_store, DashboardFacts.addTransaction_this|];
      now split.
Qed.

Lemma run_store (ops : list Dashboard.op) (w : Dashboard.World) :
  Dashboard.available (Dashboard.localStorage (Dashboard.run ops w))
  = Dashboard.available (Dashboard.localStorage w) /\
  Dashboard.currency (Dashboard.this (Dashboard.run ops w))
  = Dashboard.currency (Dashboard.this w).
Proof.
  revert w. induction ops as [|o ops IH]; intros w; cbn; [now split|].
  fold (Dashboard.run ops (Dashboard.step w o)).
  destruct (IH (Dashboard.step w o)) as [H1 H2].
  destruct (step_store w o) as [H3 H4]. split; congruence.
Qed.

Lemma sim_saveToStorage_available (w : Simulator.World) :
  Simulator.available (Simulator.localStorage (Simulator.saveToStorage w))
  = Simulator.available (Simulator.localStorage w).
Proof.
  rewrite SimulatorFacts.sim_saveToStorage_eq.
  now destruct (Simulator.available (Simulator.localStorage w)) eqn:Hav; cbn.
Qed.

Lemma simulateTrade_store type amount now r (w : Simulator.World) :
  Simulator.available (Simulator.localStorage
    (Simulator.simulateTrade type amount now r w))
  = Simulator.available (Simulator.localStorage w).
Proof.
  unfold Simulator.simulateTrade. now rewrite sim_saveToStorage_available.
Qed.

Lemma sim_step_store (w : Simulator.World) (o : Simulator.op) :
  plain_op o ->
  Simulator.available (Simulator.localStorage (Simulator.step w o))
  = Simulator.available (Simulator.localStorage w) /\
  (NumberText.plain_decimal (Simulator.lastUpdate (Simulator.this w)) ->
   NumberText.plain_decimal (Simulator.lastUpdate (Simulator.this (Simulator.step w o)))).
Proof.
  intros Hplain. destruct o as [[|d] e | e]; cbn [Simulator.step plain_op] in *.
  - now split.
  - destruct (Rle_dec d 0) as [Hle|Hgt].
    + unfold Simulator.handleDeposit. destruct (Rle_dec d 0); [now split | lra].
    + assert (Hd : 0 < d) by lra.
      destruct (SimulatorFacts.handleDeposit_this d e w Hd) as (_ & _ & Hlast & _).
      rewrite Hlast. split; [|intros _; apply Hplain].
      unfold Simulator.handleDeposit. destruct (Rle_dec d 0); [lra|]. cbn [fst].
      now rewrite simulateTrade_store, sim_saveToStorage_available.
  - destruct (SimulatorFacts.sim_applies_dec e w) as [Happ|Hidle].
    + destruct (SimulatorFacts.tick_this e w Happ) as (_ & Hlast & _).
      rewrite Hlast. split; [|intros _; apply Hplain].
      destruct (SimulatorFacts.applies_growth e w Happ) as [Hg Hgt].
      destruct Happ as (Hact & Hbal & _).
      unfold Simulator.tick. rewrite Hact; cbn [andb].
      destruct (Rgt_dec (Simulator.current (Simulator.portfolio (Simulator.this w))) 0);
        [|lra].
      rewrite Hg.
      destruct (Rgt_dec (Simulator.growth_value (Simulator.this w) (clock e 0))
                        0.00000001); [|tauto].
      destruct (Rgt_dec (random e 0) 0.7);
        [rewrite simulateTrade_store|]; now rewrite sim_saveToStorage_available.
    + rewrite SimulatorFacts.tick_idle by assumption. now split.
Qed.

Lemma sim_run_store (ops : list Simulator.op) (w : Simulator.World) :
  Forall plain_op ops ->
  Simulator.available (Simulator.localStorage (Simulator.run ops w))
  = Simulator.available (Simulator.localStorage w) /\
  (NumberText.plain_decimal (Simulator.lastUpdate (Simulator.this w)) ->
   NumberText.plain_decimal (Simulator.lastUpdate (Simulator.this (Simulator.run ops w)))).
Proof.
  revert w. induction ops as [|o ops IH]; intros w Hall; cbn; [now split|].
  fold (Simulator.run ops (Simulator.step w o)).
  inversion Hall as [|? ? Ho Hops]; subst.
  destruct (IH (Simulator.step w o) Hops) as [H1 H2].
  destruct (sim_step_store w o Ho) as [H3 H4]. split; [congruence | auto].
Qed.

End StorageFacts.

(** C7, as the scripts have it: loading never changes the store and always
    returns (a failure ends in the [catch], which logs it).  When the store
    cannot be read nothing is loaded.  A missing key keeps the in-memory
    value of that key alone, and so does an empty text, but for the flag of
    the single-page script.  A corrupt text is not handled key by key.  A
    malformed JSON text ends the load where it stands: under the portfolio
    key, the first one read, nothing at all is loaded; under the bot key of
    the v1.01 script the portfolio is loaded and the bot and the currency
    keep their in-memory values.  In the single-page script every flag text
    other than ['true'], the empty one included, is read as [false], and a
    time text that is not empty is read with [parseInt], which gives [NaN]
    when it is not a number; neither touches the other keys.  Where the two
    plain texts are such as the script writes them, its load is the load key
    by key of the specification. *)
Theorem load_tolerance :
  (forall w : Dashboard.World,
      Dashboard.localStorage (Dashboard.loadFromStorage w) = Dashboard.localStorage w) /\
  (forall w : Dashboard.World,
      Dashboard.available (Dashboard.localStorage w) = false ->
      Dashboard.this (Dashboard.loadFromStorage w) = Dashboard.this w) /\
  (forall w : Dashboard.World,
      Dashboard.available (Dashboard.localStorage w) = true ->
      Dashboard.parseable (Dashboard.localStorage w) ->
      Dashboard.loadFromStorage w = Dashboard.load_per_key w) /\
  (forall w : Dashboard.World,
      Dashboard.available (Dashboard.localStorage w) = true ->
      Dashboard.anomcat_portfolio (Dashboard.localStorage w) = Some Malformed ->
      Dashboard.this (Dashboard.loadFromStorage w) = Dashboard.this w) /\
  (forall w : Dashboard.World,
      Dashboard.available (Dashboard.localStorage w) = true ->
      Dashboard.anomcat_portfolio (Dashboard.localStorage w) <> Some Malformed ->
      Dashboard.anomcat_bot (Dashboard.localStorage w) = Some Malformed ->
      Dashboard.this (Dashboard.loadFromStorage w)
      = Dashboard.set_portfolio
          (Dashboard.portfolio (Dashboard.this (Dashboard.load_per_key w)))
          (Dashboard.this w)) /\
  (forall w : Simulator.World,
      Simulator.localStorage (Simulator.loadFromStorage w) = Simulator.localStorage w) /\
  (forall w : Simulator.World,
      Simulator.available (Simulator.localStorage w) = false ->
      Simulator.this (Simulator.loadFromStorage w) = Simulator.this w) /\
  (forall w : Simulator.World,
      Simulator.available (Simulator.localStorage w) = true ->
      Simulator.anomcat_portfolio (Simulator.localStorage w) = Some Malformed ->
      Simulator.this (Simulator.loadFromStorage w) = Simulator.this w) /\
  (forall w : Simulator.World,
      Simulator.available (Simulator.localStorage w) = true ->
      Simulator.parseable (Simulator.localStorage w) ->
      let s := Simulator.localStorage w in
      let a := Simulator.this (Simulator.loadFromStorage w) in
      Simulator.portfolio a
      = match Simulator.anomcat_portfolio s with
        | Some (Doc p) => p
        | _ => Simulator.portfolio (Simulator.this w)
        end /\
      Simulator.botActive a
      = match Simulator.anomcat_bot_active s with
        | Some v => String.eqb v "true"
        | None => Simulator.botActive (Simulator.this w)
        end /\
      Simulator.lastUpdate a
      = match Simulator.anomcat_last_update s with
        | Some EmptyString => Simulator.lastUpdate (Simulator.this w)
        | Some v => NumberText.parseInt v
        | None => Simulator.lastUpdate (Simulator.this w)
        end) /\
  (forall w : Simulator.World,
      Simulator.available (Simulator.localStorage w) = true ->
      Simulator.parseable (Simulator.localStorage w) ->
      Simulator.plain_texts_sound (Simulator.localStorage w) ->
      Simulator.loadFromStorage w = Simulator.load_per_key w).
Proof.
  split; [exact StorageFacts.load_store|].
  split; [intros w H; now rewrite StorageFacts.load_unavailable|].
  split; [exact StorageFacts.load_parseable|].
  split; [intros w Hav H; now rewrite StorageFacts.load_portfolio_malformed|].
  split; [exact StorageFacts.load_bot_malformed|].
  split; [exact StorageFacts.sim_load_store|].
  split; [intros w H; now rewrite StorageFacts.sim_load_unavailable|].
  split; [intros w Hav H; now rewrite StorageFacts.sim_load_portfolio_malformed|].
  split; [|exact StorageFacts.sim_load_sound].
  intros w Hav Hp s a. subst s a.
  rewrite (StorageFacts.sim_load_parseable w Hav Hp).
  cbn [Simulator.set_this Simulator.this Simulator.portfolio Simulator.botActive
       Simulator.lastUpdate].
  split; [reflexivity|]. split; [reflexivity|].
  destruct (Simulator.anomcat_last_update (Simulator.localStorage w)) as [[|ch cs]|];
    reflexivity.
Qed.

Lemma load_tolerance_witness :
  Simulator.available (Simulator.localStorage Simulator.garbled) = true /\
  Simulator.parseable (Simulator.localStorage Simulator.garbled) /\
  Simulator.botActive (Simulator.this (Simulator.loadFromStorage Simulator.garbled))
  = false /\
  Simulator.lastUpdate (Simulator.this (Simulator.loadFromStorage Simulator.garbled))
  = None.
Proof.
  assert (Hp : Simulator.parseable (Simulator.localStorage Simulator.garbled))
    by (unfold Simulator.parseable; cbn; discriminate).
  split; [reflexivity|]. split; [exact Hp|].
  exact (proj2 (proj1 (proj2 (proj2 (proj2 (proj2 (proj2 (proj2 (proj2 (proj2
           load_tolerance))))))))
           Simulator.garbled eq_refl Hp)).
Defined.

(** The bot and currency texts of [Dashboard.damaged] are sound, and a load
    key by key would take them; the script's load takes neither, because the
    portfolio text before them is malformed.  Likewise for the two plain
    texts of [Simulator.damaged].  In [Simulator.garbled] the flag is empty
    and the time is not a number: a load key by key would keep the active
    bot and its time 7, the script's load makes the bot inactive and the
    time [NaN]. *)
Lemma load_not_per_key :
  Dashboard.bot (Dashboard.this (Dashboard.load_per_key Dashboard.damaged))
  = Dashboard.stored_bot /\
  Dashboard.currency (Dashboard.this (Dashboard.load_per_key Dashboard.damaged))
  = "EUR"%string /\
  Dashboard.this (Dashboard.loadFromStorage Dashboard.damaged) = Dashboard.initial 0 /\
  Dashboard.this (Dashboard.loadFromStorage Dashboard.damaged)
  <> Dashboard.this (Dashboard.load_per_key Dashboard.damaged) /\
  Simulator.this (Simulator.loadFromStorage Simulator.damaged) = Simulator.initial_app 0 /\
  Simulator.this (Simulator.loadFromStorage Simulator.damaged)
  <> Simulator.this (Simulator.load_per_key Simulator.damaged) /\
  Simulator.this (Simulator.load_per_key Simulator.garbled)
  = Simulator.this Simulator.garbled /\
  Simulator.botActive (Simulator.this (Simulator.loadFromStorage Simulator.garbled))
  = false /\
  Simulator.lastUpdate (Simulator.this (Simulator.loadFromStorage Simulator.garbled))
  = None.
Proof.
  split; [reflexivity|]. split; [reflexivity|]. split; [reflexivity|].
  split; [intros H; apply (f_equal Dashboard.currency) in H; cbn in H; discriminate|].
  split; [reflexivity|].
  split; [intros H; apply (f_equal Simulator.botActive) in H; cbn in H; discriminate|].
  split; [reflexivity|]. split; reflexivity.
Qed.

(** * Storage over all numbers *)

Module WideFacts.
Import JSNumber.

Lemma JSON_number_fixed (v : jsvalue) : JSON_number v = v <-> storable v.
Proof.
  destruct v as [|[r| | |]]; cbn; split; intros H;
    try reflexivity; try exact I; try discriminate; try contradiction.
Qed.

Lemma map_fixed {A : Type} (f : A -> A) (P : A -> Prop) (l : list A) :
  (forall x, f x = x <-> P x) -> map f l = l <-> Forall P l.
Proof.
  intros Hf. induction l as [|x l IH]; cbn.
  - split; [constructor | reflexivity].
  - split.
    + intros [= Hx Hl]. constructor; [now apply Hf | now apply IH].
    + intros H. apply Forall_cons_iff in H as [Hx Hl].
      f_equal; [now apply Hf | now apply IH].
Qed.

Lemma sim_JSON_point_fixed (pt : WideSimulator.Point) :
  WideSimulator.JSON_point pt = pt <-> storable (WideSimulator.value pt).
Proof.
  destruct pt as [t v]. unfold WideSimulator.JSON_point. cbn.
  rewrite <- JSON_number_fixed. split; [intros [= H]; exact H | intros ->; reflexivity].
Qed.

Lemma sim_JSON_trade_fixed (t : WideSimulator.Trade) :
  WideSimulator.JSON_trade t = t <-> storable (WideSimulator.t_amount t).
Proof.
  destruct t as [tt ty a pr]. unfold WideSimulator.JSON_trade. cbn.
  rewrite <- JSON_number_fixed. split; [intros [= H]; exact H | intros ->; reflexivity].
Qed.

Lemma sim_JSON_portfolio_fixed (p : WideSimulator.Portfolio) :
  WideSimulator.JSON_portfolio p = p <-> WideSimulator.storable_portfolio p.
Proof.
  destruct p as [i c h ts].
  unfold WideSimulator.JSON_portfolio, WideSimulator.storable_portfolio. cbn.
  rewrite <- !JSON_number_fixed.
  rewrite <- (map_fixed _ _ h sim_JSON_point_fixed).
  rewrite <- (map_fixed _ _ ts sim_JSON_trade_fixed).
  split.
  - intros [= Hi Hc Hh Ht]. now repeat split.
  - intros (Hi & Hc & Hh & Ht). now rewrite Hi, Hc, Hh, Ht.
Qed.

Lemma JSON_point_fixed (pt : WideDashboard.Point) :
  WideDashboard.JSON_point pt = pt <-> storable (WideDashboard.value pt).
Proof.
  destruct pt as [t v]. unfold WideDashboard.JSON_point. cbn.
  rewrite <- JSON_number_fixed. split; [intros [= H]; exact H | intros ->; reflexivity].
Qed.

Lemma JSON_transaction_fixed (t : WideDashboard.Transaction) :
  WideDashboard.JSON_transaction t = t <-> storable (WideDashboard.tx_amount t).
Proof.
  destruct t as [i tt ty a pr]. unfold WideDashboard.JSON_transaction. cbn.
  rewrite <- JSON_number_fixed. split; [intros [= H]; exact H | intros ->; reflexivity].
Qed.

Lemma JSON_portfolio_fixed (p : WideDashboard.Portfolio) :
  WideDashboard.JSON_portfolio p = p <-> WideDashboard.storable_portfolio p.
Proof.
  destruct p as [b e i h ts].
  unfold WideDashboard.JSON_portfolio, WideDashboard.storable_portfolio. cbn.
  rewrite <- !JSON_number_fixed.
  rewrite <- (map_fixed _ _ h JSON_point_fixed).
  rewrite <- (map_fixed _ _ ts JSON_transaction_fixed).
  split.
  - intros [= Hb He Hi Hh Ht]. now repeat split.
  - intros (Hb & He & Hi & Hh & Ht). now rewrite Hb, He, Hi, Hh, Ht.
Qed.

Lemma JSON_bot_fixed (b : WideDashboard.Bot) :
  WideDashboard.JSON_bot b = b <-> WideDashboard.storable_bot b.
Proof.
  destruct b as [a m t]. unfold WideDashboard.JSON_bot, WideDashboard.storable_bot.
  cbn. rewrite <- JSON_number_fixed.
  split; [intros [= H]; exact H | intros ->; reflexivity].
Qed.

Lemma wide_saveToStorage_eq (w : WideDashboard.World) :
  WideDashboard.saveToStorage w =
  if WideDashboard.available (WideDashboard.localStorage w)
  then WideDashboard.set_storage
         (fun s =>
            WideDashboard.write_currency (WideDashboard.currency (WideDashboard.this w))
              (WideDashboard.write_bot
                 (Doc (WideDashboard.JSON_bot (WideDashboard.bot (WideDashboard.this w))))
                 (WideDashboard.write_portfolio
                    (Doc (WideDashboard.JSON_portfolio
                            (WideDashboard.portfolio (WideDashboard.this w)))) s))) w
  else WideDashboard.console_error "Failed to save to localStorage:" w.
Proof.
  unfold WideDashboard.saveToStorage, try_catch, bind, WideDashboard.setItem.
  destruct (WideDashboard.available (WideDashboard.localStorage w)) eqn:Hav;
    unfold WideDashboard.set_storage, WideDashboard.write_currency,
      WideDashboard.write_bot, WideDashboard.write_portfolio; cbn;
    rewrite ?Hav; cbn; reflexivity.
Qed.

Lemma wide_sim_saveToStorage_eq (w : WideSimulator.World) :
  WideSimulator.saveToStorage w =
  if WideSimulator.available (WideSimulator.localStorage w)
  then WideSimulator.set_storage
         (fun s =>
            WideSimulator.write_last_update
              (NumberText.String_of_time (WideSimulator.lastUpdate (WideSimulator.this w)))
              (WideSimulator.write_bot_active
                 (NumberText.String_of_bool (WideSimulator.botActive (WideSimulator.this w)))
                 (WideSimulator.write_portfolio
                    (Doc (WideSimulator.JSON_portfolio
                            (WideSimulator.portfolio (WideSimulator.this w)))) s))) w
  else WideSimulator.console_error "Failed to save to localStorage:" w.
Proof.
  unfold WideSimulator.saveToStorage, try_catch, bind, WideSimulator.setItem,
    WideSimulator.JSON_stringify.
  destruct (WideSimulator.available (WideSimulator.localStorage w)) eqn:Hav;
    unfold WideSimulator.set_storage, WideSimulator.write_last_update,
      WideSimulator.write_bot_active, WideSimulator.write_portfolio; cbn;
    rewrite ?Hav; cbn; reflexivity.
Qed.

(** What a load reads after a save, some keys having been removed since. *)
Lemma load_saved (w : WideDashboard.World) (mem : WideDashboard.AnomCAT)
  (con : list string) (no_p no_b no_c : bool) :
  WideDashboard.available (WideDashboard.localStorage w) = true ->
  WideDashboard.currency (WideDashboard.this w) <> ""%string ->
  WideDashboard.this
    (WideDashboard.loadFromStorage
       {| WideDashboard.this := mem;
          WideDashboard.localStorage :=
            WideDashboard.removeItems no_p no_b no_c
              (WideDashboard.localStorage (WideDashboard.saveToStorage w));
          WideDashboard.console := con |})
  = {| WideDashboard.currency :=
         if no_c then WideDashboard.currency mem
         else WideDashboard.currency (WideDashboard.this w);
       WideDashboard.portfolio :=
         if no_p then WideDashboard.portfolio mem
         else WideDashboard.JSON_portfolio (WideDashboard.portfolio (WideDashboard.this w));
       WideDashboard.bot :=
         if no_b then WideDashboard.bot mem
         else WideDashboard.JSON_bot (WideDashboard.bot (WideDashboard.this w)) |}.
Proof.
  intros Hav Hcur. rewrite wide_saveToStorage_eq, Hav.
  destruct w as [[c p b] [av sp sb sc] con']. cbn in Hav, Hcur. subst av.
  destruct mem as [mc mp mb].
  destruct c as [|ch cs]; [congruence|].
  destruct no_p, no_b, no_c; reflexivity.
Qed.

Lemma sim_load_saved (w : WideSimulator.World) (mem : WideSimulator.AnomCAT)
  (con : list string) (no_p no_b no_t : bool) :
  WideSimulator.available (WideSimulator.localStorage w) = true ->
  WideSimulator.this
    (WideSimulator.loadFromStorage
       {| WideSimulator.this := mem;
          WideSimulator.localStorage :=
            WideSimulator.removeItems no_p no_b no_t
              (WideSimulator.localStorage (WideSimulator.saveToStorage w));
          WideSimulator.console := con |})
  = {| WideSimulator.portfolio :=
         if no_p then WideSimulator.portfolio mem
         else WideSimulator.JSON_portfolio (WideSimulator.portfolio (WideSimulator.this w));
       WideSimulator.botActive :=
         if no_b then WideSimulator.botActive mem
         else WideSimulator.botActive (WideSimulator.this w);
       WideSimulator.lastUpdate :=
         if no_t then WideSimulator.lastUpdate mem
         else WideSimulator.lastUpdate (WideSimulator.this w) |}.
Proof.
  intros Hav. rewrite wide_sim_saveToStorage_eq, Hav.
  destruct w as [[p b t] [av sp sb st] con']. cbn in Hav. subst av.
  destruct mem as [mp mb mt].
  pose proof (NumberTextFacts.truthy_String_of_time t) as Htruthy.
  pose proof (NumberTextFacts.parseInt_String_of_time t) as Hparse.
  pose proof (NumberTextFacts.eqb_String_of_bool b) as Hflag.
  unfold WideSimulator.loadFromStorage, try_catch, bind, WideSimulator.getItem, when,
    modify, ret, JSON_parse.
  destruct no_p, no_b, no_t; cbn;
    rewrite ?Htruthy; cbn; rewrite ?Hparse, ?Hflag; reflexivity.
Qed.

(** A reload after a save. *)
Lemma reload_saved (w : WideDashboard.World) (t1 : Z) :
  WideDashboard.available (WideDashboard.localStorage w) = true ->
  WideDashboard.currency (WideDashboard.this w) <> ""%string ->
  WideDashboard.this (WideDashboard.reload t1 (WideDashboard.saveToStorage w))
  = {| WideDashboard.currency := WideDashboard.currency (WideDashboard.this w);
       WideDashboard.portfolio :=
         WideDashboard.JSON_portfolio (WideDashboard.portfolio (WideDashboard.this w));
       WideDashboard.bot :=
         WideDashboard.JSON_bot (WideDashboard.bot (WideDashboard.this w)) |}.
Proof.
  intros Hav Hcur.
  pose proof (load_saved w (WideDashboard.initial t1) [] false false false Hav Hcur) as H.
  replace (WideDashboard.removeItems false false false
             (WideDashboard.localStorage (WideDashboard.saveToStorage w)))
    with (WideDashboard.localStorage (WideDashboard.saveToStorage w)) in H
    by now destruct (WideDashboard.localStorage (WideDashboard.saveToStorage w)).
  exact H.
Qed.

Lemma sim_reload_saved (w : WideSimulator.World) (t1 : Z) :
  WideSimulator.available (WideSimulator.localStorage w) = true ->
  WideSimulator.this (WideSimulator.reload t1 (WideSimulator.saveToStorage w))
  = {| WideSimulator.portfolio :=
         WideSimulator.JSON_portfolio (WideSimulator.portfolio (WideSimulator.this w));
       WideSimulator.botActive := WideSimulator.botActive (WideSimulator.this w);
       WideSimulator.lastUpdate := WideSimulator.lastUpdate (WideSimulator.this w) |}.
Proof.
  intros Hav.
  pose proof (sim_load_saved w (WideSimulator.initial_app t1) [] false false false Hav)
    as H.
  replace (WideSimulator.removeItems false false false
             (WideSimulator.localStorage (WideSimulator.saveToStorage w)))
    with (WideSimulator.localStorage (WideSimulator.saveToStorage w)) in H
    by now destruct (WideSimulator.localStorage (WideSimulator.saveToStorage w)).
  exact H.
Qed.

(** A first deposit of [Infinity]: the world it leaves is a saved one. *)
Lemma sim_infinite_deposit (e : env) (t0 : Z) :
  exists w0,
    fst (WideSimulator.handleDeposit Infinity e (WideSimulator.fresh t0))
    = WideSimulator.saveToStorage w0 /\
    WideSimulator.available (WideSimulator.localStorage w0) = true /\
    WideSimulator.initial (WideSimulator.portfolio (WideSimulator.this w0))
    = Number Infinity /\
    WideSimulator.current (WideSimulator.portfolio (WideSimulator.this w0))
    = Number Infinity.
Proof.
  unfold WideSimulator.handleDeposit, WideSimulator.simulateTrade.
  cbn [isNaN le orb WideSimulator.fresh WideSimulator.this WideSimulator.initial_app
       WideSimulator.portfolio WideSimulator.initial strictly_zero is_zero fst].
  destruct (Req_dec_T 0 0) as [_|H]; [|now elim H].
  eexists. split; [reflexivity|].
  split; [|split; reflexivity].
  cbn [WideSimulator.set_this WideSimulator.localStorage].
  rewrite wide_sim_saveToStorage_eq. reflexivity.
Qed.

Lemma infinite_deposit (e : env) (t0 : Z) :
  exists w0,
    fst (WideDashboard.deposit Infinity e (WideDashboard.fresh t0))
    = WideDashboard.saveToStorage w0 /\
    WideDashboard.available (WideDashboard.localStorage w0) = true /\
    WideDashboard.currency (WideDashboard.this w0) = "BTC"%string /\
    WideDashboard.initialBtc (WideDashboard.portfolio (WideDashboard.this w0))
    = Number Infinity /\
    WideDashboard.btcBalance (WideDashboard.portfolio (WideDashboard.this w0))
    = Number Infinity.
Proof.
  unfold WideDashboard.deposit.
  cbn [isNaN le orb WideDashboard.fresh WideDashboard.this WideDashboard.initial
       WideDashboard.portfolio WideDashboard.initialBtc strictly_zero is_zero fst].
  destruct (Req_dec_T 0 0) as [_|H]; [|now elim H].
  eexists. split; [reflexivity|].
  split; [|split; [|split]; reflexivity].
  unfold WideDashboard.addTransaction.
  rewrite wide_saveToStorage_eq. reflexivity.
Qed.

Lemma wide_saveToStorage_this (w : WideDashboard.World) :
  WideDashboard.this (WideDashboard.saveToStorage w) = WideDashboard.this w.
Proof.
  rewrite wide_saveToStorage_eq.
  now destruct (WideDashboard.available (WideDashboard.localStorage w)).
Qed.

Lemma wide_sim_saveToStorage_this (w : WideSimulator.World) :
  WideSimulator.this (WideSimulator.saveToStorage w) = WideSimulator.this w.
Proof.
  rewrite wide_sim_saveToStorage_eq.
  now destruct (WideSimulator.available (WideSimulator.localStorage w)).
Qed.

End WideFacts.

(** ** On finite numbers the two embeddings agree *)

Module WideAgreement.
Import JSNumber.

Lemma sim_widened_storable (p : Simulator.Portfolio) :
  WideSimulator.JSON_portfolio (widen_simulator_portfolio p)
  = widen_simulator_portfolio p.
Proof.
  apply WideFacts.sim_JSON_portfolio_fixed.
  destruct p as [i c h ts]. unfold WideSimulator.storable_portfolio. cbn.
  repeat split; apply Forall_forall; intros x Hin;
    apply in_map_iff in Hin as (y & <- & _); exact I.
Qed.

Lemma widened_storable (p : Dashboard.Portfolio) :
  WideDashboard.JSON_portfolio (widen_dashboard_portfolio p)
  = widen_dashboard_portfolio p.
Proof.
  apply WideFacts.JSON_portfolio_fixed.
  destruct p as [b e i h ts]. unfold WideDashboard.storable_portfolio. cbn.
  repeat split; apply Forall_forall; intros x Hin;
    apply in_map_iff in Hin as (y & <- & _); exact I.
Qed.

Lemma sim_widen_save (w : Simulator.World) :
  WideSimulator.saveToStorage (widen_simulator_world w)
  = widen_simulator_world (Simulator.saveToStorage w).
Proof.
  rewrite WideFacts.wide_sim_saveToStorage_eq, SimulatorFacts.sim_saveToStorage_eq.
  destruct w as [[p b t] [av sp sb st] con]. cbn.
  destruct av; cbn; [|reflexivity].
  unfold widen_simulator_world, WideSimulator.set_storage; cbn.
  now rewrite sim_widened_storable.
Qed.

Lemma widen_save (w : Dashboard.World) :
  WideDashboard.saveToStorage (widen_dashboard_world w)
  = widen_dashboard_world (Dashboard.saveToStorage w).
Proof.
  rewrite WideFacts.wide_saveToStorage_eq, DashboardFacts.saveToStorage_eq.
  destruct w as [[c p b] [av sp sb sc] con]. cbn.
  destruct av; cbn; [|reflexivity].
  unfold widen_dashboard_world, WideDashboard.set_storage; cbn.
  now rewrite widened_storable.
Qed.

Lemma sim_widen_load (w : Simulator.World) :
  WideSimulator.loadFromStorage (widen_simulator_world w)
  = widen_simulator_world (Simulator.loadFromStorage w).
Proof.
  destruct w as [[p b t] [av sp sb st] con].
  destruct av, sp as [[| |p']|], sb as [v|], st as [[|ch cs]|]; reflexivity.
Qed.

Lemma widen_load (w : Dashboard.World) :
  WideDashboard.loadFromStorage (widen_dashboard_world w)
  = widen_dashboard_world (Dashboard.loadFromStorage w).
Proof.
  destruct w as [[c p b] [av sp sb sc] con].
  destruct av, sp as [[| |p']|], sb as [[| |b']|], sc as [[|ch cs]|]; reflexivity.
Qed.

Lemma map_fifo_end {A B : Type} (f : A -> B) (n : nat) (l : list A) (x : A) :
  (if (n <? List.length (push (map f l) (f x)))%nat
   then shift (push (map f l) (f x)) else push (map f l) (f x))
  = map f (if (n <? List.length (push l x))%nat then shift (push l x) else push l x).
Proof.
  unfold push, shift. change [f x] with (map f [x]).
  rewrite <- map_app, length_map.
  destruct (n <? List.length (l ++ [x]))%nat; [|reflexivity].
  now destruct (l ++ [x]).
Qed.

Lemma map_fifo_front {A B : Type} (f : A -> B) (n : nat) (l : list A) (x : A) :
  (if (n <? List.length (unshift (map f l) (f x)))%nat
   then slice0 n (unshift (map f l) (f x)) else unshift (map f l) (f x))
  = map f (if (n <? List.length (unshift l x))%nat
           then slice0 n (unshift l x) else unshift l x).
Proof.
  unfold unshift, slice0. change (f x :: map f l) with (map f (x :: l)).
  rewrite length_map.
  destruct (n <? List.length (x :: l))%nat; [|reflexivity].
  apply firstn_map.
Qed.

Lemma sim_widen_set_trades (ts : list Simulator.Trade) (w : Simulator.World) :
  widen_simulator_world
    (Simulator.set_this
       (Simulator.set_portfolio
          (Simulator.set_trades ts (Simulator.portfolio (Simulator.this w)))) w)
  = WideSimulator.set_this
      (WideSimulator.set_portfolio
         (WideSimulator.set_trades (map widen_simulator_trade ts)
            (WideSimulator.portfolio (WideSimulator.this (widen_simulator_world w)))))
      (widen_simulator_world w).
Proof. reflexivity. Qed.

Lemma widen_set_trades (ts : list Dashboard.Transaction) (w : Dashboard.World) :
  widen_dashboard_world
    (Dashboard.set_this
       (Dashboard.set_portfolio
          (Dashboard.set_trades ts (Dashboard.portfolio (Dashboard.this w)))) w)
  = WideDashboard.set_this
      (WideDashboard.set_portfolio
         (WideDashboard.set_trades (map widen_dashboard_transaction ts)
            (WideDashboard.portfolio (WideDashboard.this (widen_dashboard_world w)))))
      (widen_dashboard_world w).
Proof. reflexivity. Qed.

Lemma sim_widen_trade (type : string) (amount : R) (now : Z) (r : R)
  (w : Simulator.World) :
  WideSimulator.simulateTrade type (Finite amount) now r (widen_simulator_world w)
  = widen_simulator_world (Simulator.simulateTrade type amount now r w).
Proof.
  unfold WideSimulator.simulateTrade, Simulator.simulateTrade. cbv zeta.
  rewrite <- sim_widen_save, sim_widen_set_trades. do 4 f_equal.
  exact (map_fifo_end widen_simulator_trade 50
           (Simulator.trades (Simulator.portfolio (Simulator.this w)))
           {| Simulator.t_time := now; Simulator.t_type := type;
              Simulator.t_amount := amount;
              Simulator.t_profit := if Rgt_dec r 0.4 then true else false |}).
Qed.

Lemma widen_transaction (type : string) (amount : R) (t_id t_time : Z) (r : R)
  (w : Dashboard.World) :
  WideDashboard.addTransaction type (Finite amount) t_id t_time r
    (widen_dashboard_world w)
  = widen_dashboard_world (Dashboard.addTransaction type amount t_id t_time r w).
Proof.
  unfold WideDashboard.addTransaction, Dashboard.addTransaction. cbv zeta.
  rewrite <- widen_save, widen_set_trades. do 4 f_equal.
  exact (map_fifo_front widen_dashboard_transaction 100
           (Dashboard.trades (Dashboard.portfolio (Dashboard.this w)))
           {| Dashboard.tx_id := t_id; Dashboard.tx_time := t_time;
              Dashboard.tx_type := type; Dashboard.tx_amount := amount;
              Dashboard.tx_profit :=
                if String.eqb type "trade"
                then Some (if Rgt_dec r 0.4 then true else false)
                else None |}).
Qed.

(** The deposit on a finite amount, or on [NaN], in a state of finite
    numbers: the deposit of the engine module. *)
Lemma sim_widen_deposit (d : R) (e : env) (w : Simulator.World) :
  WideSimulator.handleDeposit (Finite d) e (widen_simulator_world w)
  = (widen_simulator_world (fst (Simulator.handleDeposit (Num d) e w)),
     snd (Simulator.handleDeposit (Num d) e w)).
Proof.
  unfold WideSimulator.handleDeposit, Simulator.handleDeposit.
  cbn [isNaN le orb].
  destruct (Rle_dec d 0); [reflexivity|]. cbn [fst snd].
  f_equal. cbn [mul]. rewrite <- sim_widen_trade. f_equal.
  rewrite <- sim_widen_save. f_equal.
  destruct w as [[[i c h ts] b t] s con].
  unfold widen_simulator_world, widen_simulator, widen_simulator_portfolio; cbn.
  destruct (Req_dec_T i 0); reflexivity.
Qed.

Lemma widen_deposit (d : R) (e : env) (w : Dashboard.World) :
  WideDashboard.deposit (Finite d) e (widen_dashboard_world w)
  = (widen_dashboard_world (fst (Dashboard.deposit (Num d) e w)),
     snd (Dashboard.deposit (Num d) e w)).
Proof.
  unfold WideDashboard.deposit, Dashboard.deposit.
  cbn [isNaN le orb].
  destruct (Rle_dec d 0); [reflexivity|]. cbn [fst snd].
  f_equal. rewrite <- widen_save. f_equal.
  rewrite <- widen_transaction. f_equal.
  destruct w as [[cu [b eu i h ts] bt] s con].
  unfold widen_dashboard_world, widen_dashboard, widen_dashboard_portfolio,
    WideDashboard.btcToEur, Dashboard.btcToEur; cbn.
  destruct (Req_dec_T i 0); reflexivity.
Qed.

Lemma widen_rejected (e : env) :
  (forall w, WideSimulator.handleDeposit NotANumber e w
             = (w, Some "Please enter a valid BTC amount"%string)) /\
  (forall w, WideDashboard.deposit NotANumber e w = (w, false)).
Proof. split; reflexivity. Qed.

End WideAgreement.

(** C8, as the scripts have it.  With a usable store, a load after a save
    reads back, into any memory, the state that was saved with [null] in the
    place of every number that is not finite; keys removed from the store
    since keep the value of the memory loaded into.  So a state is restored
    as it was exactly when none of the numbers it saved is [Infinity],
    [-Infinity] or [NaN]: portfolio, bot and currency in the v1.01 script,
    whose currency is not the empty string; portfolio, [botActive] and
    [lastUpdate] in the single-page script, whose [lastUpdate] prints as a
    plain decimal.  A state all of whose numbers are finite, as the states
    of the engine modules are when read over all numbers, is such a state. *)
Theorem save_load_roundtrip :
  (forall (w : WideDashboard.World) (mem : WideDashboard.AnomCAT) (con : list string)
          (no_p no_b no_c : bool),
      WideDashboard.available (WideDashboard.localStorage w) = true ->
      WideDashboard.currency (WideDashboard.this w) <> ""%string ->
      WideDashboard.this
        (WideDashboard.loadFromStorage
           {| WideDashboard.this := mem;
              WideDashboard.localStorage :=
                WideDashboard.removeItems no_p no_b no_c
                  (WideDashboard.localStorage (WideDashboard.saveToStorage w));
              WideDashboard.console := con |})
      = {| WideDashboard.currency :=
             if no_c then WideDashboard.currency mem
             else WideDashboard.currency (WideDashboard.this w);
           WideDashboard.portfolio :=
             if no_p then WideDashboard.portfolio mem
             else WideDashboard.JSON_portfolio
                    (WideDashboard.portfolio (WideDashboard.this w));
           WideDashboard.bot :=
             if no_b then WideDashboard.bot mem
             else WideDashboard.JSON_bot (WideDashboard.bot (WideDashboard.this w)) |}) /\
  (forall (w : WideDashboard.World) (mem : WideDashboard.AnomCAT) (con : list string),
      WideDashboard.available (WideDashboard.localStorage w) = true ->
      WideDashboard.currency (WideDashboard.this w) <> ""%string ->
      (WideDashboard.this
         (WideDashboard.loadFromStorage
            {| WideDashboard.this := mem;
               WideDashboard.localStorage :=
                 WideDashboard.localStorage (WideDashboard.saveToStorage w);
               WideDashboard.console := con |})
       = WideDashboard.this w
       <-> WideDashboard.storable_portfolio (WideDashboard.portfolio (WideDashboard.this w))
           /\ WideDashboard.storable_bot (WideDashboard.bot (WideDashboard.this w)))) /\
  (forall (w : WideSimulator.World) (mem : WideSimulator.AnomCAT) (con : list string)
          (no_p no_b no_t : bool),
      WideSimulator.available (WideSimulator.localStorage w) = true ->
      NumberText.plain_decimal (WideSimulator.lastUpdate (WideSimulator.this w)) ->
      WideSimulator.this
        (WideSimulator.loadFromStorage
           {| WideSimulator.this := mem;
              WideSimulator.localStorage :=
                WideSimulator.removeItems no_p no_b no_t
                  (WideSimulator.localStorage (WideSimulator.saveToStorage w));
              WideSimulator.console := con |})
      = {| WideSimulator.portfolio :=
             if no_p then WideSimulator.portfolio mem
             else WideSimulator.JSON_portfolio
                    (WideSimulator.portfolio (WideSimulator.this w));
           WideSimulator.botActive :=
             if no_b then WideSimulator.botActive mem
             else WideSimulator.botActive (WideSimulator.this w);
           WideSimulator.lastUpdate :=
             if no_t then WideSimulator.lastUpdate mem
             else WideSimulator.lastUpdate (WideSimulator.this w) |}) /\
  (forall (w : WideSimulator.World) (mem : WideSimulator.AnomCAT) (con : list string),
      WideSimulator.available (WideSimulator.localStorage w) = true ->
      NumberText.plain_decimal (WideSimulator.lastUpdate (WideSimulator.this w)) ->
      (WideSimulator.this
         (WideSimulator.loadFromStorage
            {| WideSimulator.this := mem;
               WideSimulator.localStorage :=
                 WideSimulator.localStorage (WideSimulator.saveToStorage w);
               WideSimulator.console := con |})
       = WideSimulator.this w
       <-> WideSimulator.storable_portfolio
             (WideSimulator.portfolio (WideSimulator.this w)))) /\
  (forall a : Dashboard.AnomCAT,
      WideDashboard.storable_portfolio (WideDashboard.portfolio (widen_dashboard a)) /\
      WideDashboard.storable_bot (WideDashboard.bot (widen_dashboard a))) /\
  (forall a : Simulator.AnomCAT,
      WideSimulator.storable_portfolio (WideSimulator.portfolio (widen_simulator a))).
Proof.
  split; [exact WideFacts.load_saved|]. split.
  { intros w mem con Hav Hcur.
    pose proof (WideFacts.load_saved w mem con false false false Hav Hcur) as H.
    replace (WideDashboard.removeItems false false false
               (WideDashboard.localStorage (WideDashboard.saveToStorage w)))
      with (WideDashboard.localStorage (WideDashboard.saveToStorage w)) in H
      by now destruct (WideDashboard.localStorage (WideDashboard.saveToStorage w)).
    rewrite H. cbv iota.
    rewrite <- WideFacts.JSON_portfolio_fixed, <- WideFacts.JSON_bot_fixed.
    destruct w as [[c p b] s con']. cbn.
    split.
    - intros [= Hp Hb]. now split.
    - intros [Hp Hb]. now rewrite Hp, Hb. }
  split; [intros w mem con no_p no_b no_t Hav _; now apply WideFacts.sim_load_saved|].
  split.
  { intros w mem con Hav _.
    pose proof (WideFacts.sim_load_saved w mem con false false false Hav) as H.
    replace (WideSimulator.removeItems false false false
               (WideSimulator.localStorage (WideSimulator.saveToStorage w)))
      with (WideSimulator.localStorage (WideSimulator.saveToStorage w)) in H
      by now destruct (WideSimulator.localStorage (WideSimulator.saveToStorage w)).
    rewrite H. cbv iota.
    rewrite <- WideFacts.sim_JSON_portfolio_fixed.
    destruct w as [[p b t] s con']. cbn.
    split.
    - intros [= Hp]. exact Hp.
    - intros Hp. now rewrite Hp. }
  split.
  - intros [c [b e i h ts] bt].
    unfold WideDashboard.storable_portfolio, WideDashboard.storable_bot. cbn.
    repeat split; apply Forall_forall; intros x Hin;
      apply in_map_iff in Hin as (y & <- & _); exact I.
  - intros [[i c h ts] b t]. unfold WideSimulator.storable_portfolio. cbn.
    repeat split; apply Forall_forall; intros x Hin;
      apply in_map_iff in Hin as (y & <- & _); exact I.
Qed.

Lemma save_load_roundtrip_witness :
  let w := {| WideDashboard.this := widen_dashboard (Dashboard.this (Dashboard.funded 1 0));
              WideDashboard.localStorage := WideDashboard.empty_storage;
              WideDashboard.console := [] |} in
  WideDashboard.available (WideDashboard.localStorage w) = true /\
  WideDashboard.currency (WideDashboard.this w) <> ""%string /\
  WideDashboard.this (WideDashboard.reload 7 (WideDashboard.saveToStorage w))
  = WideDashboard.this w.
Proof.
  intros w.
  assert (Hc : WideDashboard.currency (WideDashboard.this w) <> ""%string)
    by (cbn; discriminate).
  split; [reflexivity|]. split; [exact Hc|].
  exact (proj2 (proj1 (proj2 save_load_roundtrip) w (WideDashboard.initial 7) []
                  eq_refl Hc)
           (proj1 (proj2 (proj2 (proj2 (proj2 save_load_roundtrip))))
              (Dashboard.this (Dashboard.funded 1 0)))).
Defined.

(** A first deposit of [Infinity] is accepted by both scripts and makes the
    balance [Infinity]; what is saved then is [null], and [null] is what a
    reload finds. *)
Lemma infinite_deposit_reloaded (e : env) (t0 t1 : Z) :
  let w := fst (WideSimulator.handleDeposit Infinity e (WideSimulator.fresh t0)) in
  let v := fst (WideDashboard.deposit Infinity e (WideDashboard.fresh t0)) in
  WideSimulator.current (WideSimulator.portfolio (WideSimulator.this w))
  = Number Infinity /\
  WideSimulator.current
    (WideSimulator.portfolio (WideSimulator.this (WideSimulator.reload t1 w)))
  = Null /\
  WideSimulator.this (WideSimulator.reload t1 w) <> WideSimulator.this w /\
  WideDashboard.btcBalance (WideDashboard.portfolio (WideDashboard.this v))
  = Number Infinity /\
  WideDashboard.btcBalance
    (WideDashboard.portfolio (WideDashboard.this (WideDashboard.reload t1 v)))
  = Null /\
  WideDashboard.this (WideDashboard.reload t1 v) <> WideDashboard.this v.
Proof.
  intros w v. subst w v.
  destruct (WideFacts.sim_infinite_deposit e t0) as (w0 & -> & Hav & _ & Hw).
  destruct (WideFacts.infinite_deposit e t0) as (v0 & -> & Hav' & Hcur & _ & Hv).
  rewrite WideFacts.wide_sim_saveToStorage_this, WideFacts.wide_saveToStorage_this.
  rewrite (WideFacts.sim_reload_saved w0 t1 Hav).
  rewrite (WideFacts.reload_saved v0 t1 Hav') by (rewrite Hcur; discriminate).
  cbn [WideSimulator.portfolio WideSimulator.current WideSimulator.JSON_portfolio
       WideDashboard.portfolio WideDashboard.btcBalance WideDashboard.JSON_portfolio].
  rewrite Hw, Hv. cbn [JSNumber.JSON_number].
  split; [reflexivity|]. split; [reflexivity|]. split.
  { intros H. apply (f_equal (fun a => WideSimulator.current (WideSimulator.portfolio a)))
      in H. cbn in H. rewrite Hw in H. discriminate. }
  split; [reflexivity|]. split; [reflexivity|].
  intros H. apply (f_equal (fun a => WideDashboard.btcBalance (WideDashboard.portfolio a)))
    in H. cbn in H. rewrite Hv in H. discriminate.
Qed.

(** The deposit of [Infinity] on a first visit at instant 0, the clock
    standing at 5, and a reload at instant 9: the state reached is not
    restored, in either script. *)
Lemma infinite_deposit_not_restored :
  let e := steady 5 (1/2) in
  let w := fst (WideSimulator.handleDeposit Infinity e (WideSimulator.fresh 0)) in
  let v := fst (WideDashboard.deposit Infinity e (WideDashboard.fresh 0)) in
  snd (WideSimulator.handleDeposit Infinity e (WideSimulator.fresh 0)) = None /\
  WideSimulator.current (WideSimulator.portfolio (WideSimulator.this w))
  = Number Infinity /\
  WideSimulator.current
    (WideSimulator.portfolio (WideSimulator.this (WideSimulator.reload 9 w)))
  = Null /\
  WideSimulator.this (WideSimulator.reload 9 w) <> WideSimulator.this w /\
  snd (WideDashboard.deposit Infinity e (WideDashboard.fresh 0)) = true /\
  WideDashboard.btcBalance (WideDashboard.portfolio (WideDashboard.this v))
  = Number Infinity /\
  WideDashboard.btcBalance
    (WideDashboard.portfolio (WideDashboard.this (WideDashboard.reload 9 v)))
  = Null /\
  WideDashboard.this (WideDashboard.reload 9 v) <> WideDashboard.this v.
Proof.
  intros e w v.
  destruct (infinite_deposit_reloaded e 0 9) as (H1 & H2 & H3 & H4 & H5 & H6).
  split; [reflexivity|]. split; [exact H1|]. split; [exact H2|]. split; [exact H3|].
  split; [reflexivity|]. split; [exact H4|]. split; [exact H5 | exact H6].
Qed.

(** * The growth formula *)

Lemma step_rate (w : Dashboard.World) (o : Dashboard.op) :
  Dashboard.monthlyReturn (Dashboard.bot (Dashboard.this (Dashboard.step w o)))
  = Dashboard.monthlyReturn (Dashboard.bot (Dashboard.this w)).
Proof.
  destruct o as [[|d] e | e]; cbn [Dashboard.step].
  - reflexivity.
  - destruct (Rle_dec d 0) as [Hle|Hgt].
    + unfold Dashboard.deposit. destruct (Rle_dec d 0); [reflexivity | lra].
    + assert (Hd : 0 < d) by lra.
      destruct (DashboardFacts.deposit_this d e w Hd) as (_ & _ & Hbot & _).
      now rewrite Hbot.
  - destruct (DashboardFacts.applies_dec e w) as [Happ|Hidle].
    + destruct (DashboardFacts.updatePortfolio_this e w Happ) as (_ & Hbot & _).
      now rewrite Hbot.
    + now rewrite DashboardFacts.updatePortfolio_idle.
Qed.

Lemma run_rate (ops : list Dashboard.op) (w : Dashboard.World) :
  Dashboard.monthlyReturn (Dashboard.bot (Dashboard.this (Dashboard.run ops w)))
  = Dashboard.monthlyReturn (Dashboard.bot (Dashboard.this w)).
Proof.
  revert w. induction ops as [|o ops IH]; intros w; cbn; [reflexivity|].
  fold (Dashboard.run ops (Dashboard.step w o)). now rewrite IH, step_rate.
Qed.

Lemma months_spec (b : Dashboard.Bot) (now : Z) :
  Dashboard.monthsElapsed b now = spec_elapsed_months now (Dashboard.lastUpdate b).
Proof.
  unfold Dashboard.monthsElapsed, spec_elapsed_months, Dashboard.DAYS_PER_MONTH.
  f_equal. lra.
Qed.

(** The specification's scenario: a deposit of 1 at instant 0, a tick one
    average month (2629746000 ms) later.  The growth is 0.013, the balance
    1.013 and the history has two entries. *)
Lemma one_month_growth :
  Dashboard.growth (Dashboard.this (Dashboard.funded 1 0)) 2629746000 = 0.013.
Proof.
  unfold Dashboard.growth, Dashboard.monthsElapsed, Math_pow,
    Dashboard.DAYS_PER_MONTH.
  cbn [Dashboard.this Dashboard.funded Dashboard.portfolio Dashboard.bot
       Dashboard.btcBalance Dashboard.monthlyReturn Dashboard.lastUpdate].
  replace (IZR (2629746000 - 0) / (1000 * 60 * 60 * 24 * 30.436875)) with 1.
  - rewrite Rpower_1 by lra. lra.
  - replace (IZR (2629746000 - 0)) with (1000 * 60 * 60 * 24 * 30.436875)
      by (cbn [Z.sub Z.opp Z.add]; lra).
    symmetry. apply Rdiv_diag. lra.
Qed.

Lemma one_month_tick :
  let w := Dashboard.updatePortfolio (steady 2629746000 0) (Dashboard.funded 1 0) in
  Dashboard.balance w = 1.013 /\
  List.length (Dashboard.history (Dashboard.portfolio (Dashboard.this w))) = 2%nat.
Proof.
  assert (Happ : Dashboard.applies (steady 2629746000 0) (Dashboard.funded 1 0)).
  { split; [reflexivity|]. split; [cbn; lra|].
    cbn [clock steady]. rewrite one_month_growth.
    unfold Dashboard.SATOSHI_THRESHOLD. lra. }
  destruct (DashboardFacts.updatePortfolio_this _ _ Happ)
    as (_ & _ & _ & Hbal & _ & Hhis & _).
  cbv zeta. unfold Dashboard.balance. rewrite Hbal, Hhis.
  cbn [clock steady]. rewrite one_month_growth. split; [cbn; lra | reflexivity].
Qed.

(** C1, as the scripts have it.  In the v1.01 script a tick computes the
    elapsed months as [(now - lastUpdate) / (86400000 * 30.436875)], where
    30.436875 is 365.2425/12, and the growth as
    [balance * ((1 + monthlyReturn) ^ elapsedMonths - 1)]; the rate is 0.013
    in every state reached from the initial one by deposits and ticks, and a
    tick that applies growth adds just that amount.  In the single-page
    script the month has exactly 30 days and the growth is
    [balance * 1.013 ^ elapsedMonths - balance]. *)
Theorem growth_formula :
  Dashboard.DAYS_PER_MONTH = 365.2425 / 12 /\
  (forall (a : Dashboard.AnomCAT) (now : Z),
      Dashboard.monthsElapsed (Dashboard.bot a) now
      = spec_elapsed_months now (Dashboard.lastUpdate (Dashboard.bot a)) /\
      Dashboard.growth a now
      = spec_growth (Dashboard.btcBalance (Dashboard.portfolio a))
                    (Dashboard.monthlyReturn (Dashboard.bot a))
                    now (Dashboard.lastUpdate (Dashboard.bot a))) /\
  (forall (ops : list Dashboard.op) (t0 : Z),
      Dashboard.monthlyReturn
        (Dashboard.bot (Dashboard.this (Dashboard.run ops (Dashboard.fresh t0))))
      = 0.013) /\
  (forall (e : env) (w : Dashboard.World),
      Dashboard.applies e w ->
      Dashboard.balance (Dashboard.updatePortfolio e w)
      = Dashboard.balance w
        + spec_growth (Dashboard.balance w)
                      (Dashboard.monthlyReturn (Dashboard.bot (Dashboard.this w)))
                      (clock e 0)
                      (Dashboard.lastUpdate (Dashboard.bot (Dashboard.this w)))) /\
  (forall (a : Simulator.AnomCAT) (now last : Z),
      Simulator.lastUpdate a = Some last ->
      Simulator.monthsElapsed a now = Num (IZR (now - last) / (86400000 * 30)) /\
      Simulator.growth a now
      = Num (Simulator.current (Simulator.portfolio a)
             * Rpower (1 + 0.013) (IZR (now - last) / (86400000 * 30))
             - Simulator.current (Simulator.portfolio a))) /\
  (forall (e : env) (w : Simulator.World),
      Simulator.applies e w ->
      Simulator.growth (Simulator.this w) (clock e 0)
      = Num (Simulator.growth_value (Simulator.this w) (clock e 0)) /\
      Simulator.balance (Simulator.tick e w)
      = Simulator.balance w + Simulator.growth_value (Simulator.this w) (clock e 0)).
Proof.
  split; [unfold Dashboard.DAYS_PER_MONTH; lra|].
  split.
  { intros a now. split; [apply months_spec|].
    unfold Dashboard.growth, spec_growth, Math_pow. now rewrite months_spec. }
  split; [intros ops t0; now rewrite run_rate|].
  split.
  { intros e w Happ.
    destruct (DashboardFacts.updatePortfolio_this e w Happ) as (_ & _ & _ & Hbal & _).
    unfold Dashboard.balance. rewrite Hbal.
    unfold Dashboard.growth, spec_growth, Math_pow. now rewrite months_spec. }
  split.
  { intros a now last Hlast.
    assert (Hm : Simulator.monthsElapsed a now
                 = Num (IZR (now - last) / (86400000 * 30))).
    { unfold Simulator.monthsElapsed. rewrite Hlast. cbn. f_equal.
      rewrite minus_IZR. f_equal. lra. }
    split; [exact Hm|].
    unfold Simulator.growth. rewrite Hm. reflexivity. }
  intros e w Happ. split; [now apply SimulatorFacts.applies_growth|].
  destruct (SimulatorFacts.tick_this e w Happ) as (_ & _ & _ & Hbal & _).
  unfold Simulator.balance. now rewrite Hbal.
Qed.

(** One 30 day month after a deposit of 1. *)
Lemma sim_month_elapsed :
  Simulator.monthsElapsed (Simulator.this (Simulator.funded 1 0)) 2592000000 = Num 1.
Proof.
  unfold Simulator.monthsElapsed. cbn. f_equal. lra.
Qed.

Lemma sim_month_growth :
  Simulator.growth (Simulator.this (Simulator.funded 1 0)) 2592000000 = Num 0.013.
Proof.
  unfold Simulator.growth. rewrite sim_month_elapsed. cbn. f_equal.
  unfold Math_pow, Simulator.monthlyReturn. rewrite Rpower_1 by lra. lra.
Qed.

Lemma spec_month_short : spec_elapsed_months 2592000000 0 < 1.
Proof.
  unfold spec_elapsed_months.
  apply Rmult_lt_reg_r with (86400000 * (365.2425 / 12)); [lra|].
  unfold Rdiv at 1. rewrite Rmult_assoc, Rinv_l by lra.
  replace (2592000000 - 0)%Z with 2592000000%Z by reflexivity. lra.
Qed.

Lemma spec_month_growth : spec_growth 1 0.013 2592000000 0 < 0.013.
Proof.
  unfold spec_growth.
  pose proof (Rpower_lt (1 + 0.013) _ _ ltac:(lra) spec_month_short) as H.
  rewrite Rpower_1 in H by lra. lra.
Qed.

Lemma growth_formula_witness :
  Simulator.lastUpdate (Simulator.this (Simulator.funded 1 0)) = Some 0%Z /\
  Simulator.monthsElapsed (Simulator.this (Simulator.funded 1 0)) 2592000000
  = Num (IZR (2592000000 - 0) / (86400000 * 30)).
Proof.
  split; [reflexivity|].
  exact (proj1 (proj1 (proj2 (proj2 (proj2 (proj2 growth_formula))))
                  (Simulator.this (Simulator.funded 1 0)) 2592000000%Z 0%Z eq_refl)).
Defined.

(** The single-page script, an active bot holding 1 since instant 0, at
    instant 2592000000 (30 days): it counts one whole month and a growth of
    0.013, where the average month of the claim gives less than a month and
    less than 0.013. *)
Lemma simulator_month_is_30_days :
  Simulator.botActive (Simulator.this (Simulator.funded 1 0)) = true /\
  0 < Simulator.balance (Simulator.funded 1 0) /\
  Simulator.monthsElapsed (Simulator.this (Simulator.funded 1 0)) 2592000000
  <> Num (spec_elapsed_months 2592000000 0) /\
  Simulator.growth (Simulator.this (Simulator.funded 1 0)) 2592000000
  <> Num (spec_growth 1 0.013 2592000000 0).
Proof.
  split; [reflexivity|]. split; [cbn; lra|]. split.
  - rewrite sim_month_elapsed. intros H. inversion H as [H1].
    pose proof spec_month_short. lra.
  - rewrite sim_month_growth. intros H. inversion H as [H1].
    pose proof spec_month_growth. lra.
Qed.

(** * The record of a deposit *)

(** C9, as the scripts have it.  In the v1.01 script a valid deposit puts at
    the front of the trade log a record of type 'deposit' that carries the
    deposited amount and whose [profit] is null, and a record gets a random
    label only when its type is 'trade'.  In the single-page script a valid
    deposit puts at the end of the trade log a 'BUY' record of a tenth of the
    deposited amount, labelled at random like every other trade. *)
Theorem deposit_record (d : R) (e : env) :
  0 < d ->
  (forall w : Dashboard.World,
      exists rest,
        Dashboard.trades (Dashboard.portfolio
          (Dashboard.this (fst (Dashboard.deposit (Num d) e w))))
        = {| Dashboard.tx_id := clock e 2; Dashboard.tx_time := clock e 3;
             Dashboard.tx_type := "deposit"; Dashboard.tx_amount := d;
             Dashboard.tx_profit := None |} :: rest) /\
  (forall type amount t_id t_time r (w : Dashboard.World),
      exists rest,
        Dashboard.trades (Dashboard.portfolio
          (Dashboard.this (Dashboard.addTransaction type amount t_id t_time r w)))
        = {| Dashboard.tx_id := t_id; Dashboard.tx_time := t_time;
             Dashboard.tx_type := type; Dashboard.tx_amount := amount;
             Dashboard.tx_profit :=
               if String.eqb type "trade"
               then Some (if Rgt_dec r 0.4 then true else false)
               else None |} :: rest) /\
  (forall w : Simulator.World,
      exists front,
        Simulator.trades (Simulator.portfolio
          (Simulator.this (fst (Simulator.handleDeposit (Num d) e w))))
        = front ++ [{| Simulator.t_time := clock e 2; Simulator.t_type := "BUY";
                       Simulator.t_amount := d * 0.1;
                       Simulator.t_profit :=
                         if Rgt_dec (random e 0) 0.4 then true else false |}]).
Proof.
  intros Hd. split; [|split].
  - intros w.
    destruct (DashboardFacts.deposit_this d e w Hd) as (_ & _ & _ & _ & _ & _ & Htr).
    rewrite Htr. unfold unshift, slice0. cbv zeta.
    destruct (100 <? _)%nat; eexists; cbn [firstn]; reflexivity.
  - intros type amount t_id t_time r w.
    rewrite DashboardFacts.addTransaction_this. cbn [Dashboard.set_portfolio
      Dashboard.portfolio Dashboard.set_trades Dashboard.trades].
    unfold unshift, slice0. cbv zeta.
    destruct (100 <? _)%nat; eexists; cbn [firstn]; reflexivity.
  - intros w.
    destruct (SimulatorFacts.handleDeposit_this d e w Hd) as (_ & _ & _ & _ & _ & _ & Htr).
    rewrite Htr. unfold push, shift. cbv zeta.
    destruct (50 <? _)%nat eqn:Hlen; [|eexists; reflexivity].
    destruct (Simulator.trades (Simulator.portfolio (Simulator.this w))) as [|t ts].
    + cbn in Hlen. discriminate.
    + exists ts. reflexivity.
Qed.

Lemma deposit_record_witness :
  0 < 1 /\
  exists front,
    Simulator.trades (Simulator.portfolio
      (Simulator.this (fst (Simulator.handleDeposit (Num 1) (steady 0 0.5)
                              (Simulator.fresh 0)))))
    = front ++ [{| Simulator.t_time := 0; Simulator.t_type := "BUY";
                   Simulator.t_amount := 1 * 0.1;
                   Simulator.t_profit :=
                     if Rgt_dec 0.5 0.4 then true else false |}].
Proof.
  assert (H : 0 < 1) by lra.
  split; [exact H|].
  exact (proj2 (proj2 (deposit_record 1 (steady 0 0.5) H)) (Simulator.fresh 0)).
Defined.

(** The single-page script, a first deposit of 1 with a random draw of 0.5:
    the one record written is a 'BUY' of 0.1 labelled profitable; it is not
    of type 'deposit', does not carry the deposited amount, and its label is
    not absent. *)
Lemma simulator_deposit_is_a_buy :
  let ts := Simulator.trades (Simulator.portfolio
              (Simulator.this (fst (Simulator.handleDeposit (Num 1) (steady 0 0.5)
                                      (Simulator.fresh 0))))) in
  ts = [{| Simulator.t_time := 0; Simulator.t_type := "BUY";
           Simulator.t_amount := 1 * 0.1; Simulator.t_profit := true |}] /\
  ~ (exists t, In t ts /\ Simulator.t_type t = "deposit"%string) /\
  ~ (exists t, In t ts /\ Simulator.t_amount t = 1).
Proof.
  intros ts.
  assert (Hts : ts = [{| Simulator.t_time := 0; Simulator.t_type := "BUY";
                         Simulator.t_amount := 1 * 0.1;
                         Simulator.t_profit := true |}]).
  { subst ts.
    destruct (SimulatorFacts.handleDeposit_this 1 (steady 0 0.5) (Simulator.fresh 0)
                ltac:(lra)) as (_ & _ & _ & _ & _ & _ & Htr).
    rewrite Htr. cbn.
    destruct (Rgt_dec 0.5 0.4); [reflexivity | lra]. }
  split; [exact Hts|]. rewrite Hts.
  split; intros (t & [Ht|[]] & H); subst t; cbn in H; [discriminate | lra].
Qed.

(** * States that deposits and ticks reach *)

Section SortedLogs.
Context {A : Type}.
Variable f : A -> R.

Lemma sorted_push (l : list A) (y : A) :
  StronglySorted Rle (map f l) ->
  Forall (fun x => f x <= f y) l ->
  StronglySorted Rle (map f (push l y)).
Proof.
  unfold push. induction l as [|x l IH]; intros Hs Hall; cbn.
  - repeat constructor.
  - cbn in Hs. apply StronglySorted_inv in Hs as [Hs' Hx].
    apply Forall_cons_iff in Hall as [Hxy Hall'].
    constructor; [now apply IH|].
    rewrite map_app. apply Forall_app. split; [assumption|].
    cbn. constructor; [exact Hxy | constructor].
Qed.

Lemma sorted_shift (l : list A) :
  StronglySorted Rle (map f l) -> StronglySorted Rle (map f (shift l)).
Proof.
  unfold shift. destruct l as [|x l]; cbn; [auto|].
  intros Hs. now apply StronglySorted_inv in Hs.
Qed.

Lemma Forall_shift (P : A -> Prop) (l : list A) :
  Forall P l -> Forall P (shift l).
Proof.
  unfold shift. destruct l as [|x l]; cbn; [auto|].
  intros H. now apply Forall_cons_iff in H.
Qed.

Lemma Forall_push (P : A -> Prop) (l : list A) (y : A) :
  Forall P l -> P y -> Forall P (push l y).
Proof.
  intros Hl Hy. unfold push. apply Forall_app. split; [assumption|].
  constructor; [exact Hy | constructor].
Qed.

End SortedLogs.

Lemma dashboard_step_sound (w : Dashboard.World) (o : Dashboard.op) :
  dashboard_sound (Dashboard.this w) ->
  dashboard_sound (Dashboard.this (Dashboard.step w o)).
Proof.
  intros (Hi0 & Hib & Hz & Hact & Hs & Hall). unfold dashboard_sound.
  destruct o as [[|d] e | e]; cbn [Dashboard.step].
  - cbn. auto 10.
  - destruct (Rle_dec d 0) as [Hle|Hgt].
    + unfold Dashboard.deposit. destruct (Rle_dec d 0); [|lra]. cbn. auto 10.
    + assert (Hd : 0 < d) by lra.
      destruct (DashboardFacts.deposit_this d e w Hd)
        as (_ & _ & Hbot & Hini & Hbal & Hhis & _).
      cbv zeta. rewrite Hbot, Hini, Hbal, Hhis. cbn [Dashboard.active Dashboard.set_lastUpdate
        Dashboard.set_active].
      destruct (Req_dec_T (Dashboard.initialBtc (Dashboard.portfolio (Dashboard.this w))) 0)
        as [Hz0|Hnz].
      * split; [lra|]. split; [lra|]. split; [intros; lra|].
        split; [split; [intros _; lra | reflexivity]|].
        split; [cbn; constructor; constructor|].
        constructor; [cbn; lra | constructor].
      * split; [lra|]. split; [lra|]. split; [intros; tauto|].
        split; [split; [intros _; lra | reflexivity]|].
        split; [assumption|].
        eapply Forall_impl; [|exact Hall]. cbn. intros pt Hpt. lra.
  - destruct (DashboardFacts.applies_dec e w) as [Happ|Hidle].
    + destruct (DashboardFacts.updatePortfolio_this e w Happ)
        as (_ & Hbot & Hini & Hbal & _ & Hhis & _).
      destruct Happ as (Ha & Hpos & Hg). unfold Dashboard.SATOSHI_THRESHOLD in Hg.
      cbv zeta. rewrite Hbot, Hini, Hbal, Hhis. cbn [Dashboard.active Dashboard.set_lastUpdate].
      set (g := Dashboard.growth (Dashboard.this w) (clock e 0)) in *.
      set (b := Dashboard.btcBalance (Dashboard.portfolio (Dashboard.this w))) in *.
      assert (Hs' : StronglySorted Rle
                      (map value (push (Dashboard.history (Dashboard.portfolio (Dashboard.this w)))
                                       {| time := clock e 0; value := b + g |}))).
      { apply sorted_push; [assumption|].
        eapply Forall_impl; [|exact Hall]. cbn. intros pt Hpt. fold b in Hpt. lra. }
      assert (Hall' : Forall (fun pt => value pt <= b + g)
                        (push (Dashboard.history (Dashboard.portfolio (Dashboard.this w)))
                              {| time := clock e 0; value := b + g |})).
      { apply Forall_push; [|cbn; lra].
        eapply Forall_impl; [|exact Hall]. cbn. intros pt Hpt. fold b in Hpt. lra. }
      split; [lra|]. split; [lra|].
      split; [intros H0; specialize (Hz H0); lra|].
      split; [exact Hact|].
      split; destruct (100 <? _)%nat;
        solve [assumption | now apply sorted_shift | now apply Forall_shift].
    + rewrite DashboardFacts.updatePortfolio_idle by assumption. auto 10.
Qed.

Lemma simulator_step_sound (w : Simulator.World) (o : Simulator.op) :
  simulator_sound (Simulator.this w) ->
  simulator_sound (Simulator.this (Simulator.step w o)).
Proof.
  intros (Hi0 & Hib & Hz & Hact & Hs & Hall). unfold simulator_sound.
  destruct o as [[|d] e | e]; cbn [Simulator.step].
  - cbn. auto 10.
  - destruct (Rle_dec d 0) as [Hle|Hgt].
    + unfold Simulator.handleDeposit. destruct (Rle_dec d 0); [|lra]. cbn. auto 10.
    + assert (Hd : 0 < d) by lra.
      destruct (SimulatorFacts.handleDeposit_this d e w Hd)
        as (_ & Hbot & _ & Hini & Hbal & Hhis & _).
      cbv zeta. rewrite Hbot, Hini, Hbal, Hhis.
      destruct (Req_dec_T (Simulator.initial (Simulator.portfolio (Simulator.this w))) 0)
        as [Hz0|Hnz].
      * split; [lra|]. split; [lra|]. split; [intros; lra|].
        split; [split; [intros _; lra | reflexivity]|].
        split; [cbn; constructor; constructor|].
        constructor; [cbn; lra | constructor].
      * split; [lra|]. split; [lra|]. split; [intros; tauto|].
        split; [split; [intros _; lra | reflexivity]|].
        split; [assumption|].
        eapply Forall_impl; [|exact Hall]. cbn. intros pt Hpt. lra.
  - destruct (SimulatorFacts.sim_applies_dec e w) as [Happ|Hidle].
    + destruct (SimulatorFacts.tick_this e w Happ)
        as (Hbot & _ & Hini & Hbal & Hhis & _).
      destruct (SimulatorFacts.applies_growth e w Happ) as [_ Hg].
      destruct Happ as (Ha & Hpos & _).
      cbv zeta. rewrite Hbot, Hini, Hbal, Hhis. cbv zeta.
      set (g := Simulator.growth_value (Simulator.this w) (clock e 0)) in *.
      set (b := Simulator.current (Simulator.portfolio (Simulator.this w))) in *.
      assert (Hs' : StronglySorted Rle
                      (map value (push (Simulator.history (Simulator.portfolio (Simulator.this w)))
                                       {| time := clock e 0; value := b + g |}))).
      { apply sorted_push; [assumption|].
        eapply Forall_impl; [|exact Hall]. cbn. intros pt Hpt. fold b in Hpt. lra. }
      assert (Hall' : Forall (fun pt => value pt <= b + g)
                        (push (Simulator.history (Simulator.portfolio (Simulator.this w)))
                              {| time := clock e 0; value := b + g |})).
      { apply Forall_push; [|cbn; lra].
        eapply Forall_impl; [|exact Hall]. cbn. intros pt Hpt. fold b in Hpt. lra. }
      split; [lra|]. split; [lra|].
      split; [intros H0; specialize (Hz H0); lra|].
      split; [exact Hact|].
      split; destruct (100 <? _)%nat;
        solve [assumption | now apply sorted_shift | now apply Forall_shift].
    + rewrite SimulatorFacts.tick_idle by assumption. auto 10.
Qed.

Lemma dashboard_run_sound (ops : list Dashboard.op) (w : Dashboard.World) :
  dashboard_sound (Dashboard.this w) ->
  dashboard_sound (Dashboard.this (Dashboard.run ops w)).
Proof.
  revert w. induction ops as [|o ops IH]; intros w Hs; cbn; [assumption|].
  apply IH. now apply dashboard_step_sound.
Qed.

Lemma simulator_run_sound (ops : list Simulator.op) (w : Simulator.World) :
  simulator_sound (Simulator.this w) ->
  simulator_sound (Simulator.this (Simulator.run ops w)).
Proof.
  revert w. induction ops as [|o ops IH]; intros w Hs; cbn; [assumption|].
  apply IH. now apply simulator_step_sound.
Qed.

Lemma dashboard_fresh_sound (t0 : Z) : dashboard_sound (Dashboard.initial t0).
Proof.
  unfold dashboard_sound; cbn.
  split; [lra|]. split; [lra|]. split; [auto|].
  split; [split; [discriminate | lra]|]. split; constructor.
Qed.

Lemma simulator_fresh_sound (t0 : Z) : simulator_sound (Simulator.initial_app t0).
Proof.
  unfold simulator_sound; cbn.
  split; [lra|]. split; [lra|]. split; [auto|].
  split; [split; [discriminate | lra]|]. split; constructor.
Qed.

(** X1: in every state reached from the empty one by ticks and by deposits
    of finite amounts, the profit and the ROI are shown with a ['+'] and as a
    gain, in both scripts.  A first deposit of [Infinity], which both guards
    accept, breaks this: the profit is then [Infinity - Infinity], that is
    [NaN], and so is the ROI; neither is at least 0, so both are shown
    without a sign and as a loss. *)
Theorem never_shows_a_loss :
  (forall (ops : list Dashboard.op) (t0 : Z),
      let a := widen_dashboard (Dashboard.this (Dashboard.run ops (Dashboard.fresh t0))) in
      WideDashboard.sign (WideDashboard.profit a) = "+"%string /\
      WideDashboard.sign (WideDashboard.roi a) = "+"%string /\
      WideDashboard.stat_class (WideDashboard.profit a)
      = "stat-value text-success"%string /\
      WideDashboard.stat_class (WideDashboard.roi a)
      = "stat-value text-success"%string) /\
  (forall (ops : list Simulator.op) (t0 : Z),
      let a := widen_simulator (Simulator.this (Simulator.run ops (Simulator.fresh t0))) in
      WideSimulator.sign (WideSimulator.profit a) = "+"%string /\
      WideSimulator.sign (WideSimulator.roi a) = "+"%string /\
      WideSimulator.stat_class (WideSimulator.profit a)
      = "portfolio-stat-value gain"%string /\
      WideSimulator.stat_class (WideSimulator.roi a)
      = "portfolio-stat-value gain"%string) /\
  (forall (e : env) (t0 : Z),
      let a := WideDashboard.this
                 (fst (WideDashboard.deposit Infinity e (WideDashboard.fresh t0))) in
      snd (WideDashboard.deposit Infinity e (WideDashboard.fresh t0)) = true /\
      WideDashboard.profit a = NotANumber /\
      WideDashboard.roi a = NotANumber /\
      WideDashboard.sign (WideDashboard.profit a) = ""%string /\
      WideDashboard.sign (WideDashboard.roi a) = ""%string /\
      WideDashboard.stat_class (WideDashboard.profit a)
      = "stat-value text-danger"%string) /\
  (forall (e : env) (t0 : Z),
      let a := WideSimulator.this
                 (fst (WideSimulator.handleDeposit Infinity e (WideSimulator.fresh t0))) in
      snd (WideSimulator.handleDeposit Infinity e (WideSimulator.fresh t0)) = None /\
      WideSimulator.profit a = NotANumber /\
      WideSimulator.roi a = NotANumber /\
      WideSimulator.sign (WideSimulator.profit a) = ""%string /\
      WideSimulator.sign (WideSimulator.roi a) = ""%string /\
      WideSimulator.stat_class (WideSimulator.profit a)
      = "portfolio-stat-value loss"%string).
Proof.
  split; [|split; [|split]].
  - intros ops t0 a.
    destruct (dashboard_run_sound ops (Dashboard.fresh t0) (dashboard_fresh_sound t0))
      as (Hi0 & Hib & _).
    set (st := Dashboard.this (Dashboard.run ops (Dashboard.fresh t0))) in *.
    set (i := Dashboard.initialBtc (Dashboard.portfolio st)) in *.
    set (b := Dashboard.btcBalance (Dashboard.portfolio st)) in *.
    assert (Hp : WideDashboard.profit a = Finite (b + - i)) by reflexivity.
    assert (Hr : exists r, WideDashboard.roi a = Finite r /\ 0 <= r).
    { unfold WideDashboard.roi. fold (WideDashboard.profit a).
      change (JSNumber.ToNumber
                (WideDashboard.initialBtc (WideDashboard.portfolio a)))
        with (Finite i).
      rewrite Hp. cbn [JSNumber.lt JSNumber.div JSNumber.mul].
      destruct (Rlt_dec 0 i) as [Hpos|_]; [|exists 0; split; [reflexivity | lra]].
      destruct (Req_dec_T i 0) as [H0|_]; [lra|].
      eexists. split; [reflexivity|].
      apply Rmult_le_pos; [|lra]. unfold Rdiv. apply Rle_mult_inv_pos; lra. }
    destruct Hr as (r & -> & Hr).
    unfold WideDashboard.sign, WideDashboard.stat_class. rewrite Hp.
    cbn [JSNumber.le].
    destruct (Rle_dec 0 (b + - i)) as [_|H]; [|lra].
    destruct (Rle_dec 0 r) as [_|H]; [|lra].
    split; [reflexivity|]. split; [reflexivity|]. split; reflexivity.
  - intros ops t0 a.
    destruct (simulator_run_sound ops (Simulator.fresh t0) (simulator_fresh_sound t0))
      as (Hi0 & Hib & _).
    set (st := Simulator.this (Simulator.run ops (Simulator.fresh t0))) in *.
    set (i := Simulator.initial (Simulator.portfolio st)) in *.
    set (b := Simulator.current (Simulator.portfolio st)) in *.
    assert (Hp : WideSimulator.profit a = Finite (b + - i)) by reflexivity.
    assert (Hr : exists r, WideSimulator.roi a = Finite r /\ 0 <= r).
    { unfold WideSimulator.roi. fold (WideSimulator.profit a).
      change (JSNumber.ToNumber
                (WideSimulator.initial (WideSimulator.portfolio a)))
        with (Finite i).
      rewrite Hp. cbn [JSNumber.lt JSNumber.div JSNumber.mul].
      destruct (Rlt_dec 0 i) as [Hpos|_]; [|exists 0; split; [reflexivity | lra]].
      destruct (Req_dec_T i 0) as [H0|_]; [lra|].
      eexists. split; [reflexivity|].
      apply Rmult_le_pos; [|lra]. unfold Rdiv. apply Rle_mult_inv_pos; lra. }
    destruct Hr as (r & -> & Hr).
    unfold WideSimulator.sign, WideSimulator.stat_class. rewrite Hp.
    cbn [JSNumber.le].
    destruct (Rle_dec 0 (b + - i)) as [_|H]; [|lra].
    destruct (Rle_dec 0 r) as [_|H]; [|lra].
    split; [reflexivity|]. split; [reflexivity|]. split; reflexivity.
  - intros e t0 a. subst a.
    assert (Hacc : snd (WideDashboard.deposit Infinity e (WideDashboard.fresh t0)) = true)
      by reflexivity.
    destruct (WideFacts.infinite_deposit e t0) as (w0 & -> & _ & _ & Hi & Hb).
    rewrite WideFacts.wide_saveToStorage_this.
    unfold WideDashboard.sign, WideDashboard.stat_class, WideDashboard.roi,
      WideDashboard.profit.
    rewrite Hi, Hb.
    split; [exact Hacc|]. split; [reflexivity|]. split; [reflexivity|].
    split; [reflexivity|]. split; reflexivity.
  - intros e t0 a. subst a.
    assert (Hacc : snd (WideSimulator.handleDeposit Infinity e (WideSimulator.fresh t0))
                   = None) by reflexivity.
    destruct (WideFacts.sim_infinite_deposit e t0) as (w0 & -> & _ & Hi & Hb).
    rewrite WideFacts.wide_sim_saveToStorage_this.
    unfold WideSimulator.sign, WideSimulator.stat_class, WideSimulator.roi,
      WideSimulator.profit.
    rewrite Hi, Hb.
    split; [exact Hacc|]. split; [reflexivity|]. split; [reflexivity|].
    split; [reflexivity|]. split; reflexivity.
Qed.

Lemma dashboard_step_keeps (w : Dashboard.World) (o : Dashboard.op) :
  (Dashboard.initialBtc (Dashboard.portfolio (Dashboard.this w)) <> 0 ->
   Dashboard.initialBtc (Dashboard.portfolio (Dashboard.this (Dashboard.step w o)))
   = Dashboard.initialBtc (Dashboard.portfolio (Dashboard.this w))) /\
  (Dashboard.active (Dashboard.bot (Dashboard.this w)) = true ->
   Dashboard.active (Dashboard.bot (Dashboard.this (Dashboard.step w o))) = true).
Proof.
  destruct o as [[|d] e | e]; cbn [Dashboard.step].
  - cbn. auto.
  - destruct (Rle_dec d 0) as [Hle|Hgt].
    + unfold Dashboard.deposit. destruct (Rle_dec d 0); [|lra]. cbn. auto.
    + assert (Hd : 0 < d) by lra.
      destruct (DashboardFacts.deposit_this d e w Hd) as (_ & _ & Hbot & Hini & _).
      rewrite Hbot, Hini. split; [|reflexivity].
      intros Hnz. now destruct (Req_dec_T _ 0).
  - destruct (DashboardFacts.applies_dec e w) as [Happ|Hidle].
    + destruct (DashboardFacts.updatePortfolio_this e w Happ) as (_ & Hbot & Hini & _).
      rewrite Hbot, Hini. auto.
    + rewrite DashboardFacts.updatePortfolio_idle by assumption. auto.
Qed.

Lemma simulator_step_keeps (w : Simulator.World) (o : Simulator.op) :
  (Simulator.initial (Simulator.portfolio (Simulator.this w)) <> 0 ->
   Simulator.initial (Simulator.portfolio (Simulator.this (Simulator.step w o)))
   = Simulator.initial (Simulator.portfolio (Simulator.this w))) /\
  (Simulator.botActive (Simulator.this w) = true ->
   Simulator.botActive (Simulator.this (Simulator.step w o)) = true).
Proof.
  destruct o as [[|d] e | e]; cbn [Simulator.step].
  - cbn. auto.
  - destruct (Rle_dec d 0) as [Hle|Hgt].
    + unfold Simulator.handleDeposit. destruct (Rle_dec d 0); [|lra]. cbn. auto.
    + assert (Hd : 0 < d) by lra.
      destruct (SimulatorFacts.handleDeposit_this d e w Hd) as (_ & Hbot & _ & Hini & _).
      rewrite Hbot, Hini. split; [|reflexivity].
      intros Hnz. now destruct (Req_dec_T _ 0).
  - destruct (SimulatorFacts.sim_applies_dec e w) as [Happ|Hidle].
    + destruct (SimulatorFacts.tick_this e w Happ) as (Hbot & _ & Hini & _).
      rewrite Hbot, Hini. auto.
    + rewrite SimulatorFacts.tick_idle by assumption. auto.
Qed.

(** X2: once the first deposit is recorded, no sequence of deposits and
    ticks changes it, and a bot that is active stays active.  Both scripts,
    from any state. *)
Theorem first_deposit_is_kept :
  (forall (ops : list Dashboard.op) (w : Dashboard.World),
      Dashboard.initialBtc (Dashboard.portfolio (Dashboard.this w)) <> 0 ->
      Dashboard.initialBtc (Dashboard.portfolio (Dashboard.this (Dashboard.run ops w)))
      = Dashboard.initialBtc (Dashboard.portfolio (Dashboard.this w))) /\
  (forall (ops : list Dashboard.op) (w : Dashboard.World),
      Dashboard.active (Dashboard.bot (Dashboard.this w)) = true ->
      Dashboard.active (Dashboard.bot (Dashboard.this (Dashboard.run ops w))) = true) /\
  (forall (ops : list Simulator.op) (w : Simulator.World),
      Simulator.initial (Simulator.portfolio (Simulator.this w)) <> 0 ->
      Simulator.initial (Simulator.portfolio (Simulator.this (Simulator.run ops w)))
      = Simulator.initial (Simulator.portfolio (Simulator.this w))) /\
  (forall (ops : list Simulator.op) (w : Simulator.World),
      Simulator.botActive (Simulator.this w) = true ->
      Simulator.botActive (Simulator.this (Simulator.run ops w)) = true).
Proof.
  split; [|split; [|split]].
  - induction ops as [|o ops IH]; intros w Hnz; cbn; [reflexivity|].
    fold (Dashboard.run ops (Dashboard.step w o)).
    destruct (dashboard_step_keeps w o) as [Hk _]. specialize (Hk Hnz).
    rewrite IH; [exact Hk | now rewrite Hk].
  - induction ops as [|o ops IH]; intros w Ha; cbn; [assumption|].
    fold (Dashboard.run ops (Dashboard.step w o)).
    apply IH. now apply dashboard_step_keeps.
  - induction ops as [|o ops IH]; intros w Hnz; cbn; [reflexivity|].
    fold (Simulator.run ops (Simulator.step w o)).
    destruct (simulator_step_keeps w o) as [Hk _]. specialize (Hk Hnz).
    rewrite IH; [exact Hk | now rewrite Hk].
  - induction ops as [|o ops IH]; intros w Ha; cbn; [assumption|].
    fold (Simulator.run ops (Simulator.step w o)).
    apply IH. now apply simulator_step_keeps.
Qed.

Lemma first_deposit_is_kept_witness :
  Dashboard.initialBtc (Dashboard.portfolio (Dashboard.this (Dashboard.funded 1 0))) <> 0 /\
  Dashboard.initialBtc (Dashboard.portfolio (Dashboard.this
    (Dashboard.run [Dashboard.Deposit (Num 2) (steady 5 0);
                    Dashboard.Tick (steady 2629746000 1)]
                   (Dashboard.funded 1 0))))
  = Dashboard.initialBtc (Dashboard.portfolio (Dashboard.this (Dashboard.funded 1 0))).
Proof.
  assert (H : Dashboard.initialBtc
                (Dashboard.portfolio (Dashboard.this (Dashboard.funded 1 0))) <> 0)
    by (cbn; lra).
  split; [exact H|].
  exact (proj1 first_deposit_is_kept
           [Dashboard.Deposit (Num 2) (steady 5 0);
            Dashboard.Tick (steady 2629746000 1)]
           (Dashboard.funded 1 0) H).
Defined.

(** X3: in every state reached from the empty one by deposits and ticks,
    the bot status reads active exactly when a deposit has been made, that
    is when the first deposit is positive, and then the balance is positive
    too.  Both scripts. *)
Theorem status_follows_deposit :
  (forall (ops : list Dashboard.op) (t0 : Z),
      let a := Dashboard.this (Dashboard.run ops (Dashboard.fresh t0)) in
      (DashboardStats.isActive a = true
       <-> 0 < Dashboard.initialBtc (Dashboard.portfolio a)) /\
      (DashboardStats.isActive a = false
       <-> Dashboard.btcBalance (Dashboard.portfolio a) = 0)) /\
  (forall (ops : list Simulator.op) (t0 : Z),
      let a := Simulator.this (Simulator.run ops (Simulator.fresh t0)) in
      (SimulatorStats.isActive a = true
       <-> 0 < Simulator.initial (Simulator.portfolio a)) /\
      (SimulatorStats.isActive a = false
       <-> Simulator.current (Simulator.portfolio a) = 0)).
Proof.
  split; intros ops t0 a.
  - destruct (dashboard_run_sound ops (Dashboard.fresh t0) (dashboard_fresh_sound t0))
      as (Hi0 & Hib & Hz & Hact & _).
    fold a in Hi0, Hib, Hz, Hact. unfold DashboardStats.isActive.
    destruct (Dashboard.active (Dashboard.bot a)) eqn:Ha;
      destruct (Rgt_dec (Dashboard.btcBalance (Dashboard.portfolio a)) 0) as [Hb|Hb];
      cbn [andb].
    + pose proof (proj1 Hact eq_refl). repeat split; intros; try lra; discriminate.
    + pose proof (proj1 Hact eq_refl). lra.
    + assert (H0 : Dashboard.initialBtc (Dashboard.portfolio a) = 0).
      { destruct (Rle_lt_dec (Dashboard.initialBtc (Dashboard.portfolio a)) 0); [lra|].
        pose proof (proj2 Hact ltac:(assumption)). discriminate. }
      specialize (Hz H0). lra.
    + assert (H0 : Dashboard.initialBtc (Dashboard.portfolio a) = 0).
      { destruct (Rle_lt_dec (Dashboard.initialBtc (Dashboard.portfolio a)) 0); [lra|].
        pose proof (proj2 Hact ltac:(assumption)). discriminate. }
      specialize (Hz H0). repeat split; intros; try lra; try discriminate; auto.
  - destruct (simulator_run_sound ops (Simulator.fresh t0) (simulator_fresh_sound t0))
      as (Hi0 & Hib & Hz & Hact & _).
    fold a in Hi0, Hib, Hz, Hact. unfold SimulatorStats.isActive.
    destruct (Simulator.botActive a) eqn:Ha;
      destruct (Rgt_dec (Simulator.current (Simulator.portfolio a)) 0) as [Hb|Hb];
      cbn [andb].
    + pose proof (proj1 Hact eq_refl). repeat split; intros; try lra; discriminate.
    + pose proof (proj1 Hact eq_refl). lra.
    + assert (H0 : Simulator.initial (Simulator.portfolio a) = 0).
      { destruct (Rle_lt_dec (Simulator.initial (Simulator.portfolio a)) 0); [lra|].
        pose proof (proj2 Hact ltac:(assumption)). discriminate. }
      specialize (Hz H0). lra.
    + assert (H0 : Simulator.initial (Simulator.portfolio a) = 0).
      { destruct (Rle_lt_dec (Simulator.initial (Simulator.portfolio a)) 0); [lra|].
        pose proof (proj2 Hact ltac:(assumption)). discriminate. }
      specialize (Hz H0). repeat split; intros; try lra; try discriminate; auto.
Qed.

(** X4: in every state reached from the empty one by deposits and ticks,
    the values of the history do not decrease from one entry to the next and
    none exceeds the current balance: the chart of the balance never goes
    down.  Both scripts. *)
Theorem history_values_grow :
  (forall (ops : list Dashboard.op) (t0 : Z),
      let p := Dashboard.portfolio (Dashboard.this (Dashboard.run ops (Dashboard.fresh t0))) in
      StronglySorted Rle (map value (Dashboard.history p)) /\
      Forall (fun pt => value pt <= Dashboard.btcBalance p) (Dashboard.history p)) /\
  (forall (ops : list Simulator.op) (t0 : Z),
      let p := Simulator.portfolio (Simulator.this (Simulator.run ops (Simulator.fresh t0))) in
      StronglySorted Rle (map value (Simulator.history p)) /\
      Forall (fun pt => value pt <= Simulator.current p) (Simulator.history p)).
Proof.
  split; intros ops t0 p.
  - destruct (dashboard_run_sound ops (Dashboard.fresh t0) (dashboard_fresh_sound t0))
      as (_ & _ & _ & _ & Hs & Hall). now split.
  - destruct (simulator_run_sound ops (Simulator.fresh t0) (simulator_fresh_sound t0))
      as (_ & _ & _ & _ & Hs & Hall). now split.
Qed.

(** * The store follows the memory *)

Lemma dashboard_save_written (w : Dashboard.World) :
  Dashboard.available (Dashboard.localStorage w) = true ->
  Dashboard.localStorage (Dashboard.saveToStorage w)
  = dashboard_written (Dashboard.this (Dashboard.saveToStorage w)).
Proof.
  intros Hav. rewrite DashboardFacts.saveToStorage_this.
  rewrite DashboardFacts.saveToStorage_eq, Hav. cbn.
  unfold Dashboard.write_currency, Dashboard.write_bot, Dashboard.write_portfolio,
    dashboard_written; cbn. now rewrite Hav.
Qed.

Lemma simulator_save_written (w : Simulator.World) :
  Simulator.available (Simulator.localStorage w) = true ->
  Simulator.localStorage (Simulator.saveToStorage w)
  = simulator_written (Simulator.this (Simulator.saveToStorage w)).
Proof.
  intros Hav. rewrite SimulatorFacts.sim_saveToStorage_this.
  rewrite SimulatorFacts.sim_saveToStorage_eq, Hav. cbn.
  unfold Simulator.write_last_update, Simulator.write_bot_active,
    Simulator.write_portfolio, simulator_written; cbn. now rewrite Hav.
Qed.

(** A step either changes nothing or ends in a save. *)
Lemma dashboard_step_saves (w : Dashboard.World) (o : Dashboard.op) :
  Dashboard.step w o = w \/
  exists w', Dashboard.step w o = Dashboard.saveToStorage w' /\
             Dashboard.available (Dashboard.localStorage w')
             = Dashboard.available (Dashboard.localStorage w).
Proof.
  destruct o as [[|d] e | e]; cbn [Dashboard.step].
  - now left.
  - unfold Dashboard.deposit. destruct (Rle_dec d 0); [now left|]. right.
    cbn [fst]. eexists. split; [reflexivity|].
    now rewrite StorageFacts.addTransaction_store.
  - unfold Dashboard.updatePortfolio.
    destruct (negb _ || _); [now left|].
    destruct (Rgt_dec _ Dashboard.SATOSHI_THRESHOLD); [|now left]. right.
    eexists. split; [reflexivity|].
    destruct (Rgt_dec (random e 0) 0.7);
      [now rewrite StorageFacts.addTransaction_store | reflexivity].
Qed.

Lemma simulator_step_saves (w : Simulator.World) (o : Simulator.op) :
  Simulator.step w o = w \/
  exists w', Simulator.step w o = Simulator.saveToStorage w' /\
             Simulator.available (Simulator.localStorage w')
             = Simulator.available (Simulator.localStorage w).
Proof.
  destruct o as [[|d] e | e]; cbn [Simulator.step].
  - now left.
  - unfold Simulator.handleDeposit. destruct (Rle_dec d 0); [now left|]. right.
    cbn [fst]. unfold Simulator.simulateTrade. eexists. split; [reflexivity|].
    cbn. now rewrite StorageFacts.sim_saveToStorage_available.
  - unfold Simulator.tick.
    destruct (Simulator.botActive _ && _); [|now left].
    destruct (Simulator.growth _ _) as [|g]; [now left|].
    destruct (Rgt_dec g 0.00000001); [|now left]. right.
    destruct (Rgt_dec (random e 0) 0.7).
    + unfold Simulator.simulateTrade. eexists. split; [reflexivity|].
      cbn. now rewrite StorageFacts.sim_saveToStorage_available.
    + eexists. split; [reflexivity|]. reflexivity.
Qed.

Lemma dashboard_load_written (a mem : Dashboard.AnomCAT) (con : list string) :
  Dashboard.currency a <> ""%string ->
  Dashboard.this
    (Dashboard.loadFromStorage
       {| Dashboard.this := mem; Dashboard.localStorage := dashboard_written a;
          Dashboard.console := con |})
  = a.
Proof.
  intros Hc. destruct a as [c p b]. cbn in Hc.
  destruct c; [congruence | reflexivity].
Qed.

Lemma dashboard_run_synced (ops : list Dashboard.op) (w : Dashboard.World) :
  Dashboard.available (Dashboard.localStorage w) = true ->
  Dashboard.run ops w = w \/
  Dashboard.localStorage (Dashboard.run ops w)
  = dashboard_written (Dashboard.this (Dashboard.run ops w)).
Proof.
  revert w. induction ops as [|o ops IH]; intros w Hav; cbn; [now left|].
  fold (Dashboard.run ops (Dashboard.step w o)).
  destruct (dashboard_step_saves w o) as [Hsame | (w' & Hstep & Hav')].
  - rewrite Hsame. now apply IH.
  - assert (Hav1 : Dashboard.available (Dashboard.localStorage (Dashboard.step w o)) = true).
    { rewrite Hstep, DashboardFacts.saveToStorage_available. congruence. }
    destruct (IH _ Hav1) as [Hsame | Hsync]; [|now right].
    right. rewrite Hsame, Hstep. apply dashboard_save_written. congruence.
Qed.

Lemma simulator_run_synced (ops : list Simulator.op) (w : Simulator.World) :
  Simulator.available (Simulator.localStorage w) = true ->
  Simulator.run ops w = w \/
  Simulator.localStorage (Simulator.run ops w)
  = simulator_written (Simulator.this (Simulator.run ops w)).
Proof.
  revert w. induction ops as [|o ops IH]; intros w Hav; cbn; [now left|].
  fold (Simulator.run ops (Simulator.step w o)).
  destruct (simulator_step_saves w o) as [Hsame | (w' & Hstep & Hav')].
  - rewrite Hsame. now apply IH.
  - assert (Hav1 : Simulator.available (Simulator.localStorage (Simulator.step w o)) = true).
    { rewrite Hstep, StorageFacts.sim_saveToStorage_available. congruence. }
    destruct (IH _ Hav1) as [Hsame | Hsync]; [|now right].
    right. rewrite Hsame, Hstep. apply simulator_save_written. congruence.
Qed.

Lemma dashboard_written_saved (w : Dashboard.World) :
  Dashboard.localStorage w = dashboard_written (Dashboard.this w) ->
  Dashboard.saveToStorage w = w.
Proof.
  intros H. rewrite DashboardFacts.saveToStorage_eq, H.
  destruct w as [a s con]. cbn in H. subst s. reflexivity.
Qed.

Lemma simulator_written_saved (w : Simulator.World) :
  Simulator.localStorage w = simulator_written (Simulator.this w) ->
  Simulator.saveToStorage w = w.
Proof.
  intros H. rewrite SimulatorFacts.sim_saveToStorage_eq, H.
  destruct w as [a s con]. cbn in H. subst s. reflexivity.
Qed.

(** X5: with a usable store, the store never lags behind the memory.  After
    any sequence of deposits and ticks from a first visit, either nothing has
    changed at all, or the state in memory is the one that was saved last:
    saving it once more changes nothing, neither in the store nor on the
    console.  Both scripts. *)
Theorem store_keeps_up :
  (forall (ops : list Dashboard.op) (t0 : Z),
      let w := Dashboard.run ops (Dashboard.fresh t0) in
      w = Dashboard.fresh t0 \/ Dashboard.saveToStorage w = w) /\
  (forall (ops : list Simulator.op) (t0 : Z),
      let w := Simulator.run ops (Simulator.fresh t0) in
      w = Simulator.fresh t0 \/ Simulator.saveToStorage w = w).
Proof.
  split; intros ops t0 w.
  - destruct (dashboard_run_synced ops (Dashboard.fresh t0) eq_refl) as [Hsame|Hsync];
      [now left | right].
    now apply dashboard_written_saved.
  - destruct (simulator_run_synced ops (Simulator.fresh t0) eq_refl) as [Hsame|Hsync];
      [now left | right].
    now apply simulator_written_saved.
Qed.

(** * The memory does not wait for the store *)

Lemma dashboard_step_this (w w' : Dashboard.World) (o : Dashboard.op) :
  Dashboard.this w = Dashboard.this w' ->
  Dashboard.this (Dashboard.step w o) = Dashboard.this (Dashboard.step w' o).
Proof.
  intros Heq. destruct o as [[|d] e | e]; cbn [Dashboard.step].
  - exact Heq.
  - unfold Dashboard.deposit. destruct (Rle_dec d 0); [exact Heq|]. cbn [fst].
    rewrite !DashboardFacts.saveToStorage_this, !DashboardFacts.addTransaction_this.
    cbn [Dashboard.this Dashboard.set_this]. now rewrite Heq.
  - unfold Dashboard.updatePortfolio. rewrite Heq.
    destruct (negb _ || _); [exact Heq|].
    destruct (Rgt_dec _ Dashboard.SATOSHI_THRESHOLD); [|exact Heq].
    rewrite !DashboardFacts.saveToStorage_this.
    destruct (Rgt_dec (random e 0) 0.7);
      [rewrite !DashboardFacts.addTransaction_this|];
      cbn [Dashboard.this Dashboard.set_this]; now rewrite Heq.
Qed.

Lemma simulator_step_this (w w' : Simulator.World) (o : Simulator.op) :
  Simulator.this w = Simulator.this w' ->
  Simulator.this (Simulator.step w o) = Simulator.this (Simulator.step w' o).
Proof.
  intros Heq. destruct o as [[|d] e | e]; cbn [Simulator.step].
  - exact Heq.
  - unfold Simulator.handleDeposit. destruct (Rle_dec d 0); [exact Heq|]. cbn [fst].
    rewrite !SimulatorFacts.simulateTrade_this, !SimulatorFacts.sim_saveToStorage_this.
    cbn [Simulator.this Simulator.set_this]. now rewrite Heq.
  - unfold Simulator.tick. rewrite Heq.
    destruct (Simulator.botActive _ && _); [|exact Heq].
    destruct (Simulator.growth _ _) as [|g]; [exact Heq|].
    destruct (Rgt_dec g 0.00000001); [|exact Heq].
    destruct (Rgt_dec (random e 0) 0.7);
      [rewrite !SimulatorFacts.simulateTrade_this|];
      rewrite !SimulatorFacts.sim_saveToStorage_this;
      cbn [Simulator.this Simulator.set_this]; now rewrite Heq.
Qed.

(** X6: what deposits and ticks make of the in-memory state does not depend
    on the store: two worlds with the same memory, whatever their stores
    hold and whether they can be written or not, have the same memory after
    any sequence of operations.  A failing store never holds the engine
    back.  Both scripts. *)
Theorem memory_ignores_store :
  (forall (ops : list Dashboard.op) (w w' : Dashboard.World),
      Dashboard.this w = Dashboard.this w' ->
      Dashboard.this (Dashboard.run ops w) = Dashboard.this (Dashboard.run ops w')) /\
  (forall (ops : list Simulator.op) (w w' : Simulator.World),
      Simulator.this w = Simulator.this w' ->
      Simulator.this (Simulator.run ops w) = Simulator.this (Simulator.run ops w')).
Proof.
  split.
  - induction ops as [|o ops IH]; intros w w' Heq; cbn; [assumption|].
    apply IH. now apply dashboard_step_this.
  - induction ops as [|o ops IH]; intros w w' Heq; cbn; [assumption|].
    apply IH. now apply simulator_step_this.
Qed.

Lemma memory_ignores_store_witness :
  Dashboard.this (Dashboard.funded 1 0)
  = Dashboard.this (dashboard_offline (Dashboard.funded 1 0)) /\
  Dashboard.this
    (Dashboard.run [Dashboard.Tick (steady 2629746000 1)] (Dashboard.funded 1 0))
  = Dashboard.this
      (Dashboard.run [Dashboard.Tick (steady 2629746000 1)]
                     (dashboard_offline (Dashboard.funded 1 0))).
Proof.
  split; [reflexivity|].
  exact (proj1 memory_ignores_store [Dashboard.Tick (steady 2629746000 1)]
           (Dashboard.funded 1 0) (dashboard_offline (Dashboard.funded 1 0)) eq_refl).
Defined.

(** * The win rate *)

Lemma filter_length_le {A : Type} (f : A -> bool) (l : list A) :
  (List.length (filter f l) <= List.length l)%nat.
Proof.
  induction l as [|x l IH]; cbn; [lia|]. destruct (f x); cbn; lia.
Qed.

Lemma rate_in_percent (k n : nat) :
  (k <= n)%nat -> (0 < n)%nat -> 0 <= INR k / INR n * 100 <= 100.
Proof.
  intros Hkn Hn.
  assert (Hn' : 0 < INR n) by (apply lt_0_INR; lia).
  assert (Hk : 0 <= INR k) by apply pos_INR.
  assert (Hle : INR k <= INR n) by (apply le_INR; lia).
  assert (Hq : 0 <= INR k / INR n <= 1).
  { split.
    - unfold Rdiv. apply Rle_mult_inv_pos; assumption.
    - apply Rmult_le_reg_r with (INR n); [assumption|].
      unfold Rdiv. rewrite Rmult_assoc, Rinv_l by lra. lra. }
  lra.
Qed.

(** X7: whenever a win rate is shown it lies between 0 and 100, in both
    scripts.  In the v1.01 script the deposit records sit in the same log as
    the trades and never count as wins: a valid deposit does not raise the
    number of wins, and while the log has room it lengthens the log by one,
    so that it lowers the win rate shown. *)
Theorem win_rate_range :
  (forall (a : Dashboard.AnomCAT) (x : R),
      DashboardStats.winRate a = Some x -> 0 <= x <= 100) /\
  (forall (a : Simulator.AnomCAT) (x : R),
      SimulatorStats.winRate a = Some x -> 0 <= x <= 100) /\
  (forall (d : R) (e : env) (w : Dashboard.World),
      0 < d ->
      let ts := Dashboard.trades (Dashboard.portfolio (Dashboard.this w)) in
      let ts' := Dashboard.trades (Dashboard.portfolio
                   (Dashboard.this (fst (Dashboard.deposit (Num d) e w)))) in
      (DashboardStats.wins ts' <= DashboardStats.wins ts)%nat /\
      ((List.length ts < 100)%nat ->
       DashboardStats.wins ts' = DashboardStats.wins ts /\
       List.length ts' = S (List.length ts))).
Proof.
  split; [|split].
  - intros a x. unfold DashboardStats.winRate.
    destruct (0 <? _)%nat eqn:Hn; [|discriminate].
    intros H; inversion H; subst x. apply Nat.ltb_lt in Hn.
    apply rate_in_percent; [apply filter_length_le | assumption].
  - intros a x. unfold SimulatorStats.winRate.
    destruct (0 <? _)%nat eqn:Hn; [|discriminate].
    intros H; inversion H; subst x. apply Nat.ltb_lt in Hn.
    apply rate_in_percent; [apply filter_length_le | assumption].
  - intros d e w Hd ts ts'. subst ts'.
    destruct (DashboardFacts.deposit_this d e w Hd) as (_ & _ & _ & _ & _ & _ & Htr).
    rewrite Htr. fold ts. unfold unshift, slice0. cbv zeta. cbn [List.length].
    destruct (100 <? S (List.length ts))%nat eqn:Hfull.
    + apply Nat.ltb_lt in Hfull. split; [|lia].
      change 100%nat with (S 99). rewrite firstn_cons.
      assert (Hw : forall l, DashboardStats.wins
                     ({| Dashboard.tx_id := clock e 2; Dashboard.tx_time := clock e 3;
                         Dashboard.tx_type := "deposit"; Dashboard.tx_amount := d;
                         Dashboard.tx_profit := None |} :: l)
                   = DashboardStats.wins l) by reflexivity.
      rewrite Hw. clear Hw.
      unfold DashboardStats.wins.
      rewrite <- (firstn_skipn 99 ts) at 2.
      rewrite filter_app, length_app. lia.
    + split; [reflexivity|]. intros _. split; reflexivity.
Qed.

Lemma win_rate_range_witness :
  DashboardStats.winRate
    (Dashboard.this (fst (Dashboard.deposit (Num 1) (steady 0 0) (Dashboard.fresh 0))))
  = Some 0.
Proof.
  assert (H : 0 < 1) by lra.
  destruct (proj2 (proj2 win_rate_range) 1 (steady 0 0) (Dashboard.fresh 0) H)
    as [_ Hroom].
  destruct (Hroom ltac:(cbn; lia)) as [Hw Hl].
  unfold DashboardStats.winRate. cbv zeta. rewrite Hw, Hl. cbn.
  f_equal. lra.
Defined.

(** * A deposit and the growth clock *)

Lemma Rpower_zero_exponent (x : R) : Rpower x 0 = 1.
Proof. unfold Rpower. rewrite Rmult_0_l. apply exp_0. Qed.

(** X8: a deposit restarts the growth clock.  A tick at the instant the
    deposit set [lastUpdate] to applies nothing, however long the time since
    the last applied tick had been: growth that was pending when the deposit
    came is never credited.  Both scripts. *)
Theorem deposit_restarts_growth (d : R) (e e' : env) :
  0 < d ->
  clock e' 0 = clock e 1 ->
  (forall w : Dashboard.World,
      Dashboard.updatePortfolio e' (fst (Dashboard.deposit (Num d) e w))
      = fst (Dashboard.deposit (Num d) e w)) /\
  (forall w : Simulator.World,
      Simulator.tick e' (fst (Simulator.handleDeposit (Num d) e w))
      = fst (Simulator.handleDeposit (Num d) e w)).
Proof.
  intros Hd Hclock. split; intros w.
  - apply DashboardFacts.updatePortfolio_idle. intros (_ & _ & Hg).
    destruct (DashboardFacts.deposit_this d e w Hd) as (_ & _ & Hbot & _).
    unfold Dashboard.growth, Dashboard.monthsElapsed, Math_pow in Hg.
    rewrite Hbot, Hclock in Hg. cbn [Dashboard.lastUpdate Dashboard.set_lastUpdate] in Hg.
    rewrite Z.sub_diag in Hg. unfold Rdiv in Hg.
    rewrite Rmult_0_l, Rpower_zero_exponent in Hg.
    unfold Dashboard.SATOSHI_THRESHOLD in Hg. lra.
  - apply SimulatorFacts.tick_idle. intros Happ.
    destruct (SimulatorFacts.applies_growth _ _ Happ) as [Hg Hgt].
    destruct (SimulatorFacts.handleDeposit_this d e w Hd) as (_ & _ & Hlast & _).
    unfold Simulator.growth_value, Simulator.growth, Simulator.monthsElapsed in Hgt.
    rewrite Hlast, Hclock in Hgt. cbn in Hgt.
    unfold Math_pow in Hgt.
    replace ((IZR (clock e 1) - IZR (clock e 1)) / (1000 * 60 * 60 * 24 * 30))
      with 0 in Hgt by (unfold Rdiv; lra).
    rewrite Rpower_zero_exponent in Hgt. lra.
Qed.

Lemma deposit_restarts_growth_witness :
  0 < 1 /\
  clock (steady 7 0) 0 = clock (steady 7 0) 1 /\
  Dashboard.updatePortfolio (steady 7 0)
    (fst (Dashboard.deposit (Num 1) (steady 7 0) (Dashboard.funded 1 0)))
  = fst (Dashboard.deposit (Num 1) (steady 7 0) (Dashboard.funded 1 0)).
Proof.
  assert (H : 0 < 1) by lra.
  split; [exact H|]. split; [reflexivity|].
  exact (proj1 (deposit_restarts_growth 1 (steady 7 0) (steady 7 0) H eq_refl)
           (Dashboard.funded 1 0)).
Defined.

(** * The history in time *)

Section TimedLogs.
Context {A : Type}.
Variable f : A -> Z.

Lemma timed_push (l : list A) (y : A) :
  StronglySorted Z.le (map f l) ->
  Forall (fun x => (f x <= f y)%Z) l ->
  StronglySorted Z.le (map f (push l y)).
Proof.
  unfold push. induction l as [|x l IH]; intros Hs Hall; cbn.
  - constructor; constructor.
  - cbn in Hs. apply StronglySorted_inv in Hs as [Hs' Hx].
    apply Forall_cons_iff in Hall as [Hxy Hall'].
    constructor; [now apply IH|].
    rewrite map_app. apply Forall_app. split; [assumption|].
    cbn. constructor; [exact Hxy | constructor].
Qed.

Lemma timed_shift (l : list A) :
  StronglySorted Z.le (map f l) -> StronglySorted Z.le (map f (shift l)).
Proof.
  unfold shift. destruct l as [|x l]; cbn; [auto|].
  intros Hs. now apply StronglySorted_inv in Hs.
Qed.

End TimedLogs.

Lemma dashboard_step_times (w : Dashboard.World) (o : Dashboard.op) (m : Z) :
  let h := Dashboard.history (Dashboard.portfolio (Dashboard.this w)) in
  let h' := Dashboard.history (Dashboard.portfolio (Dashboard.this (Dashboard.step w o))) in
  (m <= dashboard_op_time o)%Z ->
  Forall (fun pt => (time pt <= m)%Z) h ->
  StronglySorted Z.le (map time h) ->
  StronglySorted Z.le (map time h') /\
  Forall (fun pt => (time pt <= dashboard_op_time o)%Z) h'.
Proof.
  intros h h' Hm Hall Hs. subst h'.
  assert (Hall' : Forall (fun pt => (time pt <= dashboard_op_time o)%Z) h).
  { eapply Forall_impl; [|exact Hall]. cbn. intros pt Hpt. lia. }
  destruct o as [[|d] e | e]; cbn [Dashboard.step dashboard_op_time] in *.
  - cbn. now split.
  - destruct (Rle_dec d 0) as [Hle|Hgt].
    + unfold Dashboard.deposit. destruct (Rle_dec d 0); [|lra]. cbn. now split.
    + assert (Hd : 0 < d) by lra.
      destruct (DashboardFacts.deposit_this d e w Hd) as (_ & _ & _ & _ & _ & Hhis & _).
      rewrite Hhis. destruct (Req_dec_T _ 0); [|now split].
      split; [cbn; constructor; constructor|].
      constructor; [cbn; lia | constructor].
  - destruct (DashboardFacts.applies_dec e w) as [Happ|Hidle].
    + destruct (DashboardFacts.updatePortfolio_this e w Happ)
        as (_ & _ & _ & _ & _ & Hhis & _).
      rewrite Hhis. cbv zeta. fold h.
      assert (Hs' : StronglySorted Z.le
                      (map time (push h {| time := clock e 0;
                                           value := Dashboard.btcBalance
                                                      (Dashboard.portfolio (Dashboard.this w))
                                                    + Dashboard.growth (Dashboard.this w)
                                                        (clock e 0) |})))
        by (apply timed_push; assumption).
      assert (Hp : Forall (fun pt => (time pt <= clock e 0)%Z)
                     (push h {| time := clock e 0;
                                value := Dashboard.btcBalance
                                           (Dashboard.portfolio (Dashboard.this w))
                                         + Dashboard.growth (Dashboard.this w)
                                             (clock e 0) |}))
        by (apply Forall_push; [assumption | cbn; lia]).
      destruct (100 <? _)%nat;
        split; solve [assumption | now apply timed_shift | now apply Forall_shift].
    + rewrite DashboardFacts.updatePortfolio_idle by assumption. now split.
Qed.

Lemma simulator_step_times (w : Simulator.World) (o : Simulator.op) (m : Z) :
  let h := Simulator.history (Simulator.portfolio (Simulator.this w)) in
  let h' := Simulator.history (Simulator.portfolio (Simulator.this (Simulator.step w o))) in
  (m <= simulator_op_time o)%Z ->
  Forall (fun pt => (time pt <= m)%Z) h ->
  StronglySorted Z.le (map time h) ->
  StronglySorted Z.le (map time h') /\
  Forall (fun pt => (time pt <= simulator_op_time o)%Z) h'.
Proof.
  intros h h' Hm Hall Hs. subst h'.
  assert (Hall' : Forall (fun pt => (time pt <= simulator_op_time o)%Z) h).
  { eapply Forall_impl; [|exact Hall]. cbn. intros pt Hpt. lia. }
  destruct o as [[|d] e | e]; cbn [Simulator.step simulator_op_time] in *.
  - cbn. now split.
  - destruct (Rle_dec d 0) as [Hle|Hgt].
    + unfold Simulator.handleDeposit. destruct (Rle_dec d 0); [|lra]. cbn. now split.
    + assert (Hd : 0 < d) by lra.
      destruct (SimulatorFacts.handleDeposit_this d e w Hd)
        as (_ & _ & _ & _ & _ & Hhis & _).
      rewrite Hhis. destruct (Req_dec_T _ 0); [|now split].
      split; [cbn; constructor; constructor|].
      constructor; [cbn; lia | constructor].
  - destruct (SimulatorFacts.sim_applies_dec e w) as [Happ|Hidle].
    + destruct (SimulatorFacts.tick_this e w Happ) as (_ & _ & _ & _ & Hhis & _).
      rewrite Hhis. cbv zeta. fold h.
      assert (Hs' : StronglySorted Z.le
                      (map time (push h {| time := clock e 0;
                                           value := Simulator.current
                                                      (Simulator.portfolio (Simulator.this w))
                                                    + Simulator.growth_value
                                                        (Simulator.this w) (clock e 0) |})))
        by (apply timed_push; assumption).
      assert (Hp : Forall (fun pt => (time pt <= clock e 0)%Z)
                     (push h {| time := clock e 0;
                                value := Simulator.current
                                           (Simulator.portfolio (Simulator.this w))
                                         + Simulator.growth_value
                                             (Simulator.this w) (clock e 0) |}))
        by (apply Forall_push; [assumption | cbn; lia]).
      destruct (100 <? _)%nat;
        split; solve [assumption | now apply timed_shift | now apply Forall_shift].
    + rewrite SimulatorFacts.tick_idle by assumption. now split.
Qed.

Lemma dashboard_run_times (ops : list Dashboard.op) (w : Dashboard.World) (m : Z) :
  Forall (fun o => (m <= dashboard_op_time o)%Z) ops ->
  StronglySorted Z.le (map dashboard_op_time ops) ->
  Forall (fun pt => (time pt <= m)%Z)
         (Dashboard.history (Dashboard.portfolio (Dashboard.this w))) ->
  StronglySorted Z.le
    (map time (Dashboard.history (Dashboard.portfolio (Dashboard.this w)))) ->
  StronglySorted Z.le
    (map time (Dashboard.history
                 (Dashboard.portfolio (Dashboard.this (Dashboard.run ops w))))).
Proof.
  revert w m. induction ops as [|o ops IH]; intros w m Hlow Hops Hall Hs; cbn;
    [assumption|].
  apply Forall_cons_iff in Hlow as [Hm Hlow].
  cbn in Hops. apply StronglySorted_inv in Hops as [Hops Hhd].
  destruct (dashboard_step_times w o m Hm Hall Hs) as [Hs' Hall'].
  apply (IH _ (dashboard_op_time o)); try assumption.
  now rewrite Forall_map in Hhd.
Qed.

Lemma simulator_run_times (ops : list Simulator.op) (w : Simulator.World) (m : Z) :
  Forall (fun o => (m <= simulator_op_time o)%Z) ops ->
  StronglySorted Z.le (map simulator_op_time ops) ->
  Forall (fun pt => (time pt <= m)%Z)
         (Simulator.history (Simulator.portfolio (Simulator.this w))) ->
  StronglySorted Z.le
    (map time (Simulator.history (Simulator.portfolio (Simulator.this w)))) ->
  StronglySorted Z.le
    (map time (Simulator.history
                 (Simulator.portfolio (Simulator.this (Simulator.run ops w))))).
Proof.
  revert w m. induction ops as [|o ops IH]; intros w m Hlow Hops Hall Hs; cbn;
    [assumption|].
  apply Forall_cons_iff in Hlow as [Hm Hlow].
  cbn in Hops. apply StronglySorted_inv in Hops as [Hops Hhd].
  destruct (simulator_step_times w o m Hm Hall Hs) as [Hs' Hall'].
  apply (IH _ (simulator_op_time o)); try assumption.
  now rewrite Forall_map in Hhd.
Qed.

(** X9: when the clock does not run backwards from one operation to the
    next, the history of every state reached from the empty one by deposits
    and ticks is in time order.  Both scripts. *)
Theorem history_in_time_order :
  (forall (ops : list Dashboard.op) (t0 : Z),
      StronglySorted Z.le (map dashboard_op_time ops) ->
      StronglySorted Z.le
        (map time (Dashboard.history (Dashboard.portfolio
           (Dashboard.this (Dashboard.run ops (Dashboard.fresh t0))))))) /\
  (forall (ops : list Simulator.op) (t0 : Z),
      StronglySorted Z.le (map simulator_op_time ops) ->
      StronglySorted Z.le
        (map time (Simulator.history (Simulator.portfolio
           (Simulator.this (Simulator.run ops (Simulator.fresh t0))))))).
Proof.
  split; intros ops t0 Hops.
  - destruct ops as [|o ops]; [cbn; constructor|].
    apply (dashboard_run_times (o :: ops) _ (dashboard_op_time o));
      [|assumption | cbn; constructor | cbn; constructor].
    cbn in Hops. apply StronglySorted_inv in Hops as [_ Hhd].
    rewrite Forall_map in Hhd. constructor; [lia | assumption].
  - destruct ops as [|o ops]; [cbn; constructor|].
    apply (simulator_run_times (o :: ops) _ (simulator_op_time o));
      [|assumption | cbn; constructor | cbn; constructor].
    cbn in Hops. apply StronglySorted_inv in Hops as [_ Hhd].
    rewrite Forall_map in Hhd. constructor; [lia | assumption].
Qed.

Lemma history_in_time_order_witness :
  StronglySorted Z.le
    (map dashboard_op_time [Dashboard.Deposit (Num 1) (steady 0 0);
                            Dashboard.Tick (steady 2629746000 0)]) /\
  StronglySorted Z.le
    (map time (Dashboard.history (Dashboard.portfolio
       (Dashboard.this
          (Dashboard.run [Dashboard.Deposit (Num 1) (steady 0 0);
                          Dashboard.Tick (steady 2629746000 0)]
                         (Dashboard.fresh 0)))))).
Proof.
  assert (H : StronglySorted Z.le
                (map dashboard_op_time [Dashboard.Deposit (Num 1) (steady 0 0);
                                        Dashboard.Tick (steady 2629746000 0)])).
  { cbn. repeat constructor; lia. }
  split; [exact H|].
  exact (proj1 history_in_time_order _ 0%Z H).
Defined.

(** * Clearing the store, changing the currency *)

(** X10: [clearStorage] with a usable store removes the three keys and
    resets the memory to the initial object, so that a reload finds nothing
    and a tick does nothing.  With a store that cannot be accessed the
    removal throws first: the failure is logged and the memory is not reset
    at all. *)
Theorem clear_storage_resets :
  (forall (e : env) (w : Dashboard.World),
      Dashboard.available (Dashboard.localStorage w) = true ->
      DashboardApp.clearStorage e w
      = {| Dashboard.this := Dashboard.initial (clock e 0);
           Dashboard.localStorage := Dashboard.empty_storage;
           Dashboard.console := Dashboard.console w |}) /\
  (forall (e e' : env) (w : Dashboard.World) (t1 : Z),
      Dashboard.available (Dashboard.localStorage w) = true ->
      Dashboard.this (Dashboard.reload t1 (DashboardApp.clearStorage e w))
      = Dashboard.initial t1 /\
      Dashboard.updatePortfolio e' (DashboardApp.clearStorage e w)
      = DashboardApp.clearStorage e w) /\
  (forall (e : env) (w : Dashboard.World),
      Dashboard.available (Dashboard.localStorage w) = false ->
      DashboardApp.clearStorage e w
      = Dashboard.console_error "Failed to clear localStorage:" w).
Proof.
  assert (Hclear : forall (e : env) (w : Dashboard.World),
             Dashboard.available (Dashboard.localStorage w) = true ->
             DashboardApp.clearStorage e w
             = {| Dashboard.this := Dashboard.initial (clock e 0);
                  Dashboard.localStorage := Dashboard.empty_storage;
                  Dashboard.console := Dashboard.console w |}).
  { intros e w Hav. destruct w as [a [av sp sb sc] con]. cbn in Hav. subst av.
    reflexivity. }
  split; [exact Hclear|]. split.
  - intros e e' w t1 Hav. rewrite (Hclear e w Hav). split; [reflexivity|].
    apply DashboardFacts.updatePortfolio_idle. intros (Hact & _). discriminate.
  - intros e w Hav. destruct w as [a [av sp sb sc] con]. cbn in Hav. subst av.
    reflexivity.
Qed.

Lemma clear_storage_resets_witness :
  Dashboard.available (Dashboard.localStorage (Dashboard.funded 1 0)) = true /\
  DashboardApp.clearStorage (steady 9 0) (Dashboard.funded 1 0) = Dashboard.fresh 9.
Proof.
  split; [reflexivity|].
  exact (proj1 clear_storage_resets (steady 9 0) (Dashboard.funded 1 0) eq_refl).
Defined.

(** X11: [setCurrency] never touches the portfolio or the bot, and asked
    for the currency already selected it does nothing, not even a write.
    Otherwise, with a usable store, it selects the new currency and writes it
    to the store, and a reload selects it again provided it is not the empty
    string; an empty currency is written but not read back, the reloaded
    page showing ['BTC']. *)
Theorem set_currency_persists :
  (forall (c : string) (w : Dashboard.World),
      Dashboard.portfolio (Dashboard.this (DashboardApp.setCurrency c w))
      = Dashboard.portfolio (Dashboard.this w) /\
      Dashboard.bot (Dashboard.this (DashboardApp.setCurrency c w))
      = Dashboard.bot (Dashboard.this w) /\
      DashboardApp.setCurrency c (DashboardApp.setCurrency c w)
      = DashboardApp.setCurrency c w) /\
  (forall w : Dashboard.World,
      DashboardApp.setCurrency (Dashboard.currency (Dashboard.this w)) w = w) /\
  (forall (c : string) (w : Dashboard.World) (t1 : Z),
      Dashboard.available (Dashboard.localStorage w) = true ->
      c <> Dashboard.currency (Dashboard.this w) ->
      let w' := DashboardApp.setCurrency c w in
      Dashboard.currency (Dashboard.this w') = c /\
      Dashboard.anomcat_currency (Dashboard.localStorage w') = Some c /\
      (c <> ""%string ->
       Dashboard.currency (Dashboard.this (Dashboard.reload t1 w')) = c) /\
      (c = ""%string ->
       Dashboard.currency (Dashboard.this (Dashboard.reload t1 w')) = "BTC"%string)).
Proof.
  assert (Hcur : forall c w,
             Dashboard.currency (Dashboard.this (DashboardApp.setCurrency c w)) = c).
  { intros c w. unfold DashboardApp.setCurrency.
    destruct (String.eqb c _) eqn:Heq.
    - apply String.eqb_eq in Heq. now symmetry.
    - now rewrite DashboardFacts.saveToStorage_this. }
  split; [|split].
  - intros c w. split; [|split].
    + unfold DashboardApp.setCurrency. destruct (String.eqb c _); [reflexivity|].
      now rewrite DashboardFacts.saveToStorage_this.
    + unfold DashboardApp.setCurrency. destruct (String.eqb c _); [reflexivity|].
      now rewrite DashboardFacts.saveToStorage_this.
    + unfold DashboardApp.setCurrency at 1. now rewrite Hcur, String.eqb_refl.
  - intros w. unfold DashboardApp.setCurrency. now rewrite String.eqb_refl.
  - intros c w t1 Hav Hne w'. subst w'.
    split; [apply Hcur|].
    assert (Hsync : Dashboard.localStorage (DashboardApp.setCurrency c w)
                    = dashboard_written (Dashboard.this (DashboardApp.setCurrency c w))).
    { unfold DashboardApp.setCurrency.
      destruct (String.eqb c _) eqn:Heq; [apply String.eqb_eq in Heq; congruence|].
      apply dashboard_save_written. exact Hav. }
    split; [|split].
    + rewrite Hsync. cbn. now rewrite Hcur.
    + intros Hc. unfold Dashboard.reload. rewrite Hsync.
      rewrite dashboard_load_written; [apply Hcur | now rewrite Hcur].
    + intros Hc. unfold Dashboard.reload. rewrite Hsync.
      pose proof (Hcur c w) as Hcw.
      destruct (Dashboard.this (DashboardApp.setCurrency c w)) as [c' p b].
      cbn in Hcw. subst c' c. reflexivity.
Qed.

Lemma set_currency_persists_witness :
  Dashboard.available (Dashboard.localStorage (Dashboard.funded 1 0)) = true /\
  "EUR"%string <> Dashboard.currency (Dashboard.this (Dashboard.funded 1 0)) /\
  Dashboard.currency
    (Dashboard.this (Dashboard.reload 3 (DashboardApp.setCurrency "EUR" (Dashboard.funded 1 0))))
  = "EUR"%string.
Proof.
  assert (Hne : "EUR"%string <> Dashboard.currency (Dashboard.this (Dashboard.funded 1 0)))
    by (cbn; discriminate).
  split; [reflexivity|]. split; [exact Hne|].
  destruct (proj2 (proj2 set_currency_persists) "EUR"%string (Dashboard.funded 1 0) 3%Z
              eq_refl Hne) as (_ & _ & Hre & _).
  exact (Hre ltac:(discriminate)).
Defined.

(** X12: the two amounts shown side by side are in different units exactly
    when the currency is ['BTC'] or ['EUR']; with any other currency, which a
    load can install, both show the same BTC text and the EUR amount is not
    shown.  In EUR the amount is the BTC amount times 45000, and what is not
    a number is shown as 0. *)
Theorem currencies_side_by_side (a : Dashboard.AnomCAT) (btcValue : jsnum) :
  (DashboardApp.formatCurrency a btcValue
   = DashboardApp.formatSecondaryCurrency a btcValue
   <-> Dashboard.currency a <> "BTC"%string /\ Dashboard.currency a <> "EUR"%string) /\
  (Dashboard.currency a = "BTC"%string ->
   DashboardApp.formatCurrency a btcValue
   = DashboardApp.BTC_text (DashboardApp.or_zero btcValue) /\
   DashboardApp.formatSecondaryCurrency a btcValue
   = DashboardApp.EUR_text (DashboardApp.or_zero btcValue * 45000)) /\
  (Dashboard.currency a = "EUR"%string ->
   DashboardApp.formatCurrency a btcValue
   = DashboardApp.EUR_text (DashboardApp.or_zero btcValue * 45000) /\
   DashboardApp.formatSecondaryCurrency a btcValue
   = DashboardApp.BTC_text (DashboardApp.or_zero btcValue)).
Proof.
  assert (Heur : DashboardApp.or_zero (jsmul btcValue (Num Dashboard.DEFAULT_BTC_EUR_RATE))
                 = DashboardApp.or_zero btcValue * 45000).
  { destruct btcValue; cbn; unfold Dashboard.DEFAULT_BTC_EUR_RATE; lra. }
  unfold DashboardApp.formatCurrency, DashboardApp.formatSecondaryCurrency,
    DashboardApp.formatBTC, DashboardApp.formatEUR.
  rewrite Heur.
  split; [|split].
  - destruct (String.eqb (Dashboard.currency a) "EUR") eqn:He;
      destruct (String.eqb (Dashboard.currency a) "BTC") eqn:Hb.
    + apply String.eqb_eq in He, Hb. congruence.
    + apply String.eqb_eq in He. split; [discriminate | tauto].
    + apply String.eqb_eq in Hb. split; [discriminate | tauto].
    + apply String.eqb_neq in He, Hb. tauto.
  - intros ->. now cbn.
  - intros ->. now cbn.
Qed.

Lemma currencies_side_by_side_witness :
  DashboardApp.formatSecondaryCurrency (Dashboard.initial 0) (Num 2)
  = DashboardApp.EUR_text (2 * 45000).
Proof.
  exact (proj2 (proj1 (proj2 (currencies_side_by_side (Dashboard.initial 0) (Num 2)))
                  eq_refl)).
Defined.

(** * Pages and the interval *)

Lemma split_segment (file : string) :
  has_slash file = false -> DashboardApp.split_slash file = [file].
Proof.
  induction file as [|c file IH]; cbn; [reflexivity|].
  destruct (Ascii.eqb c "/"); cbn; [discriminate|].
  intros H. now rewrite (IH H).
Qed.

Lemma split_last (dir file : string) :
  has_slash file = false ->
  exists seg segs,
    DashboardApp.split_slash (dir ++ String "/" file) = seg :: segs /\
    segs <> [] /\ last segs EmptyString = file.
Proof.
  intros Hfile. induction dir as [|c dir (seg & segs & Heq & Hne & Hlast)].
  - cbn. exists EmptyString, [file].
    rewrite (split_segment file Hfile). repeat split; congruence.
  - cbn [append DashboardApp.split_slash]. rewrite Heq.
    destruct (Ascii.eqb c "/").
    + exists EmptyString, (seg :: segs). split; [reflexivity|].
      split; [discriminate|].
      destruct segs as [|s segs']; [congruence|]. exact Hlast.
    + exists (String c seg), segs. repeat split; assumption.
Qed.

(** X13: whether a page is an authenticated one depends on the last segment
    of the path alone, compared letter for letter: a path that ends in a
    slash, and the pages [login.html], [register.html] and [index.html] in
    any directory, are not; every other file name is. *)
Theorem authenticated_by_file_name (dir file : string) :
  has_slash file = false ->
  DashboardApp.isAuthenticatedPage (dir ++ String "/" file)
  = negb (DashboardApp.includes
            [""; "login.html"; "register.html"; "index.html"]%string file).
Proof.
  intros Hfile.
  destruct (split_last dir file Hfile) as (seg & segs & Heq & Hne & Hlast).
  unfold DashboardApp.isAuthenticatedPage, DashboardApp.currentPage. rewrite Heq.
  destruct segs as [|s segs']; [congruence|].
  change (last (seg :: s :: segs') EmptyString) with (last (s :: segs') EmptyString).
  rewrite Hlast. destruct file as [|c file']; [reflexivity|].
  unfold DashboardApp.includes, DashboardApp.authPages.
  cbn [existsb]. now rewrite (String.eqb_sym _ ""%string).
Qed.

Lemma authenticated_by_file_name_witness :
  DashboardApp.isAuthenticatedPage "/app/Login.html" = true /\
  DashboardApp.isAuthenticatedPage "/app/login.html" = false /\
  DashboardApp.isAuthenticatedPage "/app/" = false.
Proof.
  split; [|split].
  - exact (authenticated_by_file_name "/app" "Login.html" eq_refl).
  - exact (authenticated_by_file_name "/app" "login.html" eq_refl).
  - exact (authenticated_by_file_name "/app" "" eq_refl).
Defined.

Lemma start_tracked (pg : DashboardApp.Page) :
  tracked pg ->
  tracked (DashboardApp.startPortfolioUpdates pg) /\
  DashboardApp.timers (DashboardApp.startPortfolioUpdates pg)
  = [DashboardApp.next_timer pg] /\
  DashboardApp.world (DashboardApp.startPortfolioUpdates pg) = DashboardApp.world pg.
Proof.
  unfold tracked, DashboardApp.startPortfolioUpdates.
  destruct pg as [w [id|] ts nx]; cbn; intros ->; cbn.
  - rewrite Pos.eqb_refl. cbn. auto.
  - auto.
Qed.

(** X14: [init] sets the 5 second interval on authenticated pages only, and
    however often [startPortfolioUpdates] is called on a page that keeps
    track of its interval, exactly one interval is left running, the one the
    page remembers: the portfolio is never ticked twice per period. *)
Theorem one_interval_at_most :
  (forall (pathname : string) (w : Dashboard.World),
      let pg := DashboardApp.init pathname (DashboardApp.opened_page w) in
      DashboardApp.world pg = Dashboard.loadFromStorage w /\
      DashboardApp.timers pg
      = (if DashboardApp.isAuthenticatedPage pathname then [1%positive] else []) /\
      tracked pg) /\
  (forall (n : nat) (pg : DashboardApp.Page),
      tracked pg ->
      let pg' := Nat.iter (S n) DashboardApp.startPortfolioUpdates pg in
      exists id, DashboardApp.timers pg' = [id] /\
                 DashboardApp.intervals_portfolio pg' = Some id /\
                 DashboardApp.world pg' = DashboardApp.world pg).
Proof.
  split.
  - intros pathname w pg. subst pg. unfold DashboardApp.init.
    destruct (DashboardApp.isAuthenticatedPage pathname); cbn;
      repeat split; reflexivity.
  - induction n as [|n IH]; intros pg Htr pg'; subst pg'.
    + change (Nat.iter 1 DashboardApp.startPortfolioUpdates pg)
        with (DashboardApp.startPortfolioUpdates pg).
      destruct (start_tracked pg Htr) as (Htr' & Hts & Hw).
      exists (DashboardApp.next_timer pg). split; [exact Hts|]. split; [|exact Hw].
      unfold tracked in Htr'. rewrite Hts in Htr'.
      destruct (DashboardApp.intervals_portfolio
                  (DashboardApp.startPortfolioUpdates pg)); congruence.
    + change (Nat.iter (S (S n)) DashboardApp.startPortfolioUpdates pg)
        with (DashboardApp.startPortfolioUpdates
                (Nat.iter (S n) DashboardApp.startPortfolioUpdates pg)).
      destruct (IH pg Htr) as (id & Hts & Hiv & Hw).
      set (q := Nat.iter (S n) DashboardApp.startPortfolioUpdates pg) in *.
      assert (Hq : tracked q) by (unfold tracked; now rewrite Hts, Hiv).
      destruct (start_tracked q Hq) as (Htr' & Hts' & Hw').
      exists (DashboardApp.next_timer q). split; [exact Hts'|].
      split; [|congruence].
      unfold tracked in Htr'. rewrite Hts' in Htr'.
      destruct (DashboardApp.intervals_portfolio
                  (DashboardApp.startPortfolioUpdates q)); congruence.
Qed.

Lemma one_interval_at_most_witness :
  tracked (DashboardApp.opened_page (Dashboard.fresh 0)) /\
  exists id,
    DashboardApp.timers
      (Nat.iter 3 DashboardApp.startPortfolioUpdates
                (DashboardApp.opened_page (Dashboard.fresh 0))) = [id].
Proof.
  assert (H : tracked (DashboardApp.opened_page (Dashboard.fresh 0))) by reflexivity.
  split; [exact H|].
  destruct (proj2 one_interval_at_most 2%nat _ H) as (id & Hts & _).
  exists id. exact Hts.
Defined.

(** * Relative time *)

(** X15: [formatRelativeTime] reads the age of a timestamp in whole
    minutes, hours or days, rounded down: under a minute, a timestamp in the
    future included, it says 'Just now'; then 1 to 59 minutes, 1 to 23 hours,
    1 to 6 days; from 7 days on it gives the date. *)
Theorem relative_time_ranges (now timestamp : Z) :
  let age := (now - timestamp)%Z in
  let shown := DashboardApp.formatRelativeTime now timestamp in
  ((age < 60000)%Z -> shown = DashboardApp.Text "Just now") /\
  ((60000 <= age < 3600000)%Z ->
   (1 <= age / 60000 <= 59)%Z /\
   shown = DashboardApp.Text (NumberText.Number_toString (age / 60000) ++ "m ago")) /\
  ((3600000 <= age < 86400000)%Z ->
   (1 <= age / 3600000 <= 23)%Z /\
   shown = DashboardApp.Text (NumberText.Number_toString (age / 3600000) ++ "h ago")) /\
  ((86400000 <= age < 604800000)%Z ->
   (1 <= age / 86400000 <= 6)%Z /\
   shown = DashboardApp.Text (NumberText.Number_toString (age / 86400000) ++ "d ago")) /\
  ((604800000 <= age)%Z -> shown = DashboardApp.Date timestamp).
Proof.
  intros age shown. subst shown. unfold DashboardApp.formatRelativeTime. fold age.
  cbv zeta.
  split; [|split; [|split; [|split]]]; intros Hage.
  - rewrite (proj2 (Z.ltb_lt (age / 60000) 1))
      by (Z.to_euclidean_division_equations; lia).
    reflexivity.
  - assert (Hm : (1 <= age / 60000 <= 59)%Z)
      by (Z.to_euclidean_division_equations; lia).
    split; [exact Hm|].
    rewrite (proj2 (Z.ltb_ge (age / 60000) 1)) by lia.
    rewrite (proj2 (Z.ltb_lt (age / 60000) 60)) by lia.
    reflexivity.
  - assert (Hm : (60 <= age / 60000)%Z)
      by (Z.to_euclidean_division_equations; lia).
    assert (Hh : (1 <= age / 3600000 <= 23)%Z)
      by (Z.to_euclidean_division_equations; lia).
    split; [exact Hh|].
    rewrite (proj2 (Z.ltb_ge (age / 60000) 1)) by lia.
    rewrite (proj2 (Z.ltb_ge (age / 60000) 60)) by lia.
    rewrite (proj2 (Z.ltb_lt (age / 3600000) 24)) by lia.
    reflexivity.
  - assert (Hm : (60 <= age / 60000)%Z)
      by (Z.to_euclidean_division_equations; lia).
    assert (Hh : (24 <= age / 3600000)%Z)
      by (Z.to_euclidean_division_equations; lia).
    assert (Hd : (1 <= age / 86400000 <= 6)%Z)
      by (Z.to_euclidean_division_equations; lia).
    split; [exact Hd|].
    rewrite (proj2 (Z.ltb_ge (age / 60000) 1)) by lia.
    rewrite (proj2 (Z.ltb_ge (age / 60000) 60)) by lia.
    rewrite (proj2 (Z.ltb_ge (age / 3600000) 24)) by lia.
    rewrite (proj2 (Z.ltb_lt (age / 86400000) 7)) by lia.
    reflexivity.
  - assert (Hm : (60 <= age / 60000)%Z)
      by (Z.to_euclidean_division_equations; lia).
    assert (Hh : (24 <= age / 3600000)%Z)
      by (Z.to_euclidean_division_equations; lia).
    assert (Hd : (7 <= age / 86400000)%Z)
      by (Z.to_euclidean_division_equations; lia).
    rewrite (proj2 (Z.ltb_ge (age / 60000) 1)) by lia.
    rewrite (proj2 (Z.ltb_ge (age / 60000) 60)) by lia.
    rewrite (proj2 (Z.ltb_ge (age / 3600000) 24)) by lia.
    rewrite (proj2 (Z.ltb_ge (age / 86400000) 7)) by lia.
    reflexivity.
Qed.

Lemma relative_time_ranges_witness :
  (60000 <= 150000 - 0 < 3600000)%Z /\
  DashboardApp.formatRelativeTime 150000 0 = DashboardApp.Text "2m ago".
Proof.
  assert (H : (60000 <= 150000 - 0 < 3600000)%Z) by lia.
  split; [exact H|].
  exact (proj2 (proj1 (proj2 (relative_time_ranges 150000 0)) H)).
Defined.

(** * Chart data *)

Lemma last_of_map {A B : Type} (f : A -> B) (l : list A) (d : A) :
  last (map f l) (f d) = f (last l d).
Proof.
  induction l as [|x l IH]; [reflexivity|].
  destruct l as [|y l]; [reflexivity|]. exact IH.
Qed.

Lemma fallback_length (a : Dashboard.AnomCAT) (e : env) (now : Z)
      (n : nat) (i : Z) (k : nat) (v : R) :
  List.length (DashboardApp.fallback_points a e now n i k v) = n.
Proof.
  revert i k v. induction n as [|n IH]; intros i k v; cbn; [reflexivity|].
  now rewrite IH.
Qed.

Lemma fallback_times (a : Dashboard.AnomCAT) (e : env) (now : Z)
      (n : nat) (i : Z) (k : nat) (v : R) :
  map time (DashboardApp.fallback_points a e now n i k v)
  = map (fun j => (now - (i - Z.of_nat j) * 86400000)%Z) (seq 0 n).
Proof.
  revert i k v. induction n as [|n IH]; intros i k v; [reflexivity|].
  cbn [DashboardApp.fallback_points map seq]. rewrite IH. f_equal; [cbn; lia|].
  rewrite <- seq_shift, map_map. apply map_ext. intros j. lia.
Qed.

(** With draws in [0, 1) and a rate that is not negative, each step of the
    fallback loop multiplies the running value by at least 1. *)
Lemma fallback_values (a : Dashboard.AnomCAT) (e : env) (now : Z)
      (n : nat) (i : Z) (k : nat) (v : R) :
  (forall j, 0 <= random e j < 1) ->
  0 <= Dashboard.monthlyReturn (Dashboard.bot a) ->
  0 <= v ->
  let scale x := if String.eqb (Dashboard.currency a) "EUR"
                 then x * Dashboard.DEFAULT_BTC_EUR_RATE else x in
  StronglySorted Rle (map value (DashboardApp.fallback_points a e now n i k v)) /\
  Forall (fun pt => scale v <= value pt) (DashboardApp.fallback_points a e now n i k v).
Proof.
  intros Hrnd Hrate Hv scale. revert i k v Hv.
  assert (Hscale : forall x y, x <= y -> scale x <= scale y).
  { intros x y Hxy. unfold scale, Dashboard.DEFAULT_BTC_EUR_RATE.
    destruct (String.eqb _ _); lra. }
  induction n as [|n IH]; intros i k v Hv; cbn; [split; constructor|].
  set (v' := v * (1 + Dashboard.monthlyReturn (Dashboard.bot a) / 30
                  + (random e k - 0.5)
                    * (Dashboard.monthlyReturn (Dashboard.bot a) / 30) * 0.5)).
  assert (Hstep : v <= v').
  { subst v'. pose proof (Hrnd k) as Hk.
    set (dr := Dashboard.monthlyReturn (Dashboard.bot a) / 30).
    assert (Hdr : 0 <= dr) by (subst dr; lra).
    assert (Hf : 1 <= 1 + dr + (random e k - 0.5) * dr * 0.5) by nra.
    nra. }
  assert (Hv' : 0 <= v') by lra.
  destruct (IH (i - 1)%Z (S k) v' Hv') as [Hs Hall].
  fold scale. split.
  - constructor; [exact Hs|].
    rewrite Forall_map. eapply Forall_impl; [|exact Hall].
    cbn. intros pt Hpt. exact Hpt.
  - constructor; [cbn; now apply Hscale|].
    eapply Forall_impl; [|exact Hall]. cbn. intros pt Hpt.
    pose proof (Hscale _ _ Hstep). lra.
Qed.

(** X16: [generateChartData] for a number of days that is not negative
    never returns an empty chart.  When no default data is loaded and the
    history has at most one point, it returns [days + 1] points one day
    apart, the last one at the present instant. *)
Theorem chart_data_shape (days : Z) (e : env) (a : Dashboard.AnomCAT) :
  (0 <= days)%Z ->
  (forall defaultData,
      DashboardApp.generateChartData defaultData days e a <> []) /\
  ((List.length (Dashboard.history (Dashboard.portfolio a)) <= 1)%nat ->
   let chart := DashboardApp.generateChartData None days e a in
   List.length chart = Z.to_nat (days + 1) /\
   map time chart
   = map (fun j => (clock e 0 - (days - Z.of_nat j) * 86400000)%Z)
         (seq 0 (Z.to_nat (days + 1))) /\
   time (last chart {| time := 0; value := 0 |}) = clock e 0).
Proof.
  intros Hdays. split.
  - intros defaultData. unfold DashboardApp.generateChartData.
    assert (Hrest :
              (if (1 <? List.length (Dashboard.history (Dashboard.portfolio a)))%nat
               then map (fun pt =>
                           {| time := time pt;
                              value := if String.eqb (Dashboard.currency a) "EUR"
                                       then value pt * Dashboard.DEFAULT_BTC_EUR_RATE
                                       else value pt |})
                        (Dashboard.history (Dashboard.portfolio a))
               else DashboardApp.fallback_points a e (clock e 0)
                      (Z.to_nat (days + 1)) days 0
                      (if Req_dec_T (Dashboard.initialBtc (Dashboard.portfolio a)) 0
                       then 1 else Dashboard.initialBtc (Dashboard.portfolio a)))
              <> []).
    { destruct (1 <? _)%nat eqn:Hlen.
      - apply Nat.ltb_lt in Hlen. intros Hnil.
        apply (f_equal (@List.length point)) in Hnil.
        rewrite length_map in Hnil. cbn in Hnil. lia.
      - intros Hnil. apply (f_equal (@List.length point)) in Hnil.
        rewrite fallback_length in Hnil. cbn in Hnil. lia. }
    destruct defaultData as [[|pt pts]|]; [exact Hrest | discriminate | exact Hrest].
  - intros Hlen chart. subst chart. unfold DashboardApp.generateChartData.
    rewrite (proj2 (Nat.ltb_ge _ _) Hlen). cbv zeta.
    set (start := if Req_dec_T _ 0 then 1 else _).
    split; [apply fallback_length|]. split; [apply fallback_times|].
    set (chart := DashboardApp.fallback_points a e (clock e 0)
                    (Z.to_nat (days + 1)) days 0 start).
    assert (Htimes := fallback_times a e (clock e 0) (Z.to_nat (days + 1)) days 0 start).
    fold chart in Htimes.
    replace (Z.to_nat (days + 1)) with (S (Z.to_nat days)) in Htimes by lia.
    rewrite seq_S, map_app in Htimes. cbn [map Nat.add] in Htimes.
    rewrite <- (last_of_map time chart), Htimes.
    cbn [time]. rewrite last_last. lia.
Qed.

Lemma chart_data_shape_witness :
  (0 <= 30)%Z /\
  List.length (DashboardApp.generateChartData None 30 (steady 0 0) (Dashboard.initial 0))
  = 31%nat.
Proof.
  assert (H : (0 <= 30)%Z) by lia.
  split; [exact H|].
  exact (proj1 (proj2 (chart_data_shape 30 (steady 0 0) (Dashboard.initial 0) H)
                  ltac:(cbn; lia))).
Defined.

Lemma sorted_scaled (c : R) (l : list point) :
  0 <= c ->
  StronglySorted Rle (map value l) ->
  StronglySorted Rle
    (map value (map (fun pt => {| time := time pt; value := value pt * c |}) l)).
Proof.
  intros Hc. induction l as [|x l IH]; cbn; intros Hs; [constructor|].
  apply StronglySorted_inv in Hs as [Hs Hx].
  constructor; [now apply IH|].
  rewrite map_map. cbn. rewrite Forall_map in Hx. rewrite Forall_map.
  eapply Forall_impl; [|exact Hx]. cbn. intros pt Hpt. nra.
Qed.

(** X17: for every state reached from the empty one by deposits and ticks,
    and random draws in [0, 1), the chart [generateChartData] makes without
    default data never goes down from one point to the next, whether it is
    drawn from the history or generated, in either currency. *)
Theorem chart_never_falls (ops : list Dashboard.op) (t0 days : Z) (e : env) (c : string) :
  (forall j, 0 <= random e j < 1) ->
  let a := Dashboard.set_currency c
             (Dashboard.this (Dashboard.run ops (Dashboard.fresh t0))) in
  StronglySorted Rle (map value (DashboardApp.generateChartData None days e a)).
Proof.
  intros Hrnd a.
  destruct (dashboard_run_sound ops (Dashboard.fresh t0) (dashboard_fresh_sound t0))
    as (Hi0 & _ & _ & _ & Hs & _).
  pose proof (run_rate ops (Dashboard.fresh t0)) as Hrate. cbn in Hrate.
  unfold DashboardApp.generateChartData.
  destruct (1 <? _)%nat.
  - subst a. cbn [Dashboard.portfolio Dashboard.set_currency Dashboard.currency].
    destruct (String.eqb c "EUR").
    + apply sorted_scaled; [unfold Dashboard.DEFAULT_BTC_EUR_RATE; lra | exact Hs].
    + replace (map (fun pt => {| time := time pt; value := value pt |})
                   (Dashboard.history (Dashboard.portfolio
                      (Dashboard.this (Dashboard.run ops (Dashboard.fresh t0))))))
        with (Dashboard.history (Dashboard.portfolio
                (Dashboard.this (Dashboard.run ops (Dashboard.fresh t0)))));
        [exact Hs|].
      rewrite <- (map_id (Dashboard.history _)) at 1.
      apply map_ext. now intros [t v].
  - apply fallback_values; [exact Hrnd | | ].
    + subst a. cbn [Dashboard.bot Dashboard.set_currency]. rewrite Hrate. lra.
    + subst a. cbn [Dashboard.portfolio Dashboard.set_currency].
      destruct (Req_dec_T _ 0); lra.
Qed.

Lemma chart_never_falls_witness :
  (forall j, 0 <= random (steady 0 0.25) j < 1) /\
  StronglySorted Rle
    (map value (DashboardApp.generateChartData None 30 (steady 0 0.25)
                  (Dashboard.set_currency "EUR"
                     (Dashboard.this (Dashboard.run [] (Dashboard.fresh 0)))))).
Proof.
  assert (H : forall j, 0 <= random (steady 0 0.25) j < 1) by (intros j; cbn; lra).
  split; [exact H|].
  exact (chart_never_falls [] 0 30 (steady 0 0.25) "EUR" H).
Defined.

(** * Users *)

(** X18: [validateUser] never rejects: whatever the directory holds, loaded
    or not, the answer is valid.  The user returned has the email asked for,
    up to letter case: a listed user when one matches, otherwise a
    placeholder named 'Demo User' or 'Guest User' with the email as typed. *)
Theorem validate_user_accepts (toLowerCase : string -> string)
        (usersData : option (option (list DashboardApp.User))) (email_in : string) :
  let r := DashboardApp.validateUser toLowerCase usersData email_in in
  DashboardApp.valid r = true /\
  toLowerCase (DashboardApp.email (DashboardApp.user r)) = toLowerCase email_in /\
  ((exists users, usersData = Some (Some users) /\ In (DashboardApp.user r) users) \/
   (DashboardApp.email (DashboardApp.user r) = email_in /\
    (DashboardApp.name (DashboardApp.user r) = "Demo User"%string \/
     DashboardApp.name (DashboardApp.user r) = "Guest User"%string))).
Proof.
  intros r. subst r. unfold DashboardApp.validateUser.
  destruct usersData as [[users|]|]; cbn; auto 7.
  destruct (find _ users) as [u|] eqn:Hfind; cbn; auto 7.
  apply find_some in Hfind as [Hin Heq]. apply String.eqb_eq in Heq.
  split; [reflexivity|]. split; [exact Heq|]. left. now exists users.
Qed.

(** * The chart on the canvas *)

Lemma Math_min_le (x : R) (more : list R) (v : R) :
  In v (x :: more) -> SimulatorPage.Math_min x more <= v.
Proof.
  revert x. induction more as [|y more IH]; intros x Hin; cbn.
  - destruct Hin as [->|[]]. lra.
  - destruct Hin as [->|Hin].
    + apply Rmin_l.
    + eapply Rle_trans; [apply Rmin_r | now apply IH].
Qed.

Lemma Math_max_ge (x : R) (more : list R) (v : R) :
  In v (x :: more) -> v <= SimulatorPage.Math_max x more.
Proof.
  revert x. induction more as [|y more IH]; intros x Hin; cbn.
  - destruct Hin as [->|[]]. lra.
  - destruct Hin as [->|Hin].
    + apply Rmax_l.
    + apply Rle_trans with (SimulatorPage.Math_max y more);
        [now apply IH | apply Rmax_r].
Qed.

Lemma div_between (a d lo hi : R) :
  0 < d -> lo * d <= a <= hi * d -> lo <= a / d <= hi.
Proof.
  intros Hd Ha. unfold Rdiv. split.
  - apply Rmult_le_reg_r with d; [exact Hd|].
    rewrite Rmult_assoc, Rinv_l by lra. lra.
  - apply Rmult_le_reg_r with d; [exact Hd|].
    rewrite Rmult_assoc, Rinv_l by lra. lra.
Qed.

(** ** Rounded arithmetic *)

Lemma exact_rounding : rounding exact.
Proof.
  split; unfold exact.
  - intros x y H. exact H.
  - reflexivity.
  - reflexivity.
  - intros x Hx.
    assert (Hu : 0 < / 2 ^ 53) by (apply Rinv_0_lt_compat, pow_lt; lra).
    nra.
Qed.

Section Rounded.
Variable round : R -> R.
Hypothesis Hround : rounding round.

Lemma round_whole (n : Z) : (Z.abs n <= 4294967295)%Z -> round (IZR n) = IZR n.
Proof.
  intros Hn. apply (round_integer round Hround).
  change (2 ^ 53)%Z with 9007199254740992%Z. lia.
Qed.

Lemma round_0 : round 0 = 0.
Proof. apply (round_whole 0). lia. Qed.

Lemma round_1 : round 1 = 1.
Proof. apply (round_whole 1). lia. Qed.

Lemma round_nonneg (x : R) : 0 <= x -> 0 <= round x.
Proof. intros Hx. rewrite <- round_0. now apply (round_monotone round Hround). Qed.

Lemma round_between (a b : Z) (x : R) :
  (Z.abs a <= 4294967295)%Z -> (Z.abs b <= 4294967295)%Z ->
  IZR a <= x <= IZR b -> IZR a <= round x <= IZR b.
Proof.
  intros Ha Hb [Hlo Hhi]. split.
  - rewrite <- (round_whole a Ha). now apply (round_monotone round Hround).
  - rewrite <- (round_whole b Hb). now apply (round_monotone round Hround).
Qed.

Lemma round_unit (x : R) : 0 <= x <= 1 -> 0 <= round x <= 1.
Proof. intros Hx. apply (round_between 0 1); [lia | lia | exact Hx]. Qed.

(** The product of a draw and a number from 2 on rounds to less than that
    number. *)
Lemma round_draw_below (r n : R) :
  random_draw r -> 2 <= n -> round (r * n) < n.
Proof.
  intros [Hr0 Hr1] Hn.
  assert (Hu : 0 < / 2 ^ 53) by (apply Rinv_0_lt_compat, pow_lt; lra).
  destruct (Rlt_dec (r * n) 1) as [Hsmall|Hbig].
  - apply Rle_lt_trans with 1; [|lra].
    rewrite <- round_1. apply (round_monotone round Hround). lra.
  - apply Rle_lt_trans with (r * n * (1 + / 2 ^ 53));
      [apply (round_above round Hround); lra|].
    set (u := / 2 ^ 53) in *.
    apply Rle_lt_trans with ((1 - u) * n * (1 + u)).
    + apply Rmult_le_compat_r; [lra|]. apply Rmult_le_compat_r; lra.
    + assert (Hsq : 0 < u * u * n) by (apply Rmult_lt_0_compat; nra).
      nra.
Qed.

(** [renderChart]'s ratio, and what it makes of it, stay inside the
    canvas. *)
Lemma chart_y_inside (height : Z) (lo hi v : R) :
  (0 <= height <= 4294967295)%Z -> lo <= v <= hi ->
  0 <= SimulatorPage.chart_y round height lo
         (SimulatorPage.or_one (round (hi - lo))) v
    <= IZR height.
Proof.
  intros Hh [Hlo Hhi]. unfold SimulatorPage.chart_y. cbv zeta.
  assert (HZ : 0 <= IZR height) by (apply IZR_le; lia).
  set (r0 := round (hi - lo)).
  assert (Hr0 : 0 <= r0) by (apply round_nonneg; lra).
  set (vm := round (v - lo)).
  assert (Hvm : 0 <= vm <= r0).
  { split; [apply round_nonneg; lra|].
    apply (round_monotone round Hround). lra. }
  set (range := SimulatorPage.or_one r0).
  assert (Hrange : 0 < range /\ vm <= range /\ round range = range).
  { subst range. unfold SimulatorPage.or_one.
    destruct (Req_dec_T r0 0) as [Hflat|Hwide].
    - split; [lra|]. split; [lra | apply round_1].
    - split; [lra|]. split; [lra|]. subst r0. apply (round_round round Hround). }
  destruct Hrange as (Hpos & Hvr & Hfix).
  set (padding := round (range * round 0.1)).
  assert (Hpad : 0 <= padding /\ round padding = padding).
  { split; [|subst padding; apply (round_round round Hround)].
    apply round_nonneg. apply Rmult_le_pos; [lra|]. apply round_nonneg. lra. }
  destruct Hpad as [Hpad Hpadfix].
  set (twice := round (padding * 2)).
  assert (Htwice : padding <= twice).
  { rewrite <- Hpadfix. apply (round_monotone round Hround). lra. }
  set (num := round (vm + padding)).
  set (den := round (range + twice)).
  assert (Hnum : 0 <= num <= den).
  { split; [apply round_nonneg; lra|].
    apply (round_monotone round Hround). lra. }
  assert (Hden : 0 < den).
  { apply Rlt_le_trans with range; [exact Hpos|].
    rewrite <- Hfix. apply (round_monotone round Hround). lra. }
  set (q := round (num / den)).
  assert (Hq : 0 <= q <= 1).
  { apply round_unit. apply div_between; [exact Hden | lra]. }
  set (drop := round (q * IZR height)).
  assert (Hdrop : 0 <= drop <= IZR height).
  { apply (round_between 0 height); [lia | lia |].
    split; [apply Rmult_le_pos; lra|].
    rewrite <- (Rmult_1_l (IZR height)) at 2. apply Rmult_le_compat_r; lra. }
  apply (round_between 0 height); [lia | lia | lra].
Qed.

Lemma chart_x_inside (width : Z) (index length : nat) :
  (0 <= width <= 4294967295)%Z -> (index < length)%nat -> (2 <= length)%nat ->
  0 <= SimulatorPage.chart_x round width index length <= IZR width.
Proof.
  intros Hw Hi Hlen. unfold SimulatorPage.chart_x.
  assert (HZ : 0 <= IZR width) by (apply IZR_le; lia).
  assert (Hn : 0 < INR (length - 1)) by (apply lt_0_INR; lia).
  assert (Hi' : 0 <= INR index <= INR (length - 1)).
  { split; [apply pos_INR | apply le_INR; lia]. }
  set (q := round (INR index / INR (length - 1))).
  assert (Hq : 0 <= q <= 1).
  { apply round_unit. apply div_between; [exact Hn | lra]. }
  apply (round_between 0 width); [lia | lia |].
  split; [apply Rmult_le_pos; lra|].
  rewrite <- (Rmult_1_l (IZR width)) at 2. apply Rmult_le_compat_r; lra.
Qed.

End Rounded.

(** X19: when the history has at least two points, [renderChart] strokes
    one point per history entry, left to right, and every one of them lies
    inside the canvas, between 0 and the width across and between 0 and the
    height down, whatever the rounding of each operation does to the last
    bits; the flat history with its [|| 1] range is included.  The dot drawn
    last sits at the right edge, again inside the canvas.  The canvas has a
    whole width and height, as canvas attributes are; the values of the
    history are not negative and far from overflow. *)
Theorem chart_inside_canvas (round : R -> R) (width height : Z)
        (history : list point) :
  rounding round ->
  (0 <= width <= 4294967295)%Z -> (0 <= height <= 4294967295)%Z ->
  (2 <= List.length history)%nat ->
  Forall (fun pt => 0 <= value pt <= 10 ^ 300) history ->
  List.length (SimulatorPage.chart_line round width height history)
  = List.length history /\
  (forall x y, In (x, y) (SimulatorPage.chart_line round width height history) ->
               0 <= x <= IZR width /\ 0 <= y <= IZR height) /\
  (exists y, SimulatorPage.chart_dot round width height history = Some (IZR width, y) /\
             0 <= y <= IZR height).
Proof.
  intros Hround Hw Hh Hlen _.
  destruct history as [|first [|second rest]]; [cbn in Hlen; lia | cbn in Hlen; lia|].
  set (history := first :: second :: rest) in *.
  set (lo := SimulatorPage.Math_min (value first) (map value (second :: rest))).
  set (hi := SimulatorPage.Math_max (value first) (map value (second :: rest))).
  assert (Hband : forall pt, In pt history ->
                    0 <= SimulatorPage.chart_y round height lo
                           (SimulatorPage.or_one (round (hi - lo))) (value pt)
                      <= IZR height).
  { intros pt Hin. apply chart_y_inside; [exact Hround | exact Hh|].
    assert (Hv : In (value pt) (value first :: map value (second :: rest)))
      by (change (In (value pt) (map value history)); now apply in_map).
    split; [now apply Math_min_le | now apply Math_max_ge]. }
  assert (Hline : SimulatorPage.chart_line round width height history
                  = map (fun ip : nat * point =>
                           (SimulatorPage.chart_x round width (fst ip)
                              (List.length history),
                            SimulatorPage.chart_y round height lo
                              (SimulatorPage.or_one (round (hi - lo)))
                              (value (snd ip))))
                        (combine (seq 0 (List.length history)) history))
    by reflexivity.
  split; [|split].
  - rewrite Hline, length_map, length_combine, length_seq. lia.
  - intros x y Hin. rewrite Hline in Hin.
    apply in_map_iff in Hin as ([i pt] & Heq & Hin). cbn [fst snd] in Heq.
    apply pair_equal_spec in Heq as [Hx Hy]. rewrite <- Hx, <- Hy. clear Hx Hy.
    pose proof (in_combine_l _ _ _ _ Hin) as Hi. apply in_seq in Hi.
    pose proof (in_combine_r _ _ _ _ Hin) as Hpt.
    split; [|now apply Hband].
    apply chart_x_inside; [exact Hround | exact Hw | lia | exact Hlen].
  - exists (SimulatorPage.chart_y round height lo
              (SimulatorPage.or_one (round (hi - lo)))
              (value (last history first))).
    split; [reflexivity|].
    apply Hband.
    destruct (exists_last (l := history) ltac:(discriminate)) as (l' & a & Hl).
    rewrite Hl, last_last. apply in_or_app. right. now left.
Qed.

Lemma chart_inside_canvas_witness :
  rounding exact /\
  (0 <= 300 <= 4294967295)%Z /\ (0 <= 120 <= 4294967295)%Z /\
  Forall (fun pt => 0 <= value pt <= 10 ^ 300)
    [{| time := 0; value := 1 |}; {| time := 5; value := 2 |}] /\
  List.length
    (SimulatorPage.chart_line exact 300 120
       [{| time := 0; value := 1 |}; {| time := 5; value := 2 |}]) = 2%nat.
Proof.
  assert (Hw : (0 <= 300 <= 4294967295)%Z) by lia.
  assert (Hh : (0 <= 120 <= 4294967295)%Z) by lia.
  assert (Hbig : 2 <= 10 ^ 300).
  { apply Rle_trans with (10 ^ 1); [lra|]. apply Rle_pow; [lra | lia]. }
  assert (Hv : Forall (fun pt => 0 <= value pt <= 10 ^ 300)
                 [{| time := 0; value := 1 |}; {| time := 5; value := 2 |}]).
  { constructor; [cbn; lra|]. constructor; [cbn; lra | constructor]. }
  split; [exact exact_rounding|]. split; [exact Hw|]. split; [exact Hh|].
  split; [exact Hv|].
  exact (proj1 (chart_inside_canvas exact 300 120
                  [{| time := 0; value := 1 |}; {| time := 5; value := 2 |}]
                  exact_rounding Hw Hh ltac:(cbn; lia) Hv)).
Defined.

(** * The feed *)

Lemma count_add (icon text time : string) (nodes : list SimulatorPage.node) :
  (count_items (SimulatorPage.addFeedItem icon text time nodes)
   <= S (count_items nodes))%nat /\
  (1 <= count_items (SimulatorPage.addFeedItem icon text time nodes))%nat /\
  last (SimulatorPage.addFeedItem icon text time nodes) (SimulatorPage.Other None)
  = SimulatorPage.FeedItem icon text time.
Proof.
  unfold SimulatorPage.addFeedItem, count_items.
  destruct (SimulatorPage.first_feed_text nodes) as [t|];
    [destruct (String.eqb t _)|];
    rewrite filter_app, length_app, last_last; cbn; repeat split; lia.
Qed.

Lemma count_remove (nodes : list SimulatorPage.node) :
  (1 <= count_items nodes)%nat ->
  count_items (SimulatorPage.remove_first_item nodes) = pred (count_items nodes).
Proof.
  unfold count_items. induction nodes as [|n nodes IH]; cbn; [lia|].
  destruct (SimulatorPage.is_item n) eqn:Hn; cbn.
  - intros _. reflexivity.
  - rewrite Hn. exact IH.
Qed.

Lemma feed_step_bound (f : SimulatorPage.Feed) (ev : SimulatorPage.feed_event) :
  (count_items (SimulatorPage.feedContent f) <= 10)%nat ->
  (1 <= count_items (SimulatorPage.feedContent (SimulatorPage.feed_step f ev)) <= 10)%nat.
Proof.
  assert (Hupd : forall tx block time g,
             (count_items (SimulatorPage.feedContent g) <= 10)%nat ->
             (1 <= count_items
                     (SimulatorPage.feedContent
                        (SimulatorPage.updateNetworkFeed tx block time g)) <= 10)%nat).
  { intros tx block time g Hg. unfold SimulatorPage.updateNetworkFeed.
    cbv zeta. cbn [SimulatorPage.feedContent].
    set (nodes := if String.eqb _ _ then _ else _).
    assert (Hn : (1 <= count_items nodes <= S (count_items (SimulatorPage.feedContent g)))%nat).
    { subst nodes. destruct (String.eqb _ _);
        match goal with
        | |- context [SimulatorPage.addFeedItem ?i ?t ?tm ?ns] =>
            destruct (count_add i t tm ns) as (H1 & H2 & _)
        end; lia. }
    fold (count_items nodes).
    destruct (10 <? count_items nodes)%nat eqn:Hfull.
    - apply Nat.ltb_lt in Hfull. rewrite count_remove by lia. lia.
    - apply Nat.ltb_ge in Hfull. lia. }
  intros Hf. destruct ev as [tx block time | feed tx block time];
    cbn [SimulatorPage.feed_step].
  - now apply Hupd.
  - unfold SimulatorPage.switchFeed. apply Hupd. cbn. lia.
Qed.

(** X20: the feed never shows more than ten items.  Each update adds its
    item at the end and, when that makes eleven, removes the first, oldest
    one; a switch of feed starts again from one item.  So from any feed with
    at most ten items, any sequence of updates and switches keeps it at ten
    or fewer. *)
Theorem feed_at_most_ten (evs : list SimulatorPage.feed_event) (f : SimulatorPage.Feed) :
  (count_items (SimulatorPage.feedContent f) <= 10)%nat ->
  (count_items (SimulatorPage.feedContent (fold_left SimulatorPage.feed_step evs f))
   <= 10)%nat /\
  (forall feed tx block time,
      SimulatorPage.feedContent (SimulatorPage.switchFeed feed tx block time f)
      = [if String.eqb feed "mempool"
         then SimulatorPage.FeedItem (fst tx) (snd tx) time
         else SimulatorPage.FeedItem (fst block) (snd block) time]).
Proof.
  intros Hf. split.
  - revert f Hf. induction evs as [|ev evs IH]; intros f Hf; cbn; [exact Hf|].
    apply IH. now apply feed_step_bound.
  - intros feed tx block time.
    unfold SimulatorPage.switchFeed, SimulatorPage.updateNetworkFeed. cbn.
    destruct (String.eqb feed "mempool"); reflexivity.
Qed.

Lemma feed_at_most_ten_witness :
  (count_items (SimulatorPage.feedContent
     {| SimulatorPage.currentFeed := "mempool";
        SimulatorPage.feedContent :=
          [SimulatorPage.Other (Some "Loading network data..."%string)] |}) <= 10)%nat /\
  (count_items
     (SimulatorPage.feedContent
        (fold_left SimulatorPage.feed_step
           [SimulatorPage.Update ("i", "a") ("j", "b") "10:00"]%string
           {| SimulatorPage.currentFeed := "mempool";
              SimulatorPage.feedContent :=
                [SimulatorPage.Other (Some "Loading network data..."%string)] |}))
   <= 10)%nat.
Proof.
  assert (H : (count_items (SimulatorPage.feedContent
     {| SimulatorPage.currentFeed := "mempool";
        SimulatorPage.feedContent :=
          [SimulatorPage.Other (Some "Loading network data..."%string)] |}) <= 10)%nat)
    by (cbn; lia).
  split; [exact H|].
  exact (proj1 (feed_at_most_ten _ _ H)).
Defined.

(** * The generated texts *)

Lemma floor_between (a b : Z) (x : R) :
  IZR a <= x <= IZR b -> (a <= SimulatorPage.Math_floor x <= b)%Z.
Proof.
  intros [Hlo Hhi]. unfold SimulatorPage.Math_floor.
  destruct (base_Int_part x) as [Hle Hgt]. split.
  - assert (H : (a - 1 < Int_part x)%Z).
    { apply lt_IZR. rewrite minus_IZR. lra. }
    lia.
  - apply le_IZR. lra.
Qed.

Lemma floor_below (b : Z) (x : R) :
  x < IZR b -> (SimulatorPage.Math_floor x <= b - 1)%Z.
Proof.
  intros Hx. unfold SimulatorPage.Math_floor.
  destruct (base_Int_part x) as [Hle _].
  assert (H : (Int_part x < b)%Z) by (apply lt_IZR; lra).
  lia.
Qed.

Section RoundedDraws.
Variable round : R -> R.
Hypothesis Hround : rounding round.

(** [Math.floor(Math.random() * n + a)] for whole [n] and [a]: from [a] to
    [a + n], the latter when the sum rounds up to it. *)
Lemma floor_range (r : R) (n a : Z) :
  random_draw r -> (0 < n)%Z -> (0 <= a)%Z -> (a + n <= 4294967295)%Z ->
  (a <= SimulatorPage.Math_floor (round (round (r * IZR n) + IZR a)) <= a + n)%Z.
Proof.
  intros [Hr0 Hr1] Hn Ha Hsum.
  assert (Hu : 0 < / 2 ^ 53) by (apply Rinv_0_lt_compat, pow_lt; lra).
  assert (HN : 0 < IZR n) by (apply IZR_lt; lia).
  assert (Hprod : 0 <= round (r * IZR n) <= IZR n).
  { apply (round_between round Hround 0 n); [lia | lia |].
    split; [apply Rmult_le_pos; lra|].
    rewrite <- (Rmult_1_l (IZR n)) at 2. apply Rmult_le_compat_r; lra. }
  apply floor_between.
  apply (round_between round Hround a (a + n)); [lia | lia |].
  rewrite plus_IZR. lra.
Qed.

(** [Math.floor(Math.random() * n)] for a whole [n] from 2 on: an index
    below [n]. *)
Lemma floor_index (r n : R) (k : Z) :
  random_draw r -> n = IZR k -> (2 <= k)%Z ->
  (0 <= SimulatorPage.Math_floor (round (r * n)) <= k - 1)%Z.
Proof.
  intros Hr -> Hk.
  assert (HK : 2 <= IZR k) by (apply IZR_le; lia).
  split.
  - apply (floor_between 0 k). split.
    + apply (round_nonneg round Hround). destruct Hr as [Hr0 _].
      apply Rmult_le_pos; lra.
    + left. now apply round_draw_below.
  - apply floor_below. now apply round_draw_below.
Qed.

End RoundedDraws.

Lemma replace_next (pattern replacement : string) (c : ascii) (rest : string) :
  String.prefix pattern (String c rest) = false ->
  SimulatorPage.replace pattern replacement (String c rest)
  = String c (SimulatorPage.replace pattern replacement rest).
Proof. intros H. cbn [SimulatorPage.replace]. now rewrite H. Qed.

Lemma replace_here (pattern replacement s : string) :
  String.prefix pattern s = true ->
  SimulatorPage.replace pattern replacement s
  = (replacement ++ SimulatorPage.drop (String.length pattern) s)%string.
Proof. intros H. destruct s; cbn [SimulatorPage.replace]; now rewrite H. Qed.

Lemma replace_skip (p replacement s1 s2 : string) :
  no_brace s1 = true ->
  SimulatorPage.replace (String "{" p) replacement (s1 ++ s2)
  = (s1 ++ SimulatorPage.replace (String "{" p) replacement s2)%string.
Proof.
  induction s1 as [|c s1 IH]; cbn [append no_brace]; [reflexivity|].
  intros H. apply andb_prop in H as [Hc Hs].
  cbn [SimulatorPage.replace String.prefix].
  destruct (ascii_dec "{" c) as [<-|Hne]; [discriminate|].
  now rewrite (IH Hs).
Qed.

Lemma no_brace_uint (d : uint) : no_brace (NilEmpty.string_of_uint d) = true.
Proof. induction d; cbn; auto. Qed.

Lemma no_brace_number (z : Z) : no_brace (NumberText.Number_toString z) = true.
Proof.
  unfold NumberText.Number_toString.
  destruct (Z.to_int z) as [d|d]; cbn [NilZero.string_of_int].
  - destruct d; try apply no_brace_uint. reflexivity.
  - cbn [no_brace]. destruct d; try apply no_brace_uint. reflexivity.
Qed.

(** One step of a replacement through a text made of literal characters
    and of parts without braces. *)
Ltac replace_step :=
  match goal with
  | |- context [SimulatorPage.replace ?p ?r (String ?c ?rest)] =>
      first [ rewrite (replace_next p r c rest) by reflexivity
            | rewrite (replace_here p r (String c rest)) by reflexivity;
              cbn [SimulatorPage.drop String.length] ]
  | |- context [SimulatorPage.replace (String "{" ?p) ?r (?s1 ++ ?s2)] =>
      rewrite (replace_skip p r s1 s2) by (assumption || apply no_brace_number)
  | |- context [SimulatorPage.replace ?p ?r EmptyString] =>
      change (SimulatorPage.replace p r EmptyString) with EmptyString
  end.

(** X21: with draws as [Math.random()] returns them, and an amount written
    without braces, [generateMempoolTx] always finds its template and leaves
    no placeholder in the text: it returns one of four texts, in which the
    fee is between 10 and 60, the count between 10000 and 60000, and the
    size, of the confirmed transaction as of the mempool, is the one draw
    between 50 and 150; the draw made for [size] appears nowhere.  The upper
    ends are reached when the sum rounds up to them. *)
Theorem mempool_text (round : R -> R) (toFixed4 : R -> string) (e : env) :
  rounding round ->
  (forall j, random_draw (random e j)) ->
  (forall x, no_brace (toFixed4 x) = true) ->
  let amount := toFixed4 (round (round (random e 1 * 10) + round 0.1)) in
  let fee := SimulatorPage.Math_floor (round (round (random e 2 * 50) + 10)) in
  let mempoolSize := SimulatorPage.Math_floor (round (round (random e 4 * 100) + 50)) in
  let count := SimulatorPage.Math_floor (round (round (random e 5 * 50000) + 10000)) in
  (10 <= fee <= 60)%Z /\ (50 <= mempoolSize <= 150)%Z /\ (10000 <= count <= 60000)%Z /\
  In (SimulatorPage.generateMempoolTx round toFixed4 e)
     [Some (0%Z, "New transaction: " ++ amount ++ " BTC | Fee: "
                   ++ NumberText.Number_toString fee ++ " sat/vB");
      Some (1%Z, "Lightning channel opened: " ++ amount ++ " BTC capacity");
      Some (2%Z, "Transaction confirmed in mempool: "
                   ++ NumberText.Number_toString mempoolSize ++ " vB");
      Some (3%Z, "Mempool size: " ++ NumberText.Number_toString mempoolSize
                   ++ " MB | " ++ NumberText.Number_toString count
                   ++ " pending transactions")]%string.
Proof.
  intros Hround Hrnd Hfix amount fee mempoolSize count.
  assert (Hfee : (10 <= fee <= 60)%Z)
    by (pose proof (floor_range round Hround _ 50 10 (Hrnd 2%nat)
                      ltac:(lia) ltac:(lia) ltac:(lia)); subst fee; lia).
  assert (Hsize : (50 <= mempoolSize <= 150)%Z)
    by (pose proof (floor_range round Hround _ 100 50 (Hrnd 4%nat)
                      ltac:(lia) ltac:(lia) ltac:(lia)); subst mempoolSize; lia).
  assert (Hcount : (10000 <= count <= 60000)%Z)
    by (pose proof (floor_range round Hround _ 50000 10000 (Hrnd 5%nat)
                      ltac:(lia) ltac:(lia) ltac:(lia)); subst count; lia).
  split; [exact Hfee|]. split; [exact Hsize|]. split; [exact Hcount|].
  assert (Hamount : no_brace amount = true) by apply Hfix.
  unfold SimulatorPage.generateMempoolTx. cbv zeta.
  fold amount fee mempoolSize count.
  pose proof (floor_index round Hround (random e 0)
                (INR (List.length SimulatorPage.txTypes)) 4
                (Hrnd 0%nat) ltac:(cbn; lra) ltac:(lia)) as Hidx.
  set (index := SimulatorPage.Math_floor
                  (round (random e 0 * INR (List.length SimulatorPage.txTypes)))) in *.
  rewrite (proj2 (Z.ltb_ge index 0)) by lia.
  assert (Hcases : index = 0%Z \/ index = 1%Z \/ index = 2%Z \/ index = 3%Z) by lia.
  clearbody amount fee mempoolSize count index.
  destruct Hcases as [-> | [-> | [-> | ->]]];
    lazymatch goal with
    | |- context [nth_error ?l (Z.to_nat ?k)] =>
        let v := eval vm_compute in (nth_error l (Z.to_nat k)) in
        change (nth_error l (Z.to_nat k)) with v
    end.
  - left. f_equal. f_equal. repeat replace_step. reflexivity.
  - right; left. f_equal. f_equal. repeat replace_step. reflexivity.
  - right; right; left. f_equal. f_equal. repeat replace_step. reflexivity.
  - right; right; right; left. f_equal. f_equal. repeat replace_step. reflexivity.
Qed.

Lemma steady_draws (t : Z) (j : nat) : random_draw (random (steady t (1/2)) j).
Proof.
  unfold random_draw. cbn.
  assert (H : / 2 ^ 53 <= / 2 ^ 1).
  { apply Rinv_le_contravar; [lra|]. apply Rle_pow; [lra | lia]. }
  assert (Hu : 0 < / 2 ^ 53) by (apply Rinv_0_lt_compat, pow_lt; lra).
  lra.
Qed.

Lemma mempool_text_witness :
  rounding exact /\
  (forall j, random_draw (random (steady 0 (1/2)) j)) /\
  (forall x : R, no_brace ((fun _ => "5.1000"%string) x) = true) /\
  In (SimulatorPage.generateMempoolTx exact (fun _ => "5.1000"%string)
        (steady 0 (1/2)))
     [Some (0%Z, "New transaction: " ++ "5.1000" ++ " BTC | Fee: "
                   ++ NumberText.Number_toString
                        (SimulatorPage.Math_floor (exact (exact (1/2 * 50) + 10)))
                   ++ " sat/vB");
      Some (1%Z, "Lightning channel opened: " ++ "5.1000" ++ " BTC capacity");
      Some (2%Z, "Transaction confirmed in mempool: "
                   ++ NumberText.Number_toString
                        (SimulatorPage.Math_floor (exact (exact (1/2 * 100) + 50)))
                   ++ " vB");
      Some (3%Z, "Mempool size: "
                   ++ NumberText.Number_toString
                        (SimulatorPage.Math_floor (exact (exact (1/2 * 100) + 50)))
                   ++ " MB | "
                   ++ NumberText.Number_toString
                        (SimulatorPage.Math_floor
                           (exact (exact (1/2 * 50000) + 10000)))
                   ++ " pending transactions")]%string.
Proof.
  assert (H2 : forall x : R, no_brace ((fun _ => "5.1000"%string) x) = true)
    by (intros x; reflexivity).
  split; [exact exact_rounding|]. split; [exact (steady_draws 0)|].
  split; [exact H2|].
  exact (proj2 (proj2 (proj2
           (mempool_text exact (fun _ => "5.1000"%string) (steady 0 (1/2))
              exact_rounding (steady_draws 0) H2)))).
Defined.

(** X22: with draws as [Math.random()] returns them, [generateBlock] always
    returns one of its three texts, with a height between 800000 and 809999
    and a transaction count between 1000 and 3000, the upper end being
    reached when the sum rounds up to it; the reward shown is always 6.25. *)
Theorem block_text (round : R -> R) (toFixed2 : R -> string) (e : env) :
  rounding round ->
  (forall j, random_draw (random e j)) ->
  let blockHeight :=
    (800000 + SimulatorPage.Math_floor (round (random e 0 * 10000)%R))%Z in
  let txCount := SimulatorPage.Math_floor (round (round (random e 1 * 2000) + 1000)) in
  (800000 <= blockHeight <= 809999)%Z /\ (1000 <= txCount <= 3000)%Z /\
  In (SimulatorPage.generateBlock round toFixed2 e)
     [Some (0%Z, "Block " ++ NumberText.Number_toString blockHeight ++ " mined | "
                   ++ NumberText.Number_toString txCount ++ " transactions");
      Some (1%Z, "Block confirmed: " ++ NumberText.Number_toString blockHeight
                   ++ " | Reward: 6.25 BTC");
      Some (2%Z, "New block: " ++ NumberText.Number_toString blockHeight
                   ++ " | Size: " ++ toFixed2 (round (round (random e 2 * 2) + 1))
                   ++ " MB")]%string.
Proof.
  intros Hround Hrnd blockHeight txCount.
  assert (Hheight : (800000 <= blockHeight <= 809999)%Z).
  { pose proof (floor_index round Hround (random e 0) 10000 10000
                  (Hrnd 0%nat) eq_refl ltac:(lia)) as H.
    subst blockHeight. lia. }
  assert (Hcount : (1000 <= txCount <= 3000)%Z)
    by (pose proof (floor_range round Hround _ 2000 1000 (Hrnd 1%nat)
                      ltac:(lia) ltac:(lia) ltac:(lia)); subst txCount; lia).
  split; [exact Hheight|]. split; [exact Hcount|].
  unfold SimulatorPage.generateBlock. cbv zeta.
  fold blockHeight txCount. cbn [List.length].
  pose proof (floor_index round Hround (random e 3) (INR 3) 3
                (Hrnd 3%nat) ltac:(cbn; lra) ltac:(lia)) as Hidx.
  set (index := SimulatorPage.Math_floor (round (random e 3 * INR 3))) in *.
  rewrite (proj2 (Z.ltb_ge index 0)) by lia.
  assert (Hcases : index = 0%Z \/ index = 1%Z \/ index = 2%Z) by lia.
  clearbody blockHeight txCount index.
  destruct Hcases as [-> | [-> | ->]].
  - left. reflexivity.
  - right; left. reflexivity.
  - right; right; left. reflexivity.
Qed.

Lemma block_text_witness :
  rounding exact /\
  (forall j, random_draw (random (steady 0 (1/2)) j)) /\
  In (SimulatorPage.generateBlock exact (fun _ => "2.00"%string) (steady 0 (1/2)))
     [Some (0%Z, "Block "
                   ++ NumberText.Number_toString
                        (800000 + SimulatorPage.Math_floor (exact (1/2 * 10000)))
                   ++ " mined | "
                   ++ NumberText.Number_toString
                        (SimulatorPage.Math_floor (exact (exact (1/2 * 2000) + 1000)))
                   ++ " transactions");
      Some (1%Z, "Block confirmed: "
                   ++ NumberText.Number_toString
                        (800000 + SimulatorPage.Math_floor (exact (1/2 * 10000)))
                   ++ " | Reward: 6.25 BTC");
      Some (2%Z, "New block: "
                   ++ NumberText.Number_toString
                        (800000 + SimulatorPage.Math_floor (exact (1/2 * 10000)))
                   ++ " | Size: " ++ "2.00" ++ " MB")]%string.
Proof.
  split; [exact exact_rounding|]. split; [exact (steady_draws 0)|].
  exact (proj2 (proj2 (block_text exact (fun _ => "2.00"%string) (steady 0 (1/2))
                         exact_rounding (steady_draws 0)))).
Defined.


(** * The service worker's caches *)

Module ServiceWorkerFacts.
Import ServiceWorker.

Lemma cache_match_app (a b : Cache) (url : string) :
  cache_match (a ++ b) url
  = match cache_match a url with
    | Some r => Some r
    | None => cache_match b url
    end.
Proof.
  induction a as [|[u r] a IH]; simpl; [reflexivity|].
  destruct (String.eqb u url); [reflexivity | exact IH].
Qed.

Lemma cache_match_filter (u : string) (c : Cache) (url : string) :
  cache_match (filter (fun ur => negb (String.eqb (fst ur) u)) c) url
  = if String.eqb u url then None else cache_match c url.
Proof.
  induction c as [|[v r] c IH]; cbn [filter cache_match fst].
  - now destruct (String.eqb u url).
  - destruct (String.eqb_spec v u) as [->|Hvu]; cbn [negb cache_match].
    + rewrite IH. now destruct (String.eqb u url).
    + rewrite IH.
      destruct (String.eqb_spec v url) as [->|Hv],
               (String.eqb_spec u url) as [->|Hu]; congruence.
Qed.

Lemma cache_match_put (u : string) (r : Response) (c : Cache) (url : string) :
  cache_match (cache_put u r c) url
  = if String.eqb u url then Some r else cache_match c url.
Proof.
  unfold cache_put. rewrite cache_match_app, cache_match_filter.
  cbn [cache_match]. now destruct (String.eqb u url), (cache_match c url).
Qed.

Lemma cache_match_put_all (entries : list (string * Response)) (c : Cache)
  (url : string) :
  cache_match (put_all entries c) url
  = match cache_match (List.rev entries) url with
    | Some r => Some r
    | None => cache_match c url
    end.
Proof.
  revert c. induction entries as [|[u r] es IH]; intros c; [reflexivity|].
  change (put_all ((u, r) :: es) c) with (put_all es (cache_put u r c)).
  rewrite IH, cache_match_put. cbn [List.rev]. rewrite cache_match_app.
  cbn [cache_match].
  now destruct (cache_match (List.rev es) url), (String.eqb u url).
Qed.

Lemma fetch_all_match (net : Network) (urls : list string)
  (entries : list (string * Response)) (url : string) :
  fetch_all net urls = Some entries ->
  cache_match (List.rev entries) url
  = if existsb (String.eqb url) urls then net url else None.
Proof.
  revert entries. induction urls as [|u rest IH]; intros entries; cbn [fetch_all existsb].
  - intros [= <-]. reflexivity.
  - destruct (net u) as [r|] eqn:Hu; [|discriminate].
    destruct (ok r); [|discriminate].
    destruct (fetch_all net rest) as [es|]; [|discriminate].
    intros [= <-]. cbn [List.rev]. rewrite cache_match_app, (IH es eq_refl).
    cbn [cache_match]. rewrite (String.eqb_sym url u).
    destruct (String.eqb_spec u url) as [<-|Hne]; cbn [orb].
    + rewrite Hu. now destruct (existsb (String.eqb u) rest).
    + now destruct (existsb (String.eqb url) rest), (net url).
Qed.

Lemma fetch_all_ok (net : Network) (urls : list string) :
  (exists entries, fetch_all net urls = Some entries)
  <-> (forall url, In url urls -> exists r, net url = Some r /\ ok r = true).
Proof.
  induction urls as [|u rest IH]; cbn [fetch_all In].
  - split; [intros _ url [] | intros _; now exists []].
  - split.
    + intros [entries H] url Hin.
      destruct (net u) as [r|] eqn:Hu; [|discriminate].
      destruct (ok r) eqn:Hok; [|discriminate].
      destruct (fetch_all net rest) as [es|] eqn:Hrest; [|discriminate].
      destruct Hin as [<-|Hin]; [now exists r|].
      apply (proj1 IH); [now exists es | exact Hin].
    + intros H.
      destruct (H u (or_introl eq_refl)) as [r [Hu Hok]]. rewrite Hu, Hok.
      destruct (proj2 IH (fun url Hin => H url (or_intror Hin))) as [es Hes].
      rewrite Hes. now eexists.
Qed.

Lemma caches_match_app (a b : CacheStorage) (url : string) :
  caches_match (a ++ b) url
  = match caches_match a url with
    | Some r => Some r
    | None => caches_match b url
    end.
Proof.
  induction a as [|[n c] a IH]; simpl; [reflexivity|].
  destruct (cache_match c url); [reflexivity | exact IH].
Qed.

Lemma caches_match_open (name : string) (cs : CacheStorage) (url : string) :
  caches_match (caches_open name cs) url = caches_match cs url.
Proof.
  unfold caches_open. destruct (has_cache cs name); [reflexivity|].
  rewrite caches_match_app. cbn. now destruct (caches_match cs url).
Qed.

Lemma has_cache_open (name : string) (cs : CacheStorage) :
  has_cache (caches_open name cs) name = true.
Proof.
  unfold caches_open. destruct (has_cache cs name) eqn:H; [exact H|].
  unfold has_cache. rewrite existsb_app. cbn. rewrite String.eqb_refl.
  now rewrite orb_true_r.
Qed.

Lemma updated_answers (name : string) (entries : list (string * Response))
  (cs : CacheStorage) (url : string) (r : Response) :
  has_cache cs name = true ->
  cache_match (List.rev entries) url = Some r ->
  exists r', caches_match (update_cache name (put_all entries) cs) url = Some r'.
Proof.
  intros Hhas Hr. induction cs as [|[n c] cs IH]; [discriminate|].
  cbn [update_cache map fst snd]. cbn [has_cache existsb fst] in Hhas.
  destruct (String.eqb n name) eqn:Hn; cbn [caches_match].
  - rewrite cache_match_put_all, Hr. now exists r.
  - destruct (cache_match c url) as [r'|]; [now exists r'|].
    apply IH. exact Hhas.
Qed.

Lemma activated_answers (entries : list (string * Response))
  (cs : CacheStorage) (url : string) (r : Response) :
  has_cache cs CACHE_NAME = true ->
  cache_match (List.rev entries) url = Some r ->
  caches_match (activate (update_cache CACHE_NAME (put_all entries) cs)) url
  = Some r.
Proof.
  intros Hhas Hr. induction cs as [|[n c] cs IH]; [discriminate|].
  cbn [update_cache map fst snd]. cbn [has_cache existsb fst] in Hhas.
  unfold activate, cacheWhitelist.
  destruct (String.eqb n CACHE_NAME) eqn:Hn;
    cbn [filter existsb fst]; rewrite Hn; cbn [orb caches_match].
  - now rewrite cache_match_put_all, Hr.
  - apply IH. exact Hhas.
Qed.

Lemma in_existsb (url : string) (urls : list string) :
  In url urls -> existsb (String.eqb url) urls = true.
Proof.
  intros H. apply existsb_exists. exists url. split; [exact H|].
  apply String.eqb_refl.
Qed.

End ServiceWorkerFacts.

(** X23: the install handler succeeds exactly when every listed URL is
    fetched with an ok response; when it fails, nothing is added: every
    request is answered as before. *)
Theorem install_all_or_nothing (net : ServiceWorker.Network)
  (cs : ServiceWorker.CacheStorage) :
  (snd (ServiceWorker.install net cs) = true
   <-> forall url, In url ServiceWorker.urlsToCache ->
         exists r, net url = Some r /\ ServiceWorker.ok r = true) /\
  (snd (ServiceWorker.install net cs) = false ->
   forall net' url,
     ServiceWorker.on_fetch net' (fst (ServiceWorker.install net cs)) url
     = ServiceWorker.on_fetch net' cs url).
Proof.
  pose proof (ServiceWorkerFacts.fetch_all_ok net ServiceWorker.urlsToCache) as Hok.
  unfold ServiceWorker.install. cbv zeta.
  destruct (ServiceWorker.fetch_all net ServiceWorker.urlsToCache) as [entries|];
    cbn [fst snd].
  - split; [|discriminate].
    split; [intros _|reflexivity]. apply (proj1 Hok). now exists entries.
  - split.
    + split; [discriminate|]. intros H.
      destruct (proj2 Hok H) as [entries Hentries]. discriminate.
    + intros _ net' url. unfold ServiceWorker.on_fetch.
      now rewrite ServiceWorkerFacts.caches_match_open.
Qed.

(** X24: after a successful install every listed URL is answered without
    the network; once [activate] has run, the answer is the response fetched
    at install time, an ok one, whatever the network does then. *)
Theorem precached_served_offline (net : ServiceWorker.Network)
  (cs : ServiceWorker.CacheStorage) (url : string) :
  snd (ServiceWorker.install net cs) = true ->
  In url ServiceWorker.urlsToCache ->
  (exists r, ServiceWorker.on_fetch ServiceWorker.offline
               (fst (ServiceWorker.install net cs)) url = Some r) /\
  (forall net',
     ServiceWorker.on_fetch net'
       (ServiceWorker.activate (fst (ServiceWorker.install net cs))) url
     = net url) /\
  (exists r, net url = Some r /\ ServiceWorker.ok r = true).
Proof.
  unfold ServiceWorker.install. cbv zeta.
  destruct (ServiceWorker.fetch_all net ServiceWorker.urlsToCache)
    as [entries|] eqn:Hfetch; cbn [fst snd]; [|discriminate].
  intros _ Hin.
  destruct (proj1 (ServiceWorkerFacts.fetch_all_ok net ServiceWorker.urlsToCache)
              (ex_intro _ entries Hfetch) url Hin) as [r [Hr Hok]].
  assert (Hmatch : ServiceWorker.cache_match (List.rev entries) url = Some r).
  { rewrite (ServiceWorkerFacts.fetch_all_match net _ entries url Hfetch).
    now rewrite (ServiceWorkerFacts.in_existsb url _ Hin). }
  pose proof (ServiceWorkerFacts.has_cache_open ServiceWorker.CACHE_NAME cs) as Hhas.
  split; [|split].
  - destruct (ServiceWorkerFacts.updated_answers _ entries _ url r Hhas Hmatch)
      as [r' Hr'].
    exists r'. unfold ServiceWorker.on_fetch. now rewrite Hr'.
  - intros net'. unfold ServiceWorker.on_fetch.
    rewrite (ServiceWorkerFacts.activated_answers entries _ url r Hhas Hmatch).
    now rewrite Hr.
  - now exists r.
Qed.

Lemma precached_served_offline_witness :
  let net : ServiceWorker.Network :=
    fun _ => Some {| ServiceWorker.ok := true; ServiceWorker.body := "page" |} in
  snd (ServiceWorker.install net []) = true /\
  In "/index.html"%string ServiceWorker.urlsToCache /\
  forall net',
    ServiceWorker.on_fetch net'
      (ServiceWorker.activate (fst (ServiceWorker.install net []))) "/index.html"
    = net "/index.html"%string.
Proof.
  intros net.
  assert (H1 : snd (ServiceWorker.install net []) = true) by reflexivity.
  assert (H2 : In "/index.html"%string ServiceWorker.urlsToCache)
    by (right; left; reflexivity).
  split; [exact H1|]. split; [exact H2|].
  exact (proj1 (proj2 (precached_served_offline net [] "/index.html" H1 H2))).
Defined.

(** X25: [activate] keeps the caches named [CACHE_NAME] and no other; a
    request that no cache of that name matches is not answered offline
    afterwards, whatever the deleted caches held. *)
Theorem activate_purges (cs : ServiceWorker.CacheStorage) :
  Forall (fun nc => fst nc = ServiceWorker.CACHE_NAME) (ServiceWorker.activate cs) /\
  (forall c, In (ServiceWorker.CACHE_NAME, c) cs ->
             In (ServiceWorker.CACHE_NAME, c) (ServiceWorker.activate cs)) /\
  (forall url,
     (forall c, In (ServiceWorker.CACHE_NAME, c) cs ->
                ServiceWorker.cache_match c url = None) ->
     ServiceWorker.on_fetch ServiceWorker.offline (ServiceWorker.activate cs) url
     = None).
Proof.
  unfold ServiceWorker.activate, ServiceWorker.cacheWhitelist.
  split; [|split].
  - apply Forall_forall. intros [n c] Hin. apply filter_In in Hin as [_ H].
    cbn [existsb fst] in *. rewrite orb_false_r in H.
    now apply String.eqb_eq.
  - intros c Hin. apply filter_In. split; [exact Hin|].
    cbn [existsb fst]. now rewrite String.eqb_refl.
  - intros url Hnone. unfold ServiceWorker.on_fetch, ServiceWorker.offline.
    induction cs as [|[n c] cs IH]; [reflexivity|].
    cbn [filter existsb fst]. rewrite orb_false_r.
    assert (Hrest : forall c', In (ServiceWorker.CACHE_NAME, c') cs ->
                               ServiceWorker.cache_match c' url = None)
      by (intros c' Hin; apply Hnone; now right).
    destruct (String.eqb_spec n ServiceWorker.CACHE_NAME) as [->|Hn].
    + cbn [ServiceWorker.caches_match].
      rewrite (Hnone c (or_introl eq_refl)). exact (IH Hrest).
    + exact (IH Hrest).
Qed.
